(** * braibot-assetserver: a one-time-download file relay (main.go)

    A shallow embedding of the HTTP handlers of [main.go] and the properties
    of the upload admission and one-shot delivery protocol.

    Conventions.
    - Go strings are byte strings: they are Rocq [string]s (8-bit characters).
      Payloads ([[]byte]) are [list byte].
    - [int64] and [int] values are in [Z]; the code does no arithmetic on them
      beyond comparisons, so no wrap-around occurs.
    - The process environment (files of the upload directory, free space,
      random source, clock, sleeping goroutines) is an explicit [World]
      threaded through the handlers by a state monad; every effect on it is
      appended to a trace.
    - A handler returns what it has written to its [ResponseWriter].
    - A handler runs at one instant of the clock; a sleeping goroutine runs
      as soon as the clock reaches its wake-up time.
    - Library functions are written out as far as the handlers depend on
      them ([strings], [filepath], [unicode/utf8], [encoding/base64],
      [encoding/json], [net/url], the form parsing of [net/http]);
      [http.DetectContentType] is a parameter.
    - The world holds regular files; directories are not in it.
    - A multipart body is given by its parts; its bytes on the wire, which
      the size limit counts, are computed from them.
    - Diagnostic [fmt.Printf] output is not modelled. *)

From Stdlib Require Import ZArith Ascii String List Lia Bool.
From Stdlib Require Import Strings.Byte.
From stdpp Require Import gmap strings list pretty.

Local Open Scope Z_scope.
Local Open Scope string_scope.

(* ===================================================================== *)
(** ** Byte strings: the parts of package [strings] the handlers use     *)
(* ===================================================================== *)

Module strings.

(** 'A'..'Z' move to 'a'..'z', every other byte is kept. *)
Definition lower_byte (c : ascii) : ascii :=
  let n := nat_of_ascii c in
  if ((65 <=? n) && (n <=? 90))%nat then ascii_of_nat (n + 32) else c.

(** [strings.ToLower] on its ASCII path: for a string of bytes below
    [utf8.RuneSelf] Go lowers byte by byte, as here.  For a string with a
    byte from 0x80 on, Go maps every rune through the Unicode tables (and
    rewrites invalid UTF-8), which are not part of this development: there
    this definition lowers the ASCII letters and keeps the other bytes.
    Two strings that this definition makes equal are made equal by Go's as
    well; a statement that needs more than that is made for ASCII strings
    ([is_ascii]). *)
Fixpoint ToLower (s : string) : string :=
  match s with
  | EmptyString => EmptyString
  | String c rest => String (lower_byte c) (ToLower rest)
  end.

(** [HasPrefix s prefix]: [len(s) >= len(prefix) && s[:len(prefix)] == prefix]. *)
Fixpoint HasPrefix (s prefix : string) {struct prefix} : bool :=
  match prefix, s with
  | EmptyString, _ => true
  | String _ _, EmptyString => false
  | String p prefix', String c s' =>
      if Ascii.eqb c p then HasPrefix s' prefix' else false
  end.

(** [s[n:]] for [n <= len(s)]. *)
Fixpoint skip (n : nat) (s : string) {struct n} : string :=
  match n, s with
  | O, _ => s
  | S _, EmptyString => EmptyString
  | S n', String _ s' => skip n' s'
  end.

(** [s[:n]] for [n <= len(s)]. *)
Fixpoint keep (n : nat) (s : string) {struct n} : string :=
  match n, s with
  | O, _ => EmptyString
  | S _, EmptyString => EmptyString
  | S n', String c s' => String c (keep n' s')
  end.

(** [HasSuffix s suffix]:
    [len(s) >= len(suffix) && s[len(s)-len(suffix):] == suffix]. *)
Definition HasSuffix (s suffix : string) : bool :=
  (String.length suffix <=? String.length s)%nat
  && String.eqb (skip (String.length s - String.length suffix) s) suffix.

Definition TrimPrefix (s prefix : string) : string :=
  if HasPrefix s prefix then skip (String.length prefix) s else s.

Definition TrimSuffix (s suffix : string) : string :=
  if HasSuffix s suffix
  then keep (String.length s - String.length suffix) s
  else s.

(** [strings.Contains] for a one-byte needle. *)
Fixpoint ContainsByte (s : string) (c : ascii) : bool :=
  match s with
  | EmptyString => false
  | String d rest => Ascii.eqb d c || ContainsByte rest c
  end.

(** [strings.Cut(s, sep)] for a one-byte separator: the text before the
    first [sep] and the text after it; the whole of [s] and the empty
    string when [sep] does not occur. *)
Fixpoint Cut (s : string) (sep : ascii) : string * string :=
  match s with
  | EmptyString => (EmptyString, EmptyString)
  | String c rest =>
      if Ascii.eqb c sep then (EmptyString, rest)
      else let '(before, after) := Cut rest sep in (String c before, after)
  end.

End strings.

(* ===================================================================== *)
(** ** [filepath.Ext]                                                    *)
(* ===================================================================== *)

Module filepath.

(** The loop of [filepath.Ext] walks the path from its last byte towards
    the first, stops at a path separator, and returns the text from the
    first dot it meets.  [rpath] is the part still to visit, in reverse;
    [seen] is the part already visited, in order. *)
Fixpoint ext_scan (rpath : list ascii) (seen : list ascii) : string :=
  match rpath with
  | [] => ""
  | c :: more =>
      if Ascii.eqb c "/" then ""
      else if Ascii.eqb c "." then string_of_list_ascii (c :: seen)
      else ext_scan more (c :: seen)
  end.

Definition Ext (path : string) : string :=
  ext_scan (rev (list_ascii_of_string path)) [].

(** [filepath.Base] works on the path from its end as well: it strips the
    trailing separators, then walks back to the separator before the last
    element.  [drop_slashes] and [upto_slash] do this on the reversed
    path. *)
Fixpoint drop_slashes (rpath : list ascii) : list ascii :=
  match rpath with
  | [] => []
  | c :: more => if Ascii.eqb c "/" then drop_slashes more else rpath
  end.

Fixpoint upto_slash (rpath : list ascii) : list ascii :=
  match rpath with
  | [] => []
  | c :: more => if Ascii.eqb c "/" then [] else c :: upto_slash more
  end.

(** [filepath.Base]: the last element of the path; [.] for the empty path
    and [/] for a path of separators only. *)
Definition Base (path : string) : string :=
  if String.eqb path "" then "."
  else
    let rpath := drop_slashes (rev (list_ascii_of_string path)) in
    let name := string_of_list_ascii (rev (upto_slash rpath)) in
    if String.eqb name "" then "/" else name.

End filepath.

(* ===================================================================== *)
(** ** [unicode/utf8]                                                    *)
(* ===================================================================== *)

Module utf8.

(** The bytes of U+FFFD, the replacement character. *)
Definition RuneError : string := String "239" (String "191" (String "189" "")).

Definition between (lo hi : nat) (c : ascii) : bool :=
  let n := nat_of_ascii c in ((lo <=? n) && (n <=? hi))%nat.

(** The width [utf8.DecodeRuneInString] reports for the encoding at the
    head of [s]; [None] stands for the answer (RuneError, 1) to a byte that
    starts no encoding, to an encoding cut short and to one with a byte out
    of range (overlong forms, surrogates and values above U+10FFFF
    included).  The ranges are those of the tables [first] and
    [acceptRanges]. *)
Definition width (s : string) : option nat :=
  match s with
  | EmptyString => None
  | String b0 rest =>
      let n0 := nat_of_ascii b0 in
      if (n0 <? 128)%nat then Some 1%nat
      else if (n0 <? 194)%nat then None
      else if (n0 <? 224)%nat then
        match rest with
        | String b1 _ => if between 128 191 b1 then Some 2%nat else None
        | _ => None
        end
      else if (n0 <? 240)%nat then
        let lo := if (n0 =? 224)%nat then 160%nat else 128%nat in
        let hi := if (n0 =? 237)%nat then 159%nat else 191%nat in
        match rest with
        | String b1 (String b2 _) =>
            if between lo hi b1 && between 128 191 b2 then Some 3%nat else None
        | _ => None
        end
      else if (n0 <? 245)%nat then
        let lo := if (n0 =? 240)%nat then 144%nat else 128%nat in
        let hi := if (n0 =? 244)%nat then 143%nat else 191%nat in
        match rest with
        | String b1 (String b2 (String b3 _)) =>
            if between lo hi b1 && between 128 191 b2 && between 128 191 b3
            then Some 4%nat else None
        | _ => None
        end
      else None
  end.

End utf8.

(* ===================================================================== *)
(** ** [encoding/base64]                                                 *)
(* ===================================================================== *)

Module base64.

Definition encodeStd : string :=
  "ABCDEFGHIJKLMNOPQRSTUVWXYZabcdefghijklmnopqrstuvwxyz0123456789+/".
Definition encodeURL : string :=
  "ABCDEFGHIJKLMNOPQRSTUVWXYZabcdefghijklmnopqrstuvwxyz0123456789-_".

Definition StdPadding : ascii := "="%char.

(** The character of a 6-bit value. *)
Definition sextet (alphabet : string) (v : N) : ascii :=
  match String.get (N.to_nat (N.land v 63)) alphabet with
  | Some c => c
  | None => StdPadding
  end.

(** [Encoding.EncodeToString] with padding: three bytes give four
    characters; a remainder of one or two bytes is padded to four. *)
Fixpoint EncodeToString (alphabet : string) (src : list byte) : string :=
  match src with
  | [] => ""
  | [a] =>
      let v := N.shiftl (Byte.to_N a) 16 in
      String (sextet alphabet (N.shiftr v 18))
        (String (sextet alphabet (N.shiftr v 12))
           (String StdPadding (String StdPadding "")))
  | [a; b] =>
      let v := N.lor (N.shiftl (Byte.to_N a) 16) (N.shiftl (Byte.to_N b) 8) in
      String (sextet alphabet (N.shiftr v 18))
        (String (sextet alphabet (N.shiftr v 12))
           (String (sextet alphabet (N.shiftr v 6))
              (String StdPadding "")))
  | a :: b :: c :: rest =>
      let v := N.lor (N.lor (N.shiftl (Byte.to_N a) 16)
                            (N.shiftl (Byte.to_N b) 8)) (Byte.to_N c) in
      String (sextet alphabet (N.shiftr v 18))
        (String (sextet alphabet (N.shiftr v 12))
           (String (sextet alphabet (N.shiftr v 6))
              (String (sextet alphabet v)
                 (EncodeToString alphabet rest))))
  end.

(** The 6-bit value of a character of the alphabet. *)
Fixpoint index_of (alphabet : string) (c : ascii) (i : N) : option N :=
  match alphabet with
  | EmptyString => None
  | String d rest => if Ascii.eqb c d then Some i else index_of rest c (i + 1)
  end.

Definition decodeMap (alphabet : string) (c : ascii) : option N :=
  index_of alphabet c 0.

Definition byte_of_N (n : N) : byte :=
  match Byte.of_N (N.land n 255) with
  | Some b => b
  | None => "000"%byte
  end.

(** Quanta of four characters; padding is only accepted in the last one.
    (Non-strict decoding: trailing bits of a padded quantum are ignored.) *)
Fixpoint decode_quanta (alphabet : string) (src : list ascii)
  : option (list byte) :=
  match src with
  | [] => Some []
  | c0 :: c1 :: c2 :: c3 :: rest =>
      match decodeMap alphabet c0, decodeMap alphabet c1 with
      | Some v0, Some v1 =>
          if Ascii.eqb c2 StdPadding then
            if Ascii.eqb c3 StdPadding then
              match rest with
              | [] => Some [byte_of_N (N.lor (N.shiftl v0 2) (N.shiftr v1 4))]
              | _ => None
              end
            else None
          else
            match decodeMap alphabet c2 with
            | None => None
            | Some v2 =>
                let b0 := byte_of_N (N.lor (N.shiftl v0 2) (N.shiftr v1 4)) in
                let b1 := byte_of_N (N.lor (N.shiftl v1 4) (N.shiftr v2 2)) in
                if Ascii.eqb c3 StdPadding then
                  match rest with
                  | [] => Some [b0; b1]
                  | _ => None
                  end
                else
                  match decodeMap alphabet c3 with
                  | None => None
                  | Some v3 =>
                      let b2 := byte_of_N (N.lor (N.shiftl v2 6) v3) in
                      match decode_quanta alphabet rest with
                      | Some more => Some (b0 :: b1 :: b2 :: more)
                      | None => None
                      end
                  end
            end
      | _, _ => None
      end
  | _ => None
  end.

(** [Encoding.DecodeString]: carriage returns and line feeds are skipped,
    anything else outside the alphabet is a [CorruptInputError]. *)
Definition is_newline (c : ascii) : bool :=
  Ascii.eqb c "010" || Ascii.eqb c "013".

Definition DecodeString (alphabet : string) (s : string) : option (list byte) :=
  decode_quanta alphabet
    (List.filter (fun c => negb (is_newline c)) (list_ascii_of_string s)).

Module URLEncoding.
Definition EncodeToString := EncodeToString encodeURL.
End URLEncoding.

Module StdEncoding.
Definition DecodeString := DecodeString encodeStd.
Definition EncodeToString := EncodeToString encodeStd.
End StdEncoding.

End base64.

(* ===================================================================== *)
(** ** Configuration and the JSON response                               *)
(* ===================================================================== *)

Record Config := {
  MaxFileSize : Z;
  APIKey : string;
  UploadDir : string;
  Port : string;
  Domain : string;
  AllowedTypes : list string;
}.

Record Response := {
  Success : bool;
  Message : string;
  URL : string;
  RespMaxFileSize : Z;
}.

(** Go errors that the handlers see.  [error_Error] is the text that [%v]
    prints. *)
Inductive error :=
| ErrConfig (msg : string)
| ErrEntropy
| ErrCreate (path : string)
| ErrWrite (path : string).

Definition error_Error (e : error) : string :=
  match e with
  | ErrConfig msg => msg
  | ErrEntropy => "unexpected EOF"
  | ErrCreate path => "open " +:+ path +:+ ": permission denied"
  | ErrWrite path => "write " +:+ path +:+ ": no space left on device"
  end.

Definition defaultAllowedTypes : list string :=
  [ "image/jpeg"; "image/jpg"; "image/pjpeg";
    "image/png";
    "image/gif";
    "image/webp";
    "image/svg+xml";
    "image/*";
    "audio/mpeg"; "audio/ogg"; "audio/wav"; "audio/webm"; "audio/aac" ].

(** [loadConfig] after [json.Unmarshal]: [parsed] is the content of
    config.json; the result is the value of the global [config], or the
    error that makes [init] stop the process. *)
Definition loadConfig (parsed : Config) : Config + error :=
  if (MaxFileSize parsed <=? 0)%Z
  then inr (ErrConfig "max_file_size must be greater than 0")
  else if String.eqb (APIKey parsed) "" then inr (ErrConfig "api_key cannot be empty")
  else if String.eqb (UploadDir parsed) ""
  then inr (ErrConfig "upload_dir cannot be empty")
  else
    let port := if String.eqb (Port parsed) "" then ":8080" else Port parsed in
    if String.eqb (Domain parsed) "" then inr (ErrConfig "domain cannot be empty")
    else
      let allowed :=
        if (List.length (AllowedTypes parsed) =? 0)%nat
        then defaultAllowedTypes else AllowedTypes parsed in
      inl {| MaxFileSize := MaxFileSize parsed;
             APIKey := APIKey parsed;
             UploadDir := UploadDir parsed;
             Port := port;
             Domain := Domain parsed;
             AllowedTypes := allowed |}.

(** A configuration the running server can have. *)
Definition loaded (config : Config) : Prop :=
  exists parsed, loadConfig parsed = inl config.

(** A JSON document as its reader sees it: the members of an object in
    order, strings with their escapes resolved. *)
Inductive JSONValue :=
| JBool (b : bool)
| JString (s : string)
| JNumber (n : Z).

(** The loop of [encoding/json] over a Go string.  A byte at which
    [utf8.DecodeRuneInString] answers (RuneError, 1) is written as the
    escape of U+FFFD; every other rune is written so that the reader gets
    its bytes back.  [pending] counts the bytes of the current rune that
    are still to be copied. *)
Fixpoint json_scan (pending : nat) (s : string) : string :=
  match s with
  | EmptyString => EmptyString
  | String b rest =>
      match pending with
      | S k => String b (json_scan k rest)
      | O =>
          match utf8.width s with
          | Some n => String b (json_scan (n - 1) rest)
          | None => utf8.RuneError +:+ json_scan 0 rest
          end
      end
  end.

(** What the reader of the document gets for the Go string [s]: [s] itself
    when it is valid UTF-8, and otherwise [s] with U+FFFD in place of each
    offending byte. *)
Definition json_string (s : string) : string := json_scan 0 s.

(** [encoding/json] output of a [Response]; [omitempty] drops an empty
    [url] and a zero [max_file_size]. *)
Definition json_Response (r : Response) : list (string * JSONValue) :=
  ([("success", JBool (Success r));
    ("message", JString (json_string (Message r)))]
   ++ (if String.eqb (URL r) "" then []
       else [("url", JString (json_string (URL r)))])
   ++ (if (RespMaxFileSize r =? 0)%Z then []
       else [("max_file_size", JNumber (RespMaxFileSize r))]))%list.

(** The member of a JSON object, if present. *)
Fixpoint json_member (key : string) (obj : list (string * JSONValue))
  : option JSONValue :=
  match obj with
  | [] => None
  | (k, v) :: rest => if String.eqb k key then Some v else json_member key rest
  end.

(* ===================================================================== *)
(** ** Requests                                                          *)
(* ===================================================================== *)

(** One part of a multipart/form-data body.  [FormName] and [FileName] are
    the parameters [name] and [filename] of its Content-Disposition header,
    as sent; [PartHeader] holds the other header lines of the part, keys in
    canonical form. *)
Record Part := {
  FormName : string;
  FileName : string;
  PartHeader : list (string * string);
  Content : list byte;
}.

(** A request body is either the bytes as sent, or, for a body that the
    boundary of the request's Content-Type splits into parts, those parts. *)
Inductive RequestBody :=
| RawBody (bytes : string)
| MultipartBody (boundary : string) (parts : list Part).

Record Request := {
  Method : string;
  URLPath : string;
  RawQuery : string;
  Header : list (string * string);
  Body : RequestBody;
}.

(** Headers and form values are ordered lists of pairs; [Get] and
    [FormValue] return the first value of a key, or the empty string. *)
Fixpoint first_value (h : list (string * string)) (key : string) : string :=
  match h with
  | [] => ""
  | (k, v) :: rest => if String.eqb k key then v else first_value rest key
  end.

Definition CRLF : string := String "013" (String "010" "").
Definition dquote : string := String "034" "".

Definition wire_header (kv : string * string) : string :=
  fst kv +:+ ": " +:+ snd kv +:+ CRLF.

(** The bytes of one part on the wire: the delimiter line, the
    Content-Disposition line, the other header lines, an empty line, the
    content and the line break that precedes the next delimiter. *)
Definition wire_part (boundary : string) (p : Part) : string :=
  "--" +:+ boundary +:+ CRLF
  +:+ "Content-Disposition: form-data; name=" +:+ dquote +:+ FormName p +:+ dquote
  +:+ (if String.eqb (FileName p) "" then ""
       else "; filename=" +:+ dquote +:+ FileName p +:+ dquote)
  +:+ CRLF
  +:+ String.concat "" (List.map wire_header (PartHeader p))
  +:+ CRLF
  +:+ string_of_list_byte (Content p) +:+ CRLF.

(** The bytes of a body on the wire, up to and including the closing
    delimiter. *)
Definition wire (b : RequestBody) : string :=
  match b with
  | RawBody bytes => bytes
  | MultipartBody boundary parts =>
      String.concat "" (List.map (wire_part boundary) parts)
      +:+ "--" +:+ boundary +:+ "--"
  end.

(* ===================================================================== *)
(** ** [net/url]: query strings                                          *)
(* ===================================================================== *)

Module url.

Definition unhex (c : ascii) : option nat :=
  let n := nat_of_ascii c in
  if ((48 <=? n) && (n <=? 57))%nat then Some (n - 48)%nat
  else if ((97 <=? n) && (n <=? 102))%nat then Some (n - 97 + 10)%nat
  else if ((65 <=? n) && (n <=? 70))%nat then Some (n - 65 + 10)%nat
  else None.

(** [QueryUnescape]: ['+'] is a space, [%XX] is the byte XX; a ['%'] not
    followed by two hexadecimal digits is an [EscapeError]. *)
Fixpoint QueryUnescape (s : string) : option string :=
  match s with
  | EmptyString => Some EmptyString
  | String c rest =>
      if Ascii.eqb c "%" then
        match rest with
        | String h (String l rest') =>
            match unhex h, unhex l, QueryUnescape rest' with
            | Some hi, Some lo, Some more =>
                Some (String (ascii_of_nat (16 * hi + lo)) more)
            | _, _, _ => None
            end
        | _ => None
        end
      else
        match QueryUnescape rest with
        | Some more => Some (String (if Ascii.eqb c "+" then " "%char else c) more)
        | None => None
        end
  end.

(** The pieces of a query between ['&'] separators. *)
Fixpoint split_amp (s : string) (cur : string) : list string :=
  match s with
  | EmptyString => [String.rev cur]
  | String c rest =>
      if Ascii.eqb c "&" then String.rev cur :: split_amp rest ""
      else split_amp rest (String c cur)
  end.

(** [parseQuery]: the pairs in order of appearance, and whether an error
    was met (a semicolon, a bad escape); a piece in error is dropped, the
    others are kept. *)
Fixpoint parse_pieces (pieces : list string) : list (string * string) * bool :=
  match pieces with
  | [] => ([], false)
  | piece :: rest =>
      let '(more, err) := parse_pieces rest in
      if strings.ContainsByte piece ";" then (more, true)
      else if String.eqb piece "" then (more, err)
      else
        let '(key, value) := strings.Cut piece "=" in
        match QueryUnescape key with
        | None => (more, true)
        | Some key1 =>
            match QueryUnescape value with
            | None => (more, true)
            | Some value1 => ((key1, value1) :: more, err)
            end
        end
  end.

Definition ParseQuery (query : string) : list (string * string) * bool :=
  parse_pieces (split_amp query "").

End url.

(* ===================================================================== *)
(** ** [filepath.Clean] and [filepath.Join] (Unix)                       *)
(* ===================================================================== *)

Module path.

(** The elements of a path between ['/'] separators. *)
Fixpoint elements (s : string) (cur : string) : list string :=
  match s with
  | EmptyString => [String.rev cur]
  | String c rest =>
      if Ascii.eqb c "/" then String.rev cur :: elements rest ""
      else elements rest (String c cur)
  end.

(** One pass over the elements; [out] is the cleaned path so far, last
    element first.  Empty and ["."] elements vanish; [".."] removes the
    element before it, is dropped at the root, and is kept otherwise. *)
Fixpoint clean_elements (rooted : bool) (elems : list string) (out : list string)
  : list string :=
  match elems with
  | [] => List.rev out
  | e :: rest =>
      if String.eqb e "" || String.eqb e "." then clean_elements rooted rest out
      else if String.eqb e ".." then
        match out with
        | top :: below =>
            if String.eqb top ".." then clean_elements rooted rest (e :: out)
            else clean_elements rooted rest below
        | [] =>
            if rooted then clean_elements rooted rest out
            else clean_elements rooted rest (e :: out)
        end
      else clean_elements rooted rest (e :: out)
  end.

Definition Clean (p : string) : string :=
  let rooted := strings.HasPrefix p "/" in
  let cleaned :=
    (if rooted then "/" else "")
    +:+ String.concat "/" (clean_elements rooted (elements p "") []) in
  if String.eqb cleaned "" then "." else cleaned.

(** [filepath.Join] of two elements: empty elements are ignored, the rest
    is joined by a separator and cleaned; all empty gives the empty
    string. *)
Definition Join (dir name : string) : string :=
  if String.eqb dir "" then
    if String.eqb name "" then "" else Clean name
  else if String.eqb name "" then Clean dir
  else Clean (dir +:+ "/" +:+ name).

End path.

(* ===================================================================== *)
(** ** The environment of the process                                    *)
(* ===================================================================== *)

(** Effects on the environment, in the order they happen. *)
Inductive Event :=
| EvReadBody (n : nat)                  (* bytes drawn from the request body *)
| EvRandRead (n : nat)                  (* bytes drawn from crypto/rand *)
| EvRandFailed
| EvCreate (path : string)              (* os.Create succeeded *)
| EvCreateFailed (path : string)
| EvWrite (path : string) (n : nat)     (* bytes written to an open file *)
| EvOpen (path : string)                (* os.Open succeeded *)
| EvOpenFailed (path : string)
| EvStream (path : string) (n : nat)    (* io.Copy(w, file) has returned *)
| EvGo (due : Z) (path : string)        (* goroutine started: sleep, then remove *)
| EvRemove (path : string).             (* os.Remove called *)

Record World := {
  files : gmap string (list byte);   (* regular files by path *)
  unwritable : gset string;          (* paths at which os.Create fails *)
  free : nat;                        (* bytes the volume can still take *)
  entropy : list byte;               (* bytes crypto/rand can still supply *)
  now : Z;                           (* monotonic clock, nanoseconds *)
  sleeping : list (Z * string);      (* goroutines asleep: wake-up time, path *)
  trace : list Event;                (* effects so far, oldest first *)
}.

Definition set_files (f : gmap string (list byte)) (w : World) : World :=
  {| files := f; unwritable := unwritable w; free := free w;
     entropy := entropy w; now := now w; sleeping := sleeping w;
     trace := trace w |}.
Definition set_free (n : nat) (w : World) : World :=
  {| files := files w; unwritable := unwritable w; free := n;
     entropy := entropy w; now := now w; sleeping := sleeping w;
     trace := trace w |}.
Definition set_entropy (e : list byte) (w : World) : World :=
  {| files := files w; unwritable := unwritable w; free := free w;
     entropy := e; now := now w; sleeping := sleeping w;
     trace := trace w |}.
Definition set_now (t : Z) (w : World) : World :=
  {| files := files w; unwritable := unwritable w; free := free w;
     entropy := entropy w; now := t; sleeping := sleeping w;
     trace := trace w |}.
Definition set_sleeping (s : list (Z * string)) (w : World) : World :=
  {| files := files w; unwritable := unwritable w; free := free w;
     entropy := entropy w; now := now w; sleeping := s;
     trace := trace w |}.
Definition log (e : Event) (w : World) : World :=
  {| files := files w; unwritable := unwritable w; free := free w;
     entropy := entropy w; now := now w; sleeping := sleeping w;
     trace := (trace w ++ [e])%list |}.

(** Handlers are computations over the world. *)
Definition IO (A : Type) : Type := World -> A * World.

Definition ret {A : Type} (a : A) : IO A := fun w => (a, w).
Definition bind {A B : Type} (m : IO A) (k : A -> IO B) : IO B :=
  fun w => let '(a, w') := m w in k a w'.

Declare Scope io_scope.
Delimit Scope io_scope with io.
Notation "'let!' x ':=' m 'in' k" := (bind m (fun x => k))
  (at level 10, x name, m at level 100, k at level 200, only parsing) : io_scope.

(** [rand.Read(b)] for [len(b) = n]: all [n] bytes or an error. *)
Definition rand_Read (n : nat) : IO (list byte + error) :=
  fun w =>
    if (n <=? List.length (entropy w))%nat
    then (inl (take n (entropy w)),
          log (EvRandRead n) (set_entropy (drop n (entropy w)) w))
    else (inr ErrEntropy, log EvRandFailed w).

Definition file_size (w : World) (path : string) : nat :=
  match files w !! path with
  | Some content => List.length content
  | None => O
  end.

(** [os.Create]: creates the file or truncates it; the handle is the path. *)
Definition os_Create (path : string) : IO (string + error) :=
  fun w =>
    if decide (path ∈ unwritable w)
    then (inr (ErrCreate path), log (EvCreateFailed path) w)
    else (inl path,
          log (EvCreate path)
            (set_free (free w + file_size w path)
               (set_files (<[path := []]> (files w)) w))).

(** [io.Copy(dst, data)] into an open file: the bytes that fit are written;
    a short write is an error. *)
Definition io_Copy_file (dst : string) (data : list byte) : IO (Z + error) :=
  fun w =>
    let n := Nat.min (List.length data) (free w) in
    let old := default [] (files w !! dst) in
    let w' := log (EvWrite dst n)
                (set_free (free w - n)
                   (set_files (<[dst := (old ++ take n data)%list]> (files w)) w)) in
    if (n <? List.length data)%nat then (inr (ErrWrite dst), w')
    else (inl (Z.of_nat n), w').

(** [os.Open] of the path of a regular file, or of a path at which there
    is nothing: the handle is the path.  (A path that names a directory,
    which [os.Open] opens as well, is outside the world.) *)
Definition os_Open (path : string) : IO (option string) :=
  fun w =>
    match files w !! path with
    | Some _ => (Some path, log (EvOpen path) w)
    | None => (None, log (EvOpenFailed path) w)
    end.

(** [file.Stat().Size()] of an open file. *)
Definition file_Size (file : string) : IO Z :=
  fun w => (Z.of_nat (file_size w file), w).

(** [io.Copy(w, file)]: the bytes the response writer receives. *)
Definition io_Copy_response (file : string) : IO (list byte) :=
  fun w =>
    let content := default [] (files w !! file) in
    (content, log (EvStream file (List.length content)) w).

Definition time_Second : Z := 1000000000.

(** [go func() { time.Sleep(d); os.Remove(path) }()]: the goroutine is
    started and sleeps; the handler goes on. *)
Definition go_sleep_Remove (d : Z) (path : string) : IO unit :=
  fun w =>
    (tt, log (EvGo (now w + d) path)
           (set_sleeping (sleeping w ++ [(now w + d, path)])%list w)).

(** [os.Remove]: the result is ignored by the caller. *)
Definition os_Remove (path : string) (w : World) : World :=
  log (EvRemove path)
    (set_free (free w + file_size w path)
       (set_files (delete path (files w)) w)).

(** Time passes: the clock moves on by [d] and the goroutines whose sleep
    is over run, in the order they were started. *)
Definition advance (d : Z) (w : World) : World :=
  let t := now w + Z.max 0 d in
  let due := List.filter (fun g => (fst g <=? t)%Z) (sleeping w) in
  let rest := List.filter (fun g => negb (fst g <=? t)%Z) (sleeping w) in
  List.fold_left (fun acc g => os_Remove (snd g) acc) due
    (set_sleeping rest (set_now t w)).

(* ===================================================================== *)
(** ** [net/http]: headers, forms, responses                             *)
(* ===================================================================== *)

Module http.

(** [textproto.CanonicalMIMEHeaderKey] on a key made of token bytes: the
    first letter and every letter after a hyphen in upper case, the other
    letters in lower case. *)
Fixpoint canonical (upper : bool) (s : string) : string :=
  match s with
  | EmptyString => EmptyString
  | String c rest =>
      let n := nat_of_ascii c in
      let c' :=
        if upper && (97 <=? n)%nat && (n <=? 122)%nat then ascii_of_nat (n - 32)
        else if negb upper && (65 <=? n)%nat && (n <=? 90)%nat then ascii_of_nat (n + 32)
        else c in
      String c' (canonical (Ascii.eqb c' "-") rest)
  end.

Definition CanonicalHeaderKey (s : string) : string := canonical true s.

(** [Header.Get(key)]; the keys stored in a header are canonical. *)
Definition Get (h : list (string * string)) (key : string) : string :=
  first_value h (CanonicalHeaderKey key).

Definition StatusOK : Z := 200.
Definition StatusUnauthorized : Z := 401.
Definition StatusNotFound : Z := 404.
Definition StatusMethodNotAllowed : Z := 405.
Definition StatusInternalServerError : Z := 500.

Definition MethodGet : string := "GET".
Definition MethodPost : string := "POST".

(** The limit of [ParseForm] on a url-encoded request body: 10 MB. *)
Definition maxFormSize : Z := Z.shiftl 10 20.

(** What a handler has written to its [ResponseWriter]. *)
Inductive Payload :=
| Text (s : string)
| JSON (obj : list (string * JSONValue))
| Bytes (b : list byte).

Record Written := {
  StatusCode : Z;
  Headers : list (string * string);
  Payload_ : Payload;
}.

(** [http.Error(w, msg, code)]. *)
Definition Error (msg : string) (code : Z) : Written :=
  {| StatusCode := code;
     Headers := [("Content-Type", "text/plain; charset=utf-8");
                 ("X-Content-Type-Options", "nosniff")];
     Payload_ := Text (msg +:+ String "010" "") |}.

(** The fields of a parsed form: values in the order [FormValue] searches
    them, and the file parts. *)
Record Form := {
  Value : list (string * string);
  File : list Part;
}.

(** [Part.FileName()], which becomes [FileHeader.Filename]: nothing when
    the parameter is empty, and otherwise its last element only. *)
Definition Filename (p : Part) : string :=
  if String.eqb (FileName p) "" then "" else filepath.Base (FileName p).

(** A part without a name is skipped; one without a file name is a value,
    the others are files. *)
Definition is_value (p : Part) : bool :=
  negb (String.eqb (FormName p) "") && String.eqb (Filename p) "".
Definition is_file (p : Part) : bool :=
  negb (String.eqb (FormName p) "") && negb (String.eqb (Filename p) "").

(** The number of parts [mime/multipart] reads before it gives up. *)
Definition maxParts : nat := 1000.

Definition part_value (p : Part) : string * string :=
  (FormName p, string_of_list_byte (Content p)).

(** [Request.ParseForm] of a POST whose Content-Type is
    application/x-www-form-urlencoded: at most [maxFormSize + 1] bytes of
    the body are read; a longer body, or an error in the body or in the
    URL query, is an error.  Body values come before query values. *)
Definition ParseForm (r : Request) : IO (option Form) :=
  fun w =>
    let body := wire (Body r) in
    let len := Z.of_nat (String.length body) in
    let w' := log (EvReadBody (Z.to_nat (Z.min len (maxFormSize + 1)))) w in
    let '(query_values, query_err) := url.ParseQuery (RawQuery r) in
    if (len >? maxFormSize)%Z then (None, w')
    else
      let '(body_values, body_err) := url.ParseQuery body in
      if body_err || query_err then (None, w')
      else (Some {| Value := (body_values ++ query_values)%list; File := [] |}, w').

(** [r.Body = http.MaxBytesReader(w, r.Body, limit)] followed by
    [r.ParseMultipartForm(maxMemory)].  The reader draws at most
    [limit + 1] bytes, hands at most [limit] of them to the parser and then
    fails, so a body longer than [limit] does not parse; neither does one
    of more than [maxParts] parts, nor one that is not multipart.  (Where
    the parser gives up before the end of the body, the count of the event
    is an upper bound.)
    Within the limit every part is held in memory ([maxMemory] is not
    reached).  Query values come before the values of the parts; an error
    in the URL query is returned at the end. *)
Definition ParseMultipartForm (limit maxMemory : Z) (r : Request)
  : IO (option Form) :=
  fun w =>
    let len := Z.of_nat (String.length (wire (Body r))) in
    let w' := log (EvReadBody (Z.to_nat (Z.min len (limit + 1)))) w in
    let '(query_values, query_err) := url.ParseQuery (RawQuery r) in
    match Body r with
    | RawBody _ => (None, w')
    | MultipartBody _ parts =>
        if (len >? limit)%Z then (None, w')
        else if (maxParts <? List.length parts)%nat then (None, w')
        else if query_err then (None, w')
        else
          (Some {| Value := (query_values
                             ++ List.map part_value (List.filter is_value parts))%list;
                   File := List.filter is_file parts |}, w')
    end.

(** [Request.FormValue(key)] on a parsed form. *)
Definition FormValue (f : Form) (key : string) : string :=
  first_value (Value f) key.

(** [Request.FormFile(key)]: the first file part of that name. *)
Definition FormFile (f : Form) (key : string) : option Part :=
  List.find (fun p => String.eqb (FormName p) key) (File f).

End http.

(* ===================================================================== *)
(** ** The handlers of main.go                                           *)
(* ===================================================================== *)

Section Handlers.

Local Open Scope io_scope.

(** The global [config], set once by [init]. *)
Variable config : Config.

(** [http.DetectContentType]: the sniffing table of net/http. *)
Variable DetectContentType : list byte -> string.

Definition generateRandomFilename (originalFilename : string)
  : IO (string + error) :=
  let ext := filepath.Ext originalFilename in
  let! r := rand_Read 16 in
  match r with
  | inr err => ret (inr err)
  | inl b =>
      let randomName := base64.URLEncoding.EncodeToString b in
      ret (inl (randomName +:+ ext))
  end.

(** First loop of [isAllowedFileType]. *)
Fixpoint exact_loop (contentTypeLower : string) (allowed : list string) : bool :=
  match allowed with
  | [] => false
  | allowedType :: rest =>
      let allowedTypeLower := strings.ToLower allowedType in
      if String.eqb contentTypeLower allowedTypeLower then true
      else exact_loop contentTypeLower rest
  end.

(** Second loop of [isAllowedFileType]. *)
Fixpoint wildcard_loop (contentTypeLower : string) (allowed : list string) : bool :=
  match allowed with
  | [] => false
  | allowedType :: rest =>
      let allowedTypeLower := strings.ToLower allowedType in
      if strings.HasSuffix allowedTypeLower "/*" then
        let prefix := strings.TrimSuffix allowedTypeLower "/*" in
        if strings.HasPrefix contentTypeLower prefix then true
        else wildcard_loop contentTypeLower rest
      else wildcard_loop contentTypeLower rest
  end.

Definition isAllowedFileType (contentType : string) : bool :=
  let contentTypeLower := strings.ToLower contentType in
  if exact_loop contentTypeLower (AllowedTypes config) then true
  else if wildcard_loop contentTypeLower (AllowedTypes config) then true
  else false.

Definition sendJSONResponse (success : bool) (message url : string)
  : http.Written :=
  {| http.StatusCode := http.StatusOK;
     http.Headers := [("Content-Type", "application/json")];
     http.Payload_ :=
       http.JSON (json_Response {| Success := success; Message := message;
                                   URL := url; RespMaxFileSize := 0 |}) |}.

Definition saveFileAndGenerateURL (filename : string) (data : list byte)
  : IO (string + error) :=
  let filepath := path.Join (UploadDir config) filename in
  let! created := os_Create filepath in
  match created with
  | inr err => ret (inr err)
  | inl dst =>
      let! copied := io_Copy_file dst data in
      match copied with
      | inr err => ret (inr err)
      | inl _ =>
          let downloadURL :=
            "https://" +:+ Domain config +:+ "/download/" +:+ filename in
          ret (inl downloadURL)
      end
  end.

Definition handleMultipartUpload (r : Request) : IO http.Written :=
  let! parsed := http.ParseMultipartForm (MaxFileSize config) (MaxFileSize config) r in
  match parsed with
  | None => ret (sendJSONResponse false "File too large" "")
  | Some form =>
      match http.FormFile form "file" with
      | None => ret (sendJSONResponse false "Error retrieving file" "")
      | Some header =>
          let fileData := Content header in
          if (Z.of_nat (List.length fileData) >? MaxFileSize config)%Z
          then ret (sendJSONResponse false "File too large" "")
          else
            let contentType := http.Get (PartHeader header) "Content-Type" in
            let contentType :=
              if String.eqb contentType "" then http.Get (Header r) "X-File-Type"
              else contentType in
            let contentType :=
              if String.eqb contentType "" then http.FormValue form "filetype"
              else contentType in
            let contentType :=
              if String.eqb contentType "" then DetectContentType fileData
              else contentType in
            if negb (isAllowedFileType contentType)
            then ret (sendJSONResponse false "File type not allowed" "")
            else
              let! named := generateRandomFilename (http.Filename header) in
              match named with
              | inr _ => ret (sendJSONResponse false "Error generating filename" "")
              | inl randomFilename =>
                  let! saved := saveFileAndGenerateURL randomFilename fileData in
                  match saved with
                  | inr err =>
                      ret (sendJSONResponse false
                             ("Error saving file: " +:+ error_Error err) "")
                  | inl downloadURL =>
                      ret (sendJSONResponse true "File uploaded successfully"
                             downloadURL)
                  end
              end
      end
  end.

Definition handleFormUrlEncodedUpload (r : Request) : IO http.Written :=
  let! parsed := http.ParseForm r in
  match parsed with
  | None => ret (sendJSONResponse false "Error parsing form" "")
  | Some form =>
      let filename := http.FormValue form "filename" in
      let filename := if String.eqb filename "" then "file.dat" else filename in
      let fileType := http.FormValue form "type" in
      let fileType :=
        if String.eqb fileType "" then http.Get (Header r) "X-File-Type"
        else fileType in
      let base64Data := http.FormValue form "data" in
      if String.eqb base64Data ""
      then ret (sendJSONResponse false "No file data provided" "")
      else
        match base64.StdEncoding.DecodeString base64Data with
        | None => ret (sendJSONResponse false "Error decoding base64 data" "")
        | Some fileData =>
            if (Z.of_nat (List.length fileData) >? MaxFileSize config)%Z
            then ret (sendJSONResponse false "File too large" "")
            else
              let fileType :=
                if String.eqb fileType "" then DetectContentType fileData
                else fileType in
              if negb (isAllowedFileType fileType)
              then ret (sendJSONResponse false "File type not allowed" "")
              else
                let! named := generateRandomFilename filename in
                match named with
                | inr _ => ret (sendJSONResponse false "Error generating filename" "")
                | inl randomFilename =>
                    let! saved := saveFileAndGenerateURL randomFilename fileData in
                    match saved with
                    | inr err =>
                        ret (sendJSONResponse false
                               ("Error saving file: " +:+ error_Error err) "")
                    | inl downloadURL =>
                        ret (sendJSONResponse true "File uploaded successfully"
                               downloadURL)
                    end
                end
        end
  end.

Definition uploadHandler (r : Request) : IO http.Written :=
  if negb (String.eqb (Method r) http.MethodPost)
  then ret (http.Error "Method not allowed" http.StatusMethodNotAllowed)
  else
    let apiKeyHeader := http.Get (Header r) "X-API-Key" in
    if negb (String.eqb apiKeyHeader (APIKey config))
    then ret (http.Error "Unauthorized" http.StatusUnauthorized)
    else
      let contentType := http.Get (Header r) "Content-Type" in
      let isMultipart := strings.HasPrefix contentType "multipart/form-data" in
      let isFormUrlEncoded :=
        String.eqb contentType "application/x-www-form-urlencoded" in
      if isMultipart then handleMultipartUpload r
      else if isFormUrlEncoded then handleFormUrlEncodedUpload r
      else ret (sendJSONResponse false "Unsupported content type" "").

Definition downloadHandler (r : Request) : IO http.Written :=
  if negb (String.eqb (Method r) http.MethodGet)
  then ret (http.Error "Method not allowed" http.StatusMethodNotAllowed)
  else
    let filename := strings.TrimPrefix (URLPath r) "/download/" in
    if String.eqb filename ""
    then ret (http.Error "File not found" http.StatusNotFound)
    else
      let filepath := path.Join (UploadDir config) filename in
      let! opened := os_Open filepath in
      match opened with
      | None => ret (http.Error "File not found" http.StatusNotFound)
      | Some file =>
          let! size := file_Size file in
          let! sent := io_Copy_response file in
          let! started := go_sleep_Remove time_Second filepath in
          ret {| http.StatusCode := http.StatusOK;
                 http.Headers :=
                   [("Content-Disposition", "attachment; filename=" +:+ filename);
                    ("Content-Type", "application/octet-stream");
                    ("Content-Length", pretty size)];
                 http.Payload_ := http.Bytes sent |}
      end.

Definition testHandler (r : Request) : IO http.Written :=
  if negb (String.eqb (Method r) http.MethodGet)
  then ret (http.Error "Method not allowed" http.StatusMethodNotAllowed)
  else
    let apiKeyHeader := http.Get (Header r) "X-API-Key" in
    if negb (String.eqb apiKeyHeader (APIKey config))
    then ret (sendJSONResponse false "Invalid API key" "")
    else
      let resp := {| Success := true; Message := "API key is valid";
                     URL := ""; RespMaxFileSize := MaxFileSize config |} in
      ret {| http.StatusCode := http.StatusOK;
             http.Headers := [("Content-Type", "application/json")];
             http.Payload_ := http.JSON (json_Response resp) |}.

End Handlers.

(* ===================================================================== *)
(** ** The running server                                                *)
(* ===================================================================== *)

(** What happens to the server: a request is served, or time passes. *)
Inductive Action :=
| Upload (r : Request)
| Download (r : Request)
| Test (r : Request)
| Wait (d : Z).

Section Server.

Variable config : Config.
Variable DetectContentType : list byte -> string.

Definition step (a : Action) (w : World) : World :=
  match a with
  | Upload r => snd (uploadHandler config DetectContentType r w)
  | Download r => snd (downloadHandler config r w)
  | Test r => snd (testHandler config r w)
  | Wait d => advance d w
  end.

Definition run (acts : list Action) (w : World) : World :=
  List.fold_left (fun acc a => step a acc) acts w.

End Server.

(* ===================================================================== *)
(** ** The earlier version of the server (second source file)            *)
(* ===================================================================== *)

(** The repository keeps an earlier [package main]: multipart uploads only,
    an exact and case-sensitive type check, a test endpoint that does not
    echo the limit.  Its [generateRandomFilename], [downloadHandler] and
    [sendJSONResponse] are those of main.go. *)
Module Legacy.

Definition defaultAllowedTypes : list string :=
  [ "image/jpeg"; "image/png"; "image/gif"; "image/webp"; "image/svg+xml";
    "audio/mpeg"; "audio/ogg"; "audio/wav"; "audio/webm"; "audio/aac" ].

Section Handlers.

Variable config : Config.

Fixpoint allowed_loop (contentType : string) (allowed : list string) : bool :=
  match allowed with
  | [] => false
  | allowedType :: rest =>
      if String.eqb contentType allowedType then true
      else allowed_loop contentType rest
  end.

Definition isAllowedFileType (contentType : string) : bool :=
  allowed_loop contentType (AllowedTypes config).

Definition uploadHandler (r : Request) : IO http.Written :=
  (if negb (String.eqb (Method r) http.MethodPost)
   then ret (http.Error "Method not allowed" http.StatusMethodNotAllowed)
   else
     let apiKeyHeader := http.Get (Header r) "X-API-Key" in
     if negb (String.eqb apiKeyHeader (APIKey config))
     then ret (http.Error "Unauthorized" http.StatusUnauthorized)
     else
       let! parsed :=
         http.ParseMultipartForm (MaxFileSize config) (MaxFileSize config) r in
       match parsed with
       | None => ret (sendJSONResponse false "File too large" "")
       | Some form =>
           match http.FormFile form "file" with
           | None => ret (sendJSONResponse false "Error retrieving file" "")
           | Some header =>
               let contentType := http.Get (PartHeader header) "Content-Type" in
               if negb (isAllowedFileType contentType)
               then ret (sendJSONResponse false "File type not allowed" "")
               else
                 let! named := generateRandomFilename (http.Filename header) in
                 match named with
                 | inr _ =>
                     ret (sendJSONResponse false "Error generating filename" "")
                 | inl randomFilename =>
                     let filepath := path.Join (UploadDir config) randomFilename in
                     let! created := os_Create filepath in
                     match created with
                     | inr _ => ret (sendJSONResponse false "Error creating file" "")
                     | inl dst =>
                         let! copied := io_Copy_file dst (Content header) in
                         match copied with
                         | inr _ =>
                             ret (sendJSONResponse false "Error saving file" "")
                         | inl _ =>
                             let downloadURL :=
                               "https://" +:+ Domain config +:+ "/download/"
                               +:+ randomFilename in
                             ret (sendJSONResponse true
                                    "File uploaded successfully" downloadURL)
                         end
                     end
                 end
           end
       end)%io.

Definition testHandler (r : Request) : IO http.Written :=
  if negb (String.eqb (Method r) http.MethodGet)
  then ret (http.Error "Method not allowed" http.StatusMethodNotAllowed)
  else
    let apiKeyHeader := http.Get (Header r) "X-API-Key" in
    if negb (String.eqb apiKeyHeader (APIKey config))
    then ret (sendJSONResponse false "Invalid API key" "")
    else ret (sendJSONResponse true "API key is valid" "").

End Handlers.

End Legacy.

(* ===================================================================== *)
(** ** Vocabulary of the statements                                      *)
(* ===================================================================== *)

(** The events of [w'] that are not yet in [w]. *)
Definition since (w w' : World) : list Event :=
  drop (List.length (trace w)) (trace w').

(** The paths of the files created by a run of events. *)
Fixpoint created (evs : list Event) : list string :=
  match evs with
  | [] => []
  | EvCreate p :: rest => p :: created rest
  | _ :: rest => created rest
  end.

(** A JSON answer whose [success] member is true. *)
Definition succeeded (resp : http.Written) : bool :=
  match http.Payload_ resp with
  | http.JSON obj =>
      match json_member "success" obj with
      | Some (JBool true) => true
      | _ => false
      end
  | _ => false
  end.

(** The [message] member of a JSON answer. *)
Definition message_of (resp : http.Written) : string :=
  match http.Payload_ resp with
  | http.JSON obj =>
      match json_member "message" obj with
      | Some (JString m) => m
      | _ => ""
      end
  | _ => ""
  end.

(** The [url] member of a JSON answer. *)
Definition url_of (resp : http.Written) : string :=
  match http.Payload_ resp with
  | http.JSON obj =>
      match json_member "url" obj with
      | Some (JString u) => u
      | _ => ""
      end
  | _ => ""
  end.

(** The first non-empty string of a list, the last one when all the others
    are empty. *)
Fixpoint first_nonempty (candidates : list string) : string :=
  match candidates with
  | [] => ""
  | [c] => c
  | c :: rest => if String.eqb c "" then first_nonempty rest else c
  end.

(** The file a request offers, by transport shape, under the name the
    handler passes on: the first file part named [file] of a multipart body
    with its [Filename], or the decoded [data] field of a url-encoded form
    with its [filename] field ([file.dat] when absent). *)
Definition offered (r : Request) : option (string * list byte) :=
  let contentType := http.Get (Header r) "Content-Type" in
  if strings.HasPrefix contentType "multipart/form-data" then
    match Body r with
    | MultipartBody _ parts =>
        match List.find (fun p => String.eqb (FormName p) "file")
                (List.filter http.is_file parts) with
        | Some p => Some (http.Filename p, Content p)
        | None => None
        end
    | RawBody _ => None
    end
  else if String.eqb contentType "application/x-www-form-urlencoded" then
    let fields := (fst (url.ParseQuery (wire (Body r)))
                   ++ fst (url.ParseQuery (RawQuery r)))%list in
    match base64.StdEncoding.DecodeString (first_value fields "data") with
    | Some data =>
        let filename := first_value fields "filename" in
        Some (if String.eqb filename "" then "file.dat" else filename, data)
    | None => None
    end
  else None.

(** The file name as the client sent it: the [filename] parameter of that
    file part, or the [filename] field of the form (empty when absent). *)
Definition sent_name (r : Request) : option string :=
  let contentType := http.Get (Header r) "Content-Type" in
  if strings.HasPrefix contentType "multipart/form-data" then
    match Body r with
    | MultipartBody _ parts =>
        match List.find (fun p => String.eqb (FormName p) "file")
                (List.filter http.is_file parts) with
        | Some p => Some (FileName p)
        | None => None
        end
    | RawBody _ => None
    end
  else if String.eqb contentType "application/x-www-form-urlencoded" then
    let fields := (fst (url.ParseQuery (wire (Body r)))
                   ++ fst (url.ParseQuery (RawQuery r)))%list in
    Some (first_value fields "filename")
  else None.

(** A string of bytes below [utf8.RuneSelf]. *)
Definition is_ascii (s : string) : bool :=
  forallb (fun c => (nat_of_ascii c <? 128)%nat) (list_ascii_of_string s).

(** The last two steps of both upload handlers: mint a name, save the
    payload, answer. *)
Definition persist (config : Config) (originalFilename : string)
  (fileData : list byte) : IO http.Written :=
  bind (generateRandomFilename originalFilename) (fun named =>
    match named with
    | inr _ => ret (sendJSONResponse false "Error generating filename" "")
    | inl randomFilename =>
        bind (saveFileAndGenerateURL config randomFilename fileData) (fun saved =>
          match saved with
          | inr err =>
              ret (sendJSONResponse false
                     ("Error saving file: " +:+ error_Error err) "")
          | inl downloadURL =>
              ret (sendJSONResponse true "File uploaded successfully" downloadURL)
          end)
    end).

(** The identifier minted from the next 16 bytes of the random source. *)
Definition minted (w : World) (originalFilename : string) : string :=
  base64.URLEncoding.EncodeToString (take 16 (entropy w))
  +:+ filepath.Ext originalFilename.

(** A GET request for a path. *)
Definition GET (p : string) : Request :=
  {| Method := "GET"; URLPath := p; RawQuery := ""; Header := [];
     Body := RawBody "" |}.

(** The world after [rand.Read] has drawn 16 bytes. *)
Definition after_rand (w : World) : World :=
  log (EvRandRead 16) (set_entropy (drop 16 (entropy w)) w).

(** The world after a successful [os.Create] of [p]. *)
Definition after_create (p : string) (w : World) : World :=
  log (EvCreate p)
    (set_free (free w + file_size w p) (set_files (<[p := []]> (files w)) w)).

(** The world after [io.Copy] has written the bytes of [data] that fit. *)
Definition after_write (p : string) (data : list byte) (w : World) : World :=
  let n := Nat.min (List.length data) (free w) in
  log (EvWrite p n)
    (set_free (free w - n)
       (set_files
          (<[p := (default [] (files w !! p) ++ take n data)%list]> (files w)) w)).

(** A byte that is neither a dot nor a path separator. *)
Definition plain (c : ascii) : Prop := c <> "."%char /\ c <> "/"%char.

(** A character of the URL-safe alphabet, or the padding character. *)
Definition url_safe (c : ascii) : Prop :=
  In c (list_ascii_of_string base64.encodeURL) \/ c = base64.StdPadding.

(** The world after a download has found its file. *)
Definition after_download (p : string) (n : nat) (w : World) : World :=
  log (EvGo (now w + time_Second) p)
    (set_sleeping (sleeping w ++ [((now w + time_Second)%Z, p)])%list
       (log (EvStream p n) (log (EvOpen p) w))).

(** The file at [p] is gone, or a goroutine that removes it no later than
    [T] is asleep and [T] has not come yet. *)
Definition doomed (T : Z) (p : string) (w : World) : Prop :=
  files w !! p = None
  \/ (now w < T)%Z /\ exists due, In (due, p) (sleeping w) /\ (due <= T)%Z.

(** The content type of a multipart upload: the first non-empty value of
    the part's declared type, the X-File-Type header, the [filetype] form
    field and the type sniffed from the payload. *)
Definition resolved_multipart (sniff : list byte -> string) (r : Request)
  (form : http.Form) (header : Part) : string :=
  first_nonempty [ http.Get (PartHeader header) "Content-Type";
                   http.Get (Header r) "X-File-Type";
                   http.FormValue form "filetype";
                   sniff (Content header) ].

(** The content type of a url-encoded upload: the first non-empty value of
    the [type] form field, the X-File-Type header and the type sniffed from
    the decoded payload. *)
Definition resolved_urlencoded (sniff : list byte -> string) (r : Request)
  (form : http.Form) (data : list byte) : string :=
  first_nonempty [ http.FormValue form "type";
                   http.Get (Header r) "X-File-Type";
                   sniff data ].

(** The environment lets a payload through: the random source has 16
    bytes, the minted path can be created, the payload fits. *)
Definition ready (config : Config) (w : World) (name : string)
  (data : list byte) : Prop :=
  let p := path.Join (UploadDir config) (minted w name) in
  (16 <= List.length (entropy w))%nat
  /\ (p ∉ unwritable w)
  /\ (List.length data <= free w + file_size w p)%nat.

(** The Type Validator as the design words it: an entry that equals the
    candidate, or an entry [category/*] whose [category/], slash included,
    begins the candidate; both without regard to case. *)
Definition spec_exact (candidate entry : string) : bool :=
  String.eqb (strings.ToLower candidate) (strings.ToLower entry).

Definition spec_wildcard (candidate entry : string) : bool :=
  strings.HasSuffix entry "/*"
  && strings.HasPrefix (strings.ToLower candidate)
       (strings.ToLower (strings.TrimSuffix entry "*")).

Definition spec_allowed (allowed : list string) (candidate : string) : bool :=
  existsb (spec_exact candidate) allowed
  || existsb (spec_wildcard candidate) allowed.

(** The URL of the design's scenario: the domain, [/download/], an
    identifier of 32 characters and [.png]. *)
Definition url_with_32_char_id (config : Config) (u : string) : Prop :=
  exists rnd, String.length rnd = 32%nat
    /\ u = "https://" +:+ Domain config +:+ "/download/" +:+ rnd +:+ ".png".

(** The value that three bytes make, and the three bytes that four sextets
    make. *)
Definition pack (a b c : byte) : N :=
  N.lor (N.lor (N.shiftl (Byte.to_N a) 16) (N.shiftl (Byte.to_N b) 8)) (Byte.to_N c).

(** An alphabet of 64 different characters, none of them the padding or a
    line break. *)
Definition sound_at (alphabet : string) (k : N) : bool :=
  match String.get (N.to_nat k) alphabet with
  | Some c =>
      match base64.decodeMap alphabet c with
      | Some i => N.eqb i k
      | None => false
      end
      && negb (Ascii.eqb c base64.StdPadding) && negb (base64.is_newline c)
  | None => false
  end.

Definition sound (alphabet : string) : bool :=
  forallb (fun n => sound_at alphabet (N.of_nat n)) (seq 0 64).

(** An element of a path that [Clean] keeps as it is. *)
Definition ordinary (name : string) : Prop :=
  strings.ContainsByte name "/" = false
  /\ name <> "" /\ name <> "." /\ name <> "..".

(** The text that [Join] puts before an ordinary name: the cleaned
    directory and a separator. *)
Definition storage_prefix (dir : string) : string :=
  let rooted := strings.HasPrefix dir "/" in
  (if rooted then "/" else "")
  +:+ match path.clean_elements rooted (path.elements dir "") [] with
      | [] => ""
      | kept => String.concat "/" kept +:+ "/"
      end.

(** An action that is a request: no time passes. *)
Definition is_request (a : Action) : Prop :=
  match a with Wait _ => False | _ => True end.

(** The two ways an upload is turned away before it reaches [persist]:
    with the world untouched, or after the body has been read. *)
Ltac turned_away := left; eexists; split; reflexivity.
Ltac turned_away_after_read := right; left; do 2 eexists; split; reflexivity.

(* ===================================================================== *)
(** ** A concrete server and concrete requests                           *)
(* ===================================================================== *)

Module Fixture.

(** config.json with a limit of 400 bytes and no [allowed_types]. *)
Definition parsed : Config :=
  {| MaxFileSize := 400; APIKey := "secret"; UploadDir := "./uploads";
     Port := ""; Domain := "assets.example.org"; AllowedTypes := [] |}.

(** What [loadConfig] makes of it: the default port and allow-list. *)
Definition config : Config :=
  {| MaxFileSize := 400; APIKey := "secret"; UploadDir := "./uploads";
     Port := ":8080"; Domain := "assets.example.org";
     AllowedTypes := defaultAllowedTypes |}.

(** A sniffer that recognises nothing and gives the fallback answer of
    [http.DetectContentType]. *)
Definition sniff (data : list byte) : string := "application/octet-stream".

(** An empty upload directory, room for 4096 bytes, 32 bytes of entropy. *)
Definition world : World :=
  {| files := ∅; unwritable := ∅; free := 4096;
     entropy := list_byte_of_string "0123456789abcdef0123456789abcdef";
     now := 0; sleeping := []; trace := [] |}.

(** The same with a random source whose first two blocks differ. *)
Definition varied : World :=
  set_entropy (list_byte_of_string "0123456789abcdefFEDCBA9876543210") world.

(** The same with room for four bytes only. *)
Definition full_disk : World := set_free 4 world.

(** The same with a random source that has run dry. *)
Definition no_entropy : World := set_entropy [] world.

Definition payload (n : nat) : list byte := repeat "x"%byte n.

Definition png_part (n : nat) : Part :=
  {| FormName := "file"; FileName := "photo.png";
     PartHeader := [("Content-Type", "image/png")];
     Content := payload n |}.

(** POST /upload, multipart, one file part of [n] bytes. *)
Definition multipart_upload (key : string) (n : nat) : Request :=
  {| Method := "POST"; URLPath := "/upload"; RawQuery := "";
     Header := [("X-Api-Key", key);
                ("Content-Type", "multipart/form-data; boundary=frontier")];
     Body := MultipartBody "frontier" [png_part n] |}.

(** POST /upload, multipart, one file part of 100 bytes that declares
    [declared] as its type. *)
Definition typed_upload (declared : string) : Request :=
  {| Method := "POST"; URLPath := "/upload"; RawQuery := "";
     Header := [("X-Api-Key", "secret");
                ("Content-Type", "multipart/form-data; boundary=frontier")];
     Body := MultipartBody "frontier"
               [{| FormName := "file"; FileName := "photo.png";
                   PartHeader := [("Content-Type", declared)];
                   Content := payload 100 |}] |}.

(** POST /upload, multipart, a file part whose name climbs out of the
    directory. *)
Definition traversal_upload : Request :=
  {| Method := "POST"; URLPath := "/upload"; RawQuery := "";
     Header := [("X-Api-Key", "secret");
                ("Content-Type", "multipart/form-data; boundary=frontier")];
     Body := MultipartBody "frontier"
               [{| FormName := "file"; FileName := "../../etc/cron.d/job.png";
                   PartHeader := [("Content-Type", "image/png")];
                   Content := payload 100 |}] |}.

(** POST /upload, url-encoded, the five bytes [hello] in base64. *)
Definition form_upload (key : string) : Request :=
  {| Method := "POST"; URLPath := "/upload"; RawQuery := "";
     Header := [("X-Api-Key", key);
                ("Content-Type", "application/x-www-form-urlencoded")];
     Body := RawBody "filename=note.png&type=image%2Fpng&data=aGVsbG8%3D" |}.

(** POST /upload, url-encoded, [n] bytes in base64; for [n] a multiple of
    three, so that no padding has to be escaped. *)
Definition sized_form_upload (n : nat) : Request :=
  {| Method := "POST"; URLPath := "/upload"; RawQuery := "";
     Header := [("X-Api-Key", "secret");
                ("Content-Type", "application/x-www-form-urlencoded")];
     Body := RawBody ("filename=big.png&type=image%2Fpng&data="
                      +:+ base64.StdEncoding.EncodeToString (payload n)) |}.

(** POST /upload, url-encoded, a png signature sent without a name; the
    type comes from the X-File-Type header. *)
Definition nameless_upload : Request :=
  {| Method := "POST"; URLPath := "/upload"; RawQuery := "";
     Header := [("X-Api-Key", "secret");
                ("Content-Type", "application/x-www-form-urlencoded");
                ("X-File-Type", "image/png")];
     Body := RawBody "data=iVBORw0KGgo%3D" |}.

(** GET /test with a key. *)
Definition test_request (key : string) : Request :=
  {| Method := "GET"; URLPath := "/test"; RawQuery := "";
     Header := [("X-Api-Key", key)]; Body := RawBody "" |}.

(** The identifier minted from the first 16 bytes of [world]'s entropy
    for a name ending in [.png]. *)
Definition id : string := "MDEyMzQ1Njc4OWFiY2RlZg==.png".

(** The world after a successful upload of 100 bytes into [world]. *)
Definition stored : World :=
  snd (uploadHandler config sniff (multipart_upload "secret" 100) world).

(** The path of the file which that upload creates. *)
Definition path_of_id : string := "uploads/MDEyMzQ1Njc4OWFiY2RlZg==.png".

End Fixture.

(* ===================================================================== *)
(** ** Sanity checks of the model on concrete inputs                     *)
(* ===================================================================== *)

Example ext_png : filepath.Ext "photo.png" = ".png".
Proof. reflexivity. Qed.

Example ext_none : filepath.Ext "dir.d/README" = "".
Proof. reflexivity. Qed.

Example ext_last_dot : filepath.Ext "archive.tar.gz" = ".gz".
Proof. reflexivity. Qed.

Example base_of_paths :
  List.map filepath.Base ["photo.png"; "../../etc/cron.d/job.png"; "photo.png/";
                          "a/b//"; "///"; ""; "."]
  = ["photo.png"; "job.png"; "photo.png"; "b"; "/"; "."; "."].
Proof. reflexivity. Qed.

Example json_string_keeps_utf8 :
  json_string (String "195" (String "169" ".png"))
  = String "195" (String "169" ".png").
Proof. reflexivity. Qed.

Example json_string_replaces_a_stray_byte :
  json_string ("a." +:+ String "255" "png") = "a." +:+ utf8.RuneError +:+ "png".
Proof. reflexivity. Qed.

Example json_string_replaces_a_surrogate :
  json_string (String "237" (String "160" (String "128" "")))
  = utf8.RuneError +:+ utf8.RuneError +:+ utf8.RuneError.
Proof. reflexivity. Qed.

Example b64_hello :
  base64.StdEncoding.EncodeToString (list_byte_of_string "hello") = "aGVsbG8=".
Proof. reflexivity. Qed.

Example b64_hello_back :
  base64.StdEncoding.DecodeString "aGVsbG8=" = Some (list_byte_of_string "hello").
Proof. reflexivity. Qed.

Example b64_bad : base64.StdEncoding.DecodeString "aGVsbG8" = None.
Proof. reflexivity. Qed.

Example parse_query_pairs :
  url.ParseQuery "filename=a.png&type=image%2Fpng&data=aGk%3D"
  = ([("filename", "a.png"); ("type", "image/png"); ("data", "aGk=")], false).
Proof. reflexivity. Qed.

Example parse_query_semicolon : snd (url.ParseQuery "a=1;b=2") = true.
Proof. reflexivity. Qed.

Example fixture_loaded : loadConfig Fixture.parsed = inl Fixture.config.
Proof. reflexivity. Qed.

Example fixture_minted : minted Fixture.world "photo.png" = Fixture.id.
Proof. reflexivity. Qed.

Example fixture_upload_url :
  url_of (fst (uploadHandler Fixture.config Fixture.sniff
                 (Fixture.multipart_upload "secret" 100) Fixture.world))
  = "https://assets.example.org/download/MDEyMzQ1Njc4OWFiY2RlZg==.png".
Proof. vm_compute. reflexivity. Qed.

Example upload_without_entropy :
  message_of (fst (uploadHandler Fixture.config Fixture.sniff
                     (Fixture.multipart_upload "secret" 100) Fixture.no_entropy))
  = "Error generating filename".
Proof. vm_compute. reflexivity. Qed.

Example upload_of_a_zip :
  message_of (fst (uploadHandler Fixture.config Fixture.sniff
                     (Fixture.typed_upload "application/zip") Fixture.world))
  = "File type not allowed".
Proof. vm_compute. reflexivity. Qed.

Example clean_paths :
  List.map path.Clean ["a//c"; "a/c/b/.."; "/../a/b/../././/c"; ""; "a/../..";
                       "abc/"; "./uploads"]
  = ["a/c"; "a/c"; "/a/c"; "."; ".."; "abc"; "uploads"].
Proof. reflexivity. Qed.

Example join_upload_dir :
  path.Join "./uploads" Fixture.id = Fixture.path_of_id.
Proof. reflexivity. Qed.

Example content_length_of_download :
  first_value (http.Headers (fst (downloadHandler Fixture.config
                                   (GET ("/download/" +:+ Fixture.id))
                                   Fixture.stored))) "Content-Length"
  = "100".
Proof. vm_compute. reflexivity. Qed.

(* ===================================================================== *)
(** ** Lemmas on byte strings, extensions and base64                     *)
(* ===================================================================== *)

Lemma append_cons (c : ascii) (s t : string) :
  String c s +:+ t = String c (s +:+ t).
Proof. reflexivity. Qed.

Lemma width_le (s : string) (n : nat) :
  utf8.width s = Some n -> (1 <= n <= String.length s)%nat.
Proof.
  destruct s as [|b0 rest]; [discriminate|]. cbn [utf8.width]. cbv zeta.
  destruct (_ <? 128)%nat; [intros [= <-]; cbn; lia|].
  destruct (_ <? 194)%nat; [discriminate|].
  destruct (_ <? 224)%nat.
  { destruct rest as [|b1 r]; [discriminate|].
    destruct (utf8.between _ _ _); [intros [= <-]; cbn; lia | discriminate]. }
  destruct (_ <? 240)%nat.
  { destruct rest as [|b1 [|b2 r]]; try discriminate.
    destruct (_ && _); [intros [= <-]; cbn; lia | discriminate]. }
  destruct (_ <? 245)%nat; [|discriminate].
  destruct rest as [|b1 [|b2 [|b3 r]]]; try discriminate.
  destruct (_ && _); [intros [= <-]; cbn; lia | discriminate].
Qed.

Lemma between_ascii (lo hi : nat) (c : ascii) :
  (nat_of_ascii c < 128)%nat -> (128 <= lo)%nat -> utf8.between lo hi c = false.
Proof.
  intros Hc Hlo. unfold utf8.between. cbv zeta.
  destruct (Nat.leb_spec lo (nat_of_ascii c)); [lia | reflexivity].
Qed.

(** An ASCII byte ends whatever precedes it. *)
Lemma width_before_ascii (b0 : ascii) (a : string) (c : ascii) (t : string) :
  (nat_of_ascii c < 128)%nat ->
  utf8.width (String b0 (a +:+ String c t)) = utf8.width (String b0 a).
Proof.
  intros Hc. cbn [utf8.width]. cbv zeta.
  destruct (_ <? 128)%nat; [reflexivity|].
  destruct (_ <? 194)%nat; [reflexivity|].
  assert (B : forall lo hi, (128 <= lo)%nat -> utf8.between lo hi c = false)
    by (intros; now apply between_ascii).
  assert (B1 : forall x : bool, (128 <= (if x then 160 else 128))%nat)
    by (intros []; lia).
  assert (B2 : forall x : bool, (128 <= (if x then 144 else 128))%nat)
    by (intros []; lia).
  destruct (_ <? 224)%nat.
  { destruct a as [|b1 a]; [|reflexivity].
    change ("" +:+ String c t) with (String c t). cbv iota. now rewrite B by lia. }
  destruct (_ <? 240)%nat.
  { destruct a as [|b1 [|b2 a]]; [| |reflexivity].
    - change ("" +:+ String c t) with (String c t).
      destruct t; cbv iota; [reflexivity|]. rewrite B; [reflexivity|]. apply B1.
    - change (String b1 "" +:+ String c t) with (String b1 (String c t)).
      cbv iota. rewrite (B 128%nat) by lia. now rewrite andb_false_r. }
  destruct (_ <? 245)%nat; [|reflexivity].
  destruct a as [|b1 [|b2 [|b3 a]]]; [| | |reflexivity].
  - change ("" +:+ String c t) with (String c t).
    destruct t as [|t1 [|t2 t]]; cbv iota; try reflexivity.
    rewrite B; [reflexivity|]. apply B2.
  - change (String b1 "" +:+ String c t) with (String b1 (String c t)).
    destruct t as [|t1 t]; cbv iota; [reflexivity|].
    rewrite (B 128%nat) by lia. now rewrite andb_false_r.
  - change (String b1 (String b2 "") +:+ String c t)
      with (String b1 (String b2 (String c t))).
    cbv iota. rewrite (B 128%nat) by lia. now rewrite andb_false_r.
Qed.

Lemma append_assoc (a b c : string) : (a +:+ b) +:+ c = a +:+ (b +:+ c).
Proof.
  induction a as [|x a IH]; [reflexivity|]. now rewrite !append_cons, IH.
Qed.

Lemma json_scan_before_ascii (a : string) (c : ascii) (t : string) (k : nat) :
  (nat_of_ascii c < 128)%nat -> (k <= String.length a)%nat ->
  json_scan k (a +:+ String c t) = json_scan k a +:+ String c (json_scan 0 t).
Proof.
  intros Hc. revert k. induction a as [|b a IH]; intros k Hk.
  - cbn in Hk. assert (k = 0%nat) by lia. subst k.
    change ("" +:+ String c t) with (String c t).
    cbn [json_scan utf8.width]. cbv zeta.
    destruct (Nat.ltb_spec (nat_of_ascii c) 128); [reflexivity | lia].
  - rewrite append_cons. destruct k as [|k].
    + cbn [json_scan]. rewrite width_before_ascii by assumption.
      destruct (utf8.width (String b a)) as [n|] eqn:Hw.
      * apply width_le in Hw. cbn [String.length] in Hw.
        rewrite IH by lia. reflexivity.
      * rewrite IH by lia. now rewrite append_assoc.
    + cbn [json_scan]. cbn [String.length] in Hk. rewrite IH by lia. reflexivity.
Qed.

Lemma json_string_before_ascii (a : string) (c : ascii) (t : string) :
  (nat_of_ascii c < 128)%nat ->
  json_string (a +:+ String c t) = json_string a +:+ String c (json_string t).
Proof. intros Hc. apply json_scan_before_ascii; [assumption | lia]. Qed.

Lemma json_string_ascii (s t : string) :
  is_ascii s = true -> json_string (s +:+ t) = s +:+ json_string t.
Proof.
  unfold json_string. induction s as [|c s IH]; intros H; [reflexivity|].
  cbn [is_ascii list_ascii_of_string forallb] in H. apply andb_true_iff in H.
  destruct H as [Hc Hs]. rewrite !append_cons. cbn [json_scan utf8.width]. cbv zeta.
  rewrite Hc. cbn [Nat.sub]. f_equal. now apply IH.
Qed.

Lemma json_string_empty (s : string) : json_string s = "" -> s = "".
Proof.
  destruct s as [|b s]; [reflexivity|]. unfold json_string. cbn [json_scan].
  destruct (utf8.width _); discriminate.
Qed.

Lemma append_length (s t : string) :
  String.length (s +:+ t) = (String.length s + String.length t)%nat.
Proof. induction s as [|c s IH]; simpl; [reflexivity | now rewrite IH]. Qed.

Lemma HasPrefix_app (s t : string) : strings.HasPrefix (s +:+ t) s = true.
Proof.
  induction s as [|c s IH]; simpl; [reflexivity|]. now rewrite Ascii.eqb_refl.
Qed.

Lemma skip_app (s t : string) : strings.skip (String.length s) (s +:+ t) = t.
Proof. induction s as [|c s IH]; simpl; [now destruct t | exact IH]. Qed.

Lemma TrimPrefix_app (p s : string) : strings.TrimPrefix (p +:+ s) p = s.
Proof. unfold strings.TrimPrefix. now rewrite HasPrefix_app, skip_app. Qed.

Lemma lower_byte_idem (c : ascii) :
  strings.lower_byte (strings.lower_byte c) = strings.lower_byte c.
Proof. destruct c as [[] [] [] [] [] [] [] []]; reflexivity. Qed.

Lemma ToLower_idem (s : string) :
  strings.ToLower (strings.ToLower s) = strings.ToLower s.
Proof.
  induction s as [|c s IH]; simpl; [reflexivity|].
  now rewrite lower_byte_idem, IH.
Qed.



Lemma ext_scan_plain (l rest seen : list ascii) :
  Forall plain l ->
  filepath.ext_scan (l ++ rest)%list seen = filepath.ext_scan rest (rev l ++ seen)%list.
Proof.
  revert seen. induction l as [|c l IH]; intros seen Hl; simpl; [reflexivity|].
  inversion Hl as [|? ? [Hdot Hsl] Hl']; subst.
  apply Ascii.eqb_neq in Hdot, Hsl. rewrite Hsl, Hdot.
  rewrite IH by assumption. now rewrite <- app_assoc.
Qed.

Lemma list_ascii_app (s t : string) :
  list_ascii_of_string (s +:+ t)
  = (list_ascii_of_string s ++ list_ascii_of_string t)%list.
Proof. induction s as [|c s IH]; simpl; [reflexivity | now rewrite IH]. Qed.

Lemma Ext_dot (stem e : string) :
  Forall plain (list_ascii_of_string e) ->
  filepath.Ext (stem +:+ "." +:+ e) = "." +:+ e.
Proof.
  intros He. unfold filepath.Ext.
  rewrite !list_ascii_app. simpl. rewrite rev_app_distr. simpl.
  rewrite <- app_assoc. simpl.
  rewrite ext_scan_plain.
  - simpl. rewrite app_nil_r, rev_involutive. now rewrite string_of_list_ascii_of_string.
  - apply Forall_rev. exact He.
Qed.

Lemma Ext_png (stem : string) : filepath.Ext (stem +:+ ".png") = ".png".
Proof. apply (Ext_dot stem "png"). repeat constructor; discriminate. Qed.

Lemma ext_scan_cases (rpath seen : list ascii) :
  (filepath.ext_scan rpath seen = ""
   /\ exists l rest, rpath = (l ++ rest)%list /\ Forall plain l
                     /\ (rest = [] \/ exists r', rest = ("/"%char :: r')))
  \/ (exists l rest, rpath = (l ++ "."%char :: rest)%list /\ Forall plain l
        /\ filepath.ext_scan rpath seen
           = string_of_list_ascii ("."%char :: rev l ++ seen)).
Proof.
  revert seen. induction rpath as [|c rpath IH]; intros seen; simpl.
  - left. split; [reflexivity|]. exists [], []. repeat split; auto.
  - destruct (Ascii.eqb_spec c "/") as [->|Hsl].
    + left. split; [reflexivity|]. exists [], ("/"%char :: rpath). repeat split; eauto.
    + destruct (Ascii.eqb_spec c ".") as [->|Hdot].
      * right. exists [], rpath. repeat split; auto.
      * destruct (IH (c :: seen)) as [[He (l & rest & -> & Hl & Hrest)]
                                     | (l & rest & -> & Hl & He)].
        -- left. split; [exact He|]. exists (c :: l), rest.
           repeat split; auto. constructor; [split|]; assumption.
        -- right. exists (c :: l), rest. repeat split.
           ++ constructor; [split|]; assumption.
           ++ rewrite He. simpl. now rewrite <- app_assoc.
Qed.

Lemma string_of_list_ascii_app (a b : list ascii) :
  string_of_list_ascii (a ++ b) = string_of_list_ascii a +:+ string_of_list_ascii b.
Proof. induction a as [|c a IH]; simpl; [reflexivity | now rewrite IH]. Qed.

(** [filepath.Ext] returns nothing when the last element of the path has
    no dot, and otherwise the text from the last dot on. *)
Lemma Ext_cases (name : string) :
  (filepath.Ext name = ""
   /\ exists dir base, name = dir +:+ base
        /\ Forall plain (list_ascii_of_string base)
        /\ (dir = "" \/ exists d, dir = d +:+ "/"))
  \/ (exists stem e, name = stem +:+ "." +:+ e
        /\ Forall plain (list_ascii_of_string e)
        /\ filepath.Ext name = "." +:+ e).
Proof.
  unfold filepath.Ext.
  destruct (ext_scan_cases (rev (list_ascii_of_string name)) [])
    as [[He (l & rest & Hrev & Hl & Hrest)] | (l & rest & Hrev & Hl & He)].
  - left. split; [exact He|].
    apply (f_equal (@rev ascii)) in Hrev. rewrite rev_involutive, rev_app_distr in Hrev.
    exists (string_of_list_ascii (rev rest)), (string_of_list_ascii (rev l)).
    split; [|split].
    + rewrite <- string_of_list_ascii_app, <- Hrev.
      now rewrite string_of_list_ascii_of_string.
    + rewrite list_ascii_of_string_of_list_ascii. now apply Forall_rev.
    + destruct Hrest as [->|[r' ->]]; [left; reflexivity|].
      right. exists (string_of_list_ascii (rev r')). simpl.
      now rewrite string_of_list_ascii_app.
  - right. rewrite He.
    apply (f_equal (@rev ascii)) in Hrev. rewrite rev_involutive, rev_app_distr in Hrev.
    simpl in Hrev. rewrite <- app_assoc in Hrev. simpl in Hrev.
    exists (string_of_list_ascii (rev rest)), (string_of_list_ascii (rev l)).
    split; [|split].
    + change ("." +:+ string_of_list_ascii (rev l))
        with (string_of_list_ascii ("."%char :: rev l)).
      rewrite <- string_of_list_ascii_app, <- Hrev.
      now rewrite string_of_list_ascii_of_string.
    + rewrite list_ascii_of_string_of_list_ascii. now apply Forall_rev.
    + now rewrite app_nil_r.
Qed.


Lemma ToLower_app (s t : string) :
  strings.ToLower (s +:+ t) = strings.ToLower s +:+ strings.ToLower t.
Proof.
  induction s as [|c s IH]; [reflexivity|].
  rewrite append_cons. cbn [strings.ToLower]. now rewrite append_cons, IH.
Qed.

Lemma keep_app (s t : string) : strings.keep (String.length s) (s +:+ t) = s.
Proof.
  induction s as [|c s IH]; [reflexivity|].
  rewrite append_cons. cbn [String.length strings.keep]. now rewrite IH.
Qed.

Lemma keep_skip (n : nat) (s : string) :
  strings.keep n s +:+ strings.skip n s = s.
Proof.
  revert s. induction n as [|n IH]; intros s; [reflexivity|].
  destruct s as [|c s]; [reflexivity|].
  cbn [strings.keep strings.skip]. now rewrite append_cons, IH.
Qed.

Lemma HasSuffix_app (s t : string) : strings.HasSuffix (s +:+ t) t = true.
Proof.
  unfold strings.HasSuffix. rewrite append_length.
  replace (String.length s + String.length t - String.length t)%nat
    with (String.length s) by lia.
  rewrite skip_app, String.eqb_refl, andb_true_r. apply Nat.leb_le. lia.
Qed.

Lemma HasSuffix_inv (s t : string) :
  strings.HasSuffix s t = true -> exists stem, s = stem +:+ t.
Proof.
  unfold strings.HasSuffix. intros H. apply andb_true_iff in H. destruct H as [_ H].
  apply String.eqb_eq in H.
  set (n := (String.length s - String.length t)%nat) in *.
  exists (strings.keep n s). rewrite <- H. symmetry. apply keep_skip.
Qed.

Lemma TrimSuffix_app (s t : string) : strings.TrimSuffix (s +:+ t) t = s.
Proof.
  unfold strings.TrimSuffix. rewrite HasSuffix_app, append_length.
  replace (String.length s + String.length t - String.length t)%nat
    with (String.length s) by lia.
  apply keep_app.
Qed.

Lemma HasPrefix_app_l (s a b : string) :
  strings.HasPrefix s (a +:+ b) = true -> strings.HasPrefix s a = true.
Proof.
  revert s. induction a as [|c a IH]; intros s H; [reflexivity|].
  destruct s as [|d s]; [discriminate|].
  rewrite append_cons in H. cbn [strings.HasPrefix] in *.
  destruct (Ascii.eqb d c); [now apply IH | discriminate].
Qed.

Lemma skip_all (s : string) : strings.skip (String.length s) s = "".
Proof. induction s as [|c s IH]; [reflexivity | exact IH]. Qed.

Lemma HasSuffix_empty (s : string) : strings.HasSuffix s "" = true.
Proof.
  unfold strings.HasSuffix. cbn [String.length]. rewrite Nat.sub_0_r, skip_all.
  reflexivity.
Qed.

(** The extension is that of the last element. *)
Lemma ext_scan_upto (l seen : list ascii) :
  filepath.ext_scan l seen = filepath.ext_scan (filepath.upto_slash l) seen.
Proof.
  revert seen. induction l as [|c l IH]; intros seen; [reflexivity|].
  cbn [filepath.ext_scan filepath.upto_slash].
  destruct (Ascii.eqb c "/") eqn:Hs; [reflexivity|].
  cbn [filepath.ext_scan]. rewrite Hs.
  destruct (Ascii.eqb c "."); [reflexivity | apply IH].
Qed.

Lemma Ext_Base (name : string) :
  filepath.Ext name = "" \/ filepath.Ext (filepath.Base name) = filepath.Ext name.
Proof.
  unfold filepath.Base, filepath.Ext.
  destruct (String.eqb_spec name "") as [->|Hne]; [left; reflexivity|].
  destruct (rev (list_ascii_of_string name)) as [|c more] eqn:Hrev;
    [left; reflexivity|].
  cbn [filepath.drop_slashes].
  destruct (Ascii.eqb c "/") eqn:Hs; [left; cbn; now rewrite Hs|].
  right. cbv zeta. cbn [filepath.upto_slash]. rewrite Hs.
  cbn [rev]. rewrite string_of_list_ascii_app. cbn [string_of_list_ascii].
  destruct (String.eqb_spec
              (string_of_list_ascii (rev (filepath.upto_slash more)) +:+ String c "") "")
    as [E|_].
  { exfalso. apply (f_equal String.length) in E. rewrite append_length in E.
    cbn in E. lia. }
  rewrite <- (string_of_list_ascii_app _ [c]).
  rewrite list_ascii_of_string_of_list_ascii, rev_app_distr, rev_involutive.
  cbn [rev app]. symmetry.
  rewrite (ext_scan_upto (c :: more)). cbn [filepath.upto_slash]. now rewrite Hs.
Qed.

Lemma get_In (s : string) (n : nat) (c : ascii) :
  String.get n s = Some c -> In c (list_ascii_of_string s).
Proof.
  revert n. induction s as [|d s IH]; intros [|n] H; simpl in *; try discriminate.
  - left. congruence.
  - right. eauto.
Qed.

Lemma get_lt (s : string) (n : nat) :
  (n < String.length s)%nat -> exists c, String.get n s = Some c.
Proof.
  revert n. induction s as [|d s IH]; intros [|n] H; simpl in *; try lia; eauto.
  apply IH. lia.
Qed.

Lemma sextet_URL (v : N) :
  In (base64.sextet base64.encodeURL v) (list_ascii_of_string base64.encodeURL).
Proof.
  unfold base64.sextet.
  assert (Hlt : (N.to_nat (N.land v 63) < String.length base64.encodeURL)%nat).
  { assert (N.land v 63 < 64)%N.
    { change 63%N with (N.ones 6). rewrite N.land_ones. now apply N.mod_lt. }
    change (String.length base64.encodeURL) with 64%nat. lia. }
  destruct (get_lt _ _ Hlt) as [c Hc]. rewrite Hc. eapply get_In; eauto.
Qed.


Lemma EncodeToString_url_safe (src : list byte) :
  Forall url_safe (list_ascii_of_string (base64.URLEncoding.EncodeToString src)).
Proof.
  unfold base64.URLEncoding.EncodeToString.
  assert (H : forall n (s : list byte), (List.length s <= n)%nat ->
     Forall url_safe (list_ascii_of_string (base64.EncodeToString base64.encodeURL s))).
  { induction n as [|n IH]; intros s Hs.
    - destruct s; [constructor | simpl in Hs; lia].
    - destruct s as [|a [|b [|c rest]]]; cbn [base64.EncodeToString list_ascii_of_string].
      + constructor.
      + cbv zeta. repeat (apply List.Forall_cons); try apply List.Forall_nil;
          solve [left; apply sextet_URL | right; reflexivity].
      + cbv zeta. repeat (apply List.Forall_cons); try apply List.Forall_nil;
          solve [left; apply sextet_URL | right; reflexivity].
      + cbv zeta. do 4 (apply List.Forall_cons; [left; apply sextet_URL|]).
        apply IH. simpl in Hs. lia. }
  apply (H (List.length src)). lia.
Qed.

Lemma EncodeToString_16 (alphabet : string) (src : list byte) :
  List.length src = 16%nat ->
  String.length (base64.EncodeToString alphabet src) = 24%nat.
Proof.
  intros H.
  do 16 (destruct src as [|? src]; [discriminate H|]).
  destruct src; [|discriminate H].
  cbn [base64.EncodeToString String.length]. reflexivity.
Qed.

(* ===================================================================== *)
(** ** Normal forms of the upload path                                   *)
(* ===================================================================== *)

Section Normal.

Context (config : Config) (sniff : list byte -> string).

Lemma persist_run (name : string) (data : list byte) (w : World) :
  persist config name data w =
    if (16 <=? List.length (entropy w))%nat then
      let id := minted w name in
      let p := path.Join (UploadDir config) id in
      let w1 := after_rand w in
      if decide (p ∈ unwritable w) then
        (sendJSONResponse false
           ("Error saving file: " +:+ error_Error (ErrCreate p)) "",
         log (EvCreateFailed p) w1)
      else
        let w2 := after_create p w1 in
        let w3 := after_write p data w2 in
        if (free w2 <? List.length data)%nat then
          (sendJSONResponse false
             ("Error saving file: " +:+ error_Error (ErrWrite p)) "", w3)
        else
          (sendJSONResponse true "File uploaded successfully"
             ("https://" +:+ Domain config +:+ "/download/" +:+ id), w3)
    else (sendJSONResponse false "Error generating filename" "", log EvRandFailed w).
Proof.
  unfold persist, generateRandomFilename, bind, rand_Read, ret.
  destruct (16 <=? List.length (entropy w))%nat eqn:He; [|reflexivity].
  cbv zeta. unfold saveFileAndGenerateURL, bind, os_Create, ret.
  cbn [unwritable log set_entropy].
  fold (minted w name). fold (after_rand w).
  destruct (decide (path.Join (UploadDir config) (minted w name) ∈ unwritable w))
    as [Hin|Hout].
  - reflexivity.
  - unfold io_Copy_file.
    fold (after_create (path.Join (UploadDir config) (minted w name)) (after_rand w)).
    set (w2 := after_create _ _).
    fold (after_write (path.Join (UploadDir config) (minted w name)) data w2).
    destruct (Nat.ltb_spec (free w2) (List.length data)) as [Hlt|Hge].
    + replace (Nat.min (List.length data) (free w2) <? List.length data)%nat
        with true; [reflexivity|].
      symmetry. apply Nat.ltb_lt. lia.
    + replace (Nat.min (List.length data) (free w2) <? List.length data)%nat
        with false; [reflexivity|].
      symmetry. apply Nat.ltb_ge. lia.
Qed.

Lemma upload_cases (r : Request) (w : World) :
  (exists resp, uploadHandler config sniff r w = (resp, w) /\ succeeded resp = false)
  \/ (exists resp n, uploadHandler config sniff r w = (resp, log (EvReadBody n) w)
        /\ succeeded resp = false)
  \/ (exists name data n, offered r = Some (name, data)
        /\ (Z.of_nat (List.length data) <= MaxFileSize config)%Z
        /\ uploadHandler config sniff r w
           = persist config name data (log (EvReadBody n) w)).
Proof.
  unfold uploadHandler, offered.
  destruct (negb (Method r =? http.MethodPost)); [turned_away|].
  destruct (negb (http.Get (Header r) "X-API-Key" =? APIKey config));
    [turned_away|].
  cbv zeta.
  destruct (strings.HasPrefix (http.Get (Header r) "Content-Type") "multipart/form-data").
  - unfold handleMultipartUpload, bind, http.ParseMultipartForm, ret.
    destruct (url.ParseQuery (RawQuery r)) as [qv qe].
    destruct (Body r) as [raw|boundary parts];
      [turned_away_after_read|].
    destruct (_ >? _)%Z; [turned_away_after_read|].
    destruct (_ <? _)%nat; [turned_away_after_read|].
    destruct qe; [turned_away_after_read|].
    unfold http.FormFile. cbn [http.File].
    destruct (find _ _) as [header|];
      [|turned_away_after_read].
    destruct (Z.gtb_spec (Z.of_nat (List.length (Content header))) (MaxFileSize config));
      [turned_away_after_read|].
    cbv zeta.
    destruct (negb (isAllowedFileType config _));
      [turned_away_after_read|].
    right; right. do 3 eexists. split; [reflexivity|]. split; [assumption|]. reflexivity.
  - destruct (_ =? "application/x-www-form-urlencoded");
      [|turned_away].
    unfold handleFormUrlEncodedUpload, bind, http.ParseForm, ret.
    destruct (url.ParseQuery (RawQuery r)) as [qv qe].
    destruct (_ >? _)%Z; [turned_away_after_read|].
    destruct (url.ParseQuery (wire (Body r))) as [bv be].
    destruct (be || qe); [turned_away_after_read|].
    cbv zeta. unfold http.FormValue. cbn [http.Value fst].
    destruct (first_value (bv ++ qv) "data" =? "");
      [turned_away_after_read|].
    destruct (base64.StdEncoding.DecodeString _) as [fileData|];
      [|turned_away_after_read].
    destruct (Z.gtb_spec (Z.of_nat (List.length fileData)) (MaxFileSize config));
      [turned_away_after_read|].
    destruct (negb (isAllowedFileType config _));
      [turned_away_after_read|].
    right; right. do 3 eexists. split; [reflexivity|]. split; [assumption|]. reflexivity.
Qed.

End Normal.


Lemma since_extends (w w' : World) (evs : list Event) :
  trace w' = (trace w ++ evs)%list -> since w w' = evs.
Proof. intros H. unfold since. rewrite H. apply drop_app_length. Qed.

Section Outcome.

Context (config : Config) (sniff : list byte -> string).

(** Everything [persist] can do. *)
Lemma persist_outcome (name : string) (data : list byte) (w : World) :
let resp := fst (persist config name data w) in
let w' := snd (persist config name data w) in
let p := path.Join (UploadDir config) (minted w name) in
now w' = now w /\ sleeping w' = sleeping w /\
( (List.length (entropy w) < 16)%nat
  /\ resp = sendJSONResponse false "Error generating filename" ""
  /\ files w' = files w
  /\ trace w' = (trace w ++ [EvRandFailed])%list
\/ (16 <= List.length (entropy w))%nat /\ (p ∈ unwritable w)
  /\ resp = sendJSONResponse false
              ("Error saving file: " +:+ error_Error (ErrCreate p)) ""
  /\ files w' = files w
  /\ trace w' = (trace w ++ [EvRandRead 16; EvCreateFailed p])%list
\/ (16 <= List.length (entropy w))%nat /\ (p ∉ unwritable w)
  /\ exists n, n = Nat.min (List.length data) (free w + file_size w p)
     /\ files w' = <[p := take n data]> (files w)
     /\ trace w' = (trace w ++ [EvRandRead 16; EvCreate p; EvWrite p n])%list
     /\ ((n < List.length data)%nat
         /\ resp = sendJSONResponse false
                     ("Error saving file: " +:+ error_Error (ErrWrite p)) ""
         \/ n = List.length data
         /\ resp = sendJSONResponse true "File uploaded successfully"
                     ("https://" +:+ Domain config +:+ "/download/"
                      +:+ minted w name)) ).
Proof.
cbv zeta. rewrite persist_run.
destruct (Nat.leb_spec 16 (List.length (entropy w))) as [He|He].
2:{ cbn. repeat split. left. repeat split. exact He. }
cbv zeta.
destruct (decide (path.Join (UploadDir config) (minted w name) ∈ unwritable w))
  as [Hin|Hout].
{ cbn. repeat split. right; left. repeat split; try assumption.
  now rewrite <- app_assoc. }
set (p := path.Join (UploadDir config) (minted w name)) in *.
assert (Hfiles : files (after_write p data (after_create p (after_rand w)))
                 = <[p := take (Nat.min (List.length data) (free w + file_size w p)) data]>
                     (files w)).
{ cbn. rewrite lookup_insert_eq. cbn. now rewrite insert_insert_eq. }
assert (Htrace : trace (after_write p data (after_create p (after_rand w)))
                 = (trace w ++ [EvRandRead 16; EvCreate p;
                      EvWrite p (Nat.min (List.length data) (free w + file_size w p))])%list).
{ cbn. now rewrite <- !app_assoc. }
assert (Hfree : free (after_create p (after_rand w)) = (free w + file_size w p)%nat)
  by reflexivity.
rewrite Hfree.
destruct (Nat.ltb_spec (free w + file_size w p) (List.length data)) as [Hlt|Hge];
  cbn [fst snd]; (split; [reflexivity|]); (split; [reflexivity|]);
  right; right; (split; [assumption|]); (split; [assumption|]);
  eexists; (split; [reflexivity|]); (split; [exact Hfiles|]); (split; [exact Htrace|]).
- left. split; [lia | reflexivity].
- right. split; [lia | reflexivity].
Qed.
End Outcome.

(* ===================================================================== *)
(** ** Authentication and the test endpoint                              *)
(* ===================================================================== *)

Lemma loaded_inv (config : Config) :
  loaded config ->
  (0 < MaxFileSize config)%Z /\ APIKey config <> "" /\ UploadDir config <> ""
  /\ Port config <> "" /\ Domain config <> "" /\ AllowedTypes config <> [].
Proof.
  intros [parsed H]. unfold loadConfig in H.
  destruct (Z.leb_spec (MaxFileSize parsed) 0); [discriminate|].
  destruct (String.eqb_spec (APIKey parsed) ""); [discriminate|].
  destruct (String.eqb_spec (UploadDir parsed) ""); [discriminate|].
  destruct (String.eqb_spec (Domain parsed) ""); [discriminate|].
  injection H as <-. cbn.
  repeat split; try assumption.
  - destruct (String.eqb_spec (Port parsed) ""); [discriminate | assumption].
  - destruct (AllowedTypes parsed); cbn; discriminate.
Qed.

Lemma key_mismatch (config : Config) (key : string) :
  loaded config -> key = "" \/ key <> APIKey config ->
  String.eqb key (APIKey config) = false.
Proof.
  intros Hl H. apply String.eqb_neq. destruct H as [-> | H]; [|exact H].
  intros E. apply loaded_inv in Hl. destruct Hl as (_ & Hk & _). congruence.
Qed.

(** C5.  When the X-API-Key header is missing or differs from the configured
    key, the upload handler and the test handler leave the world as it is
    (no byte of the body is read, no file is opened, created or written)
    and do not report success; a POST to the upload handler is answered
    401 Unauthorized, a GET to the test handler [Invalid API key]. *)
Theorem unauthorized_request_touches_nothing
  (config : Config) (sniff : list byte -> string) (r : Request) (w : World) :
  loaded config ->
  http.Get (Header r) "X-API-Key" = ""
  \/ http.Get (Header r) "X-API-Key" <> APIKey config ->
  (let '(resp, w') := uploadHandler config sniff r w in
   w' = w /\ succeeded resp = false
   /\ (Method r = http.MethodPost ->
       resp = http.Error "Unauthorized" http.StatusUnauthorized))
  /\ (let '(resp, w') := testHandler config r w in
      w' = w /\ succeeded resp = false
      /\ (Method r = http.MethodGet ->
          resp = sendJSONResponse false "Invalid API key" "")).
Proof.
  intros Hl Hk. pose proof (key_mismatch _ _ Hl Hk) as E.
  unfold uploadHandler, testHandler. rewrite E. cbn [negb].
  split.
  - destruct (String.eqb_spec (Method r) http.MethodPost) as [Hm|Hm]; cbn [negb ret].
    + repeat split; reflexivity.
    + repeat split; try reflexivity. intros; contradiction.
  - destruct (String.eqb_spec (Method r) http.MethodGet) as [Hm|Hm]; cbn [negb ret].
    + repeat split; reflexivity.
    + repeat split; try reflexivity. intros; contradiction.
Qed.

(** C10.  A GET to the test handler is answered with status 200 in both
    cases: with a wrong or missing key the JSON object has the members
    [success: false] and [message: "Invalid API key"] and no other; with
    the right key it has [success: true], the message and [max_file_size]
    with the configured limit. *)
Theorem test_endpoint_answers_200
  (config : Config) (r : Request) (w : World) :
  loaded config ->
  Method r = http.MethodGet ->
  let key := http.Get (Header r) "X-API-Key" in
  (key = "" \/ key <> APIKey config ->
   exists resp,
     testHandler config r w = (resp, w)
     /\ http.StatusCode resp = 200%Z
     /\ http.Payload_ resp
        = http.JSON [("success", JBool false); ("message", JString "Invalid API key")])
  /\ (key = APIKey config ->
      exists resp,
        testHandler config r w = (resp, w)
        /\ http.StatusCode resp = 200%Z
        /\ http.Payload_ resp
           = http.JSON [("success", JBool true); ("message", JString "API key is valid");
                        ("max_file_size", JNumber (MaxFileSize config))]).
Proof.
  intros Hl Hm key. unfold testHandler. rewrite Hm. cbn [String.eqb negb].
  change (http.MethodGet =? http.MethodGet) with true. cbn [negb]. fold key.
  split.
  - intros Hk. rewrite (key_mismatch _ _ Hl Hk). cbn [negb ret].
    eexists. repeat split.
  - intros ->. rewrite String.eqb_refl. cbn [negb ret].
    eexists. split; [reflexivity|]. split; [reflexivity|].
    cbn [http.Payload_]. unfold json_Response. cbn [URL RespMaxFileSize Success Message].
    apply loaded_inv in Hl. destruct Hl as (Hpos & _).
    destruct (Z.eqb_spec (MaxFileSize config) 0); [lia|]. reflexivity.
Qed.

(* ===================================================================== *)
(** ** One-shot delivery                                                 *)
(* ===================================================================== *)


(** Goroutines that wake up only remove files. *)
Lemma wake_up (due : list (Z * string)) (w : World) :
  let w' := List.fold_left (fun acc g => os_Remove (snd g) acc) due w in
  now w' = now w /\ sleeping w' = sleeping w
  /\ (exists evs, trace w' = (trace w ++ evs)%list /\ created evs = [])
  /\ (forall p, files w !! p = None \/ In p (List.map snd due) ->
                files w' !! p = None).
Proof.
  revert w. induction due as [|g due IH]; intros w; cbn [List.fold_left].
  - repeat split; [exists []; split; [now rewrite app_nil_r | reflexivity]|].
    intros p [H|[]]. exact H.
  - destruct (IH (os_Remove (snd g) w)) as (Hn & Hs & (evs & Ht & Hc) & Hf).
    cbv zeta. rewrite Hn, Hs. repeat split.
    + exists (EvRemove (snd g) :: evs). split; [|exact Hc].
      rewrite Ht. cbn. now rewrite <- app_assoc.
    + intros p Hp. apply Hf. cbn [os_Remove log set_free set_files files].
      destruct (decide (p = snd g)) as [->|Hne].
      * left. apply lookup_delete_eq.
      * destruct Hp as [Hp|[Hp|Hp]]; [left | congruence | right; exact Hp].
        rewrite lookup_delete_ne by congruence. exact Hp.
Qed.

Lemma advance_spec (d : Z) (w : World) :
  let t := (now w + Z.max 0 d)%Z in
  let w' := advance d w in
  now w' = t
  /\ sleeping w' = List.filter (fun g => negb (fst g <=? t)%Z) (sleeping w)
  /\ (exists evs, trace w' = (trace w ++ evs)%list /\ created evs = [])
  /\ (forall p, files w !! p = None
                \/ (exists due, In (due, p) (sleeping w) /\ (due <= t)%Z) ->
                files w' !! p = None).
Proof.
  cbv zeta. unfold advance.
  set (t := (now w + Z.max 0 d)%Z).
  set (due := List.filter (fun g => (fst g <=? t)%Z) (sleeping w)).
  set (rest := List.filter (fun g => negb (fst g <=? t)%Z) (sleeping w)).
  destruct (wake_up due (set_sleeping rest (set_now t w))) as (Hn & Hs & Ht & Hf).
  rewrite Hn, Hs. repeat split; [exact Ht|].
  intros p Hp. apply Hf. cbn [files set_sleeping set_now].
  destruct Hp as [Hp|(dt & Hin & Hle)]; [left; exact Hp|].
  right. apply in_map_iff. exists (dt, p). split; [reflexivity|].
  apply filter_In. split; [exact Hin|]. cbn. now apply Z.leb_le.
Qed.

Section Delivery.

Context (config : Config) (sniff : list byte -> string).

Lemma download_run (rq : Request) (id : string) (w : World) :
Method rq = http.MethodGet ->
URLPath rq = "/download/" +:+ id ->
id <> "" ->
let p := path.Join (UploadDir config) id in
downloadHandler config rq w =
  match files w !! p with
  | Some content =>
      ({| http.StatusCode := http.StatusOK;
          http.Headers :=
            [("Content-Disposition", "attachment; filename=" +:+ id);
             ("Content-Type", "application/octet-stream");
             ("Content-Length", pretty (Z.of_nat (List.length content)))];
          http.Payload_ := http.Bytes content |},
       after_download p (List.length content) w)
  | None => (http.Error "File not found" http.StatusNotFound,
             log (EvOpenFailed p) w)
  end.
Proof.
intros Hm Hp Hid. cbv zeta. unfold downloadHandler.
rewrite Hm, Hp. change (http.MethodGet =? http.MethodGet) with true. cbn [negb].
rewrite (TrimPrefix_app "/download/" id).
destruct (String.eqb_spec id ""); [contradiction|].
unfold bind, os_Open.
destruct (files w !! path.Join (UploadDir config) id) as [content|] eqn:Hf;
  [|reflexivity].
unfold file_Size, io_Copy_response, go_sleep_Remove, ret, file_size.
cbn [files log]. rewrite Hf. reflexivity.
Qed.

Lemma download_frame (rq : Request) (w : World) :
let w' := snd (downloadHandler config rq w) in
files w' = files w /\ now w' = now w
/\ (forall g, In g (sleeping w) -> In g (sleeping w'))
/\ (exists evs, trace w' = (trace w ++ evs)%list /\ created evs = []).
Proof.
cbv zeta. unfold downloadHandler.
destruct (negb (Method rq =? http.MethodGet)).
{ cbn. repeat split; auto. exists []. now rewrite app_nil_r. }
cbv zeta. destruct (_ =? "").
{ cbn. repeat split; auto. exists []. now rewrite app_nil_r. }
unfold bind, os_Open.
destruct (files w !! _) as [content|] eqn:Hf.
- cbn. repeat split; auto.
  + intros g Hg. apply in_or_app. now left.
  + eexists. split; [now rewrite <- !app_assoc | reflexivity].
- cbn. repeat split; auto. eexists. split; reflexivity.
Qed.

Lemma test_frame (rq : Request) (w : World) :
snd (testHandler config rq w) = w.
Proof.
unfold testHandler. destruct (negb _); [reflexivity|].
cbv zeta. destruct (negb _); reflexivity.
Qed.

Lemma upload_frame (r : Request) (w : World) :
let w' := snd (uploadHandler config sniff r w) in
now w' = now w /\ sleeping w' = sleeping w
/\ exists evs, trace w' = (trace w ++ evs)%list
     /\ forall p, ~ In p (created evs) -> files w' !! p = files w !! p.
Proof.
cbv zeta.
destruct (upload_cases config sniff r w)
  as [(resp & E & _) | [(resp & n & E & _) | (name & data & n & _ & _ & E)]];
  rewrite E.
- cbn. repeat split. exists []. split; [now rewrite app_nil_r | reflexivity].
- cbn. repeat split. eexists. split; reflexivity.
- pose proof (persist_outcome config name data (log (EvReadBody n) w)) as H.
  cbv zeta in H. destruct H as (Hn & Hs & H). rewrite Hn, Hs.
  repeat split.
  destruct H as [(_ & _ & Hf & Ht) | [(_ & _ & _ & Hf & Ht)
                 | (_ & _ & k & _ & Hf & Ht & _)]];
    rewrite Ht, Hf; cbn [trace log files]; rewrite <- app_assoc;
    eexists; (split; [reflexivity|]); cbn [created app]; intros p Hp;
    try reflexivity.
  rewrite lookup_insert_ne; [reflexivity|]. intros Eq. apply Hp. left. exact Eq.
Qed.

Lemma created_app (a b : list Event) :
created (a ++ b) = (created a ++ created b)%list.
Proof.
induction a as [|e a IH]; [reflexivity|].
destruct e; cbn; rewrite ?IH; reflexivity.
Qed.

Lemma step_trace (a : Action) (w : World) :
exists evs, trace (step config sniff a w) = (trace w ++ evs)%list.
Proof.
destruct a as [r|r|r|d]; cbn [step].
- destruct (upload_frame r w) as (_ & _ & evs & H & _). eauto.
- destruct (download_frame r w) as (_ & _ & _ & evs & H & _). eauto.
- rewrite test_frame. exists []. now rewrite app_nil_r.
- destruct (advance_spec d w) as (_ & _ & (evs & H & _) & _). eauto.
Qed.

Lemma run_trace (acts : list Action) (w : World) :
exists evs, trace (run config sniff acts w) = (trace w ++ evs)%list.
Proof.
revert w. induction acts as [|a acts IH]; intros w; cbn.
- exists []. now rewrite app_nil_r.
- destruct (step_trace a w) as [e1 H1].
  destruct (IH (step config sniff a w)) as [e2 H2].
  exists (e1 ++ e2)%list. unfold run in H2. rewrite H2, H1. now rewrite app_assoc.
Qed.

Lemma step_doomed (a : Action) (w : World) (T : Z) (p : string) :
doomed T p w ->
~ In p (created (since w (step config sniff a w))) ->
doomed T p (step config sniff a w).
Proof.
intros Hd Hc. destruct a as [r|r|r|d]; cbn [step] in *.
- destruct (upload_frame r w) as (Hn & Hs & evs & Ht & Hf).
  rewrite (since_extends _ _ _ Ht) in Hc.
  unfold doomed. rewrite Hn, Hs, (Hf p Hc). exact Hd.
- destruct (download_frame r w) as (Hf & Hn & Hs & _).
  unfold doomed. rewrite Hf, Hn.
  destruct Hd as [Hd|(Hlt & due & Hin & Hle)]; [now left|].
  right. split; [exact Hlt|]. exists due. split; [now apply Hs | exact Hle].
- now rewrite test_frame.
- destruct (advance_spec d w) as (Hn & Hs & _ & Hf).
  unfold doomed. rewrite Hn, Hs.
  destruct Hd as [Hd|(Hlt & due & Hin & Hle)]; [left; apply Hf; now left|].
  destruct (Z_le_gt_dec due (now w + Z.max 0 d)) as [Hdue|Hdue].
  + left. apply Hf. right. eauto.
  + right. split; [lia|]. exists due. split; [|exact Hle].
    apply filter_In. split; [exact Hin|]. cbn.
    apply negb_true_iff, Z.leb_gt. lia.
Qed.

Lemma run_doomed (acts : list Action) (w : World) (T : Z) (p : string) :
doomed T p w ->
~ In p (created (since w (run config sniff acts w))) ->
doomed T p (run config sniff acts w).
Proof.
revert w. induction acts as [|a acts IH]; intros w Hd Hc; [exact Hd|].
change (run config sniff (a :: acts) w)
  with (run config sniff acts (step config sniff a w)) in *.
destruct (step_trace a w) as [e1 H1].
destruct (run_trace acts (step config sniff a w)) as [e2 H2].
assert (H12 : trace (run config sniff acts (step config sniff a w))
              = (trace w ++ (e1 ++ e2))%list)
  by (rewrite H2, H1; now rewrite app_assoc).
rewrite (since_extends _ _ _ H12), created_app in Hc.
apply IH.
- apply step_doomed; [exact Hd|].
  rewrite (since_extends _ _ _ H1). intros Hin. apply Hc, in_or_app. now left.
- rewrite (since_extends _ _ _ H2). intros Hin. apply Hc, in_or_app. now right.
Qed.

(** C1.  A download of a stored identifier answers 200 with the whole
    content; its effects are, in this order, the opening of the file, the
    streaming of all its bytes and only then the start of the goroutine
    that sleeps one second and removes the file, so the file is still there
    when the handler returns.  Whatever the server does next, once the
    clock has passed the wake-up time a download of the same identifier
    answers 404, provided no upload has created that very path again in the
    meantime (identifiers are not reused). *)
Theorem download_schedules_removal_after_streaming
(rq : Request) (id : string) (content : list byte) (w : World)
(acts : list Action) :
Method rq = http.MethodGet ->
URLPath rq = "/download/" +:+ id ->
id <> "" ->
files w !! path.Join (UploadDir config) id = Some content ->
let p := path.Join (UploadDir config) id in
let resp := fst (downloadHandler config rq w) in
let w1 := snd (downloadHandler config rq w) in
let w2 := run config sniff acts w1 in
http.StatusCode resp = http.StatusOK
/\ http.Payload_ resp = http.Bytes content
/\ since w w1 = [EvOpen p; EvStream p (List.length content);
                 EvGo (now w + time_Second) p]
/\ files w1 !! p = Some content
/\ sleeping w1 = (sleeping w ++ [((now w + time_Second)%Z, p)])%list
/\ ((now w + time_Second <= now w2)%Z ->
    ~ In p (created (since w1 w2)) ->
    fst (downloadHandler config rq w2)
    = http.Error "File not found" http.StatusNotFound).
Proof.
intros Hm Hp Hid Hf. cbv zeta.
rewrite (download_run rq id w Hm Hp Hid). cbv zeta. rewrite Hf.
cbn [fst snd http.StatusCode http.Payload_].
set (p := path.Join (UploadDir config) id).
set (w1 := after_download p (List.length content) w).
repeat split.
- apply since_extends. cbn. now rewrite <- !app_assoc.
- exact Hf.
- intros Hlate Hfresh.
  assert (Hd : doomed (now w + time_Second) p w1).
  { right. split; [cbn; unfold time_Second; lia|].
    exists (now w + time_Second)%Z. split; [|lia].
    cbn. apply in_or_app. right. now left. }
  apply (run_doomed acts w1 _ p Hd) in Hfresh.
  destruct Hfresh as [Hgone|[Hlt _]]; [|lia].
  rewrite (download_run rq id _ Hm Hp Hid). cbv zeta.
  fold p. now rewrite Hgone.
Qed.
End Delivery.

(* ===================================================================== *)
(** ** Persistence: minting, saving, round trip                          *)
(* ===================================================================== *)

Lemma url_safe_ascii (c : ascii) :
  url_safe c -> (nat_of_ascii c <? 128)%nat = true.
Proof.
  intros [Hin | ->]; [|reflexivity].
  cbn in Hin. repeat (destruct Hin as [<-|Hin]; [reflexivity|]). destruct Hin.
Qed.

Lemma EncodeToString_ascii (src : list byte) :
  is_ascii (base64.URLEncoding.EncodeToString src) = true.
Proof.
  unfold is_ascii. apply forallb_forall. intros c Hin. apply url_safe_ascii.
  pose proof (EncodeToString_url_safe src) as H.
  rewrite List.Forall_forall in H. now apply H.
Qed.

Lemma is_ascii_app (s t : string) :
  is_ascii (s +:+ t) = is_ascii s && is_ascii t.
Proof.
  unfold is_ascii. now rewrite list_ascii_app, forallb_app.
Qed.

Lemma append_nonempty (s t : string) : t <> "" -> s +:+ t <> "".
Proof.
  intros Ht E. apply (f_equal String.length) in E. rewrite append_length in E.
  destruct t; [contradiction | cbn in E; lia].
Qed.

Lemma url_nonempty (rest : string) : "https://" +:+ rest <> "".
Proof. rewrite append_cons. discriminate. Qed.

Lemma url_of_success (message u : string) :
  u <> "" -> url_of (sendJSONResponse true message u) = json_string u.
Proof.
  intros Hu. unfold url_of, sendJSONResponse, json_Response. cbn.
  destruct (String.eqb_spec u ""); [contradiction | reflexivity].
Qed.

(** The URL of an upload in the JSON document: only the domain and the
    extension can hold bytes that JSON does not carry. *)
Lemma url_shape (domain rnd ext : string) :
  is_ascii rnd = true ->
  json_string ("https://" +:+ domain +:+ "/download/" +:+ rnd +:+ ext)
  = json_string ("https://" +:+ domain) +:+ "/download/" +:+ rnd
    +:+ json_string ext.
Proof.
  intros Hr.
  replace ("https://" +:+ domain +:+ "/download/" +:+ rnd +:+ ext)
    with (("https://" +:+ domain) +:+ String "/" (("download/" +:+ rnd) +:+ ext))
    by (now rewrite !append_assoc).
  rewrite json_string_before_ascii by (apply Nat.ltb_lt; reflexivity).
  rewrite (json_string_ascii ("download/" +:+ rnd) ext)
    by (rewrite is_ascii_app, Hr; reflexivity).
  now rewrite !append_assoc.
Qed.

Section Persistence.

Context (config : Config) (sniff : list byte -> string).

Lemma minted_length (w : World) (name : string) :
  (16 <= List.length (entropy w))%nat ->
  String.length (base64.URLEncoding.EncodeToString (take 16 (entropy w))) = 24%nat.
Proof.
  intros H. apply EncodeToString_16. rewrite length_take. lia.
Qed.

Lemma minted_nonempty (w : World) (name : string) :
  (16 <= List.length (entropy w))%nat -> minted w name <> "".
Proof.
  intros H E. apply (f_equal String.length) in E. unfold minted in E.
  rewrite append_length, (minted_length w name H) in E. cbn in E. lia.
Qed.

(** What an upload does to the storage, case by case. *)
Lemma upload_outcome (r : Request) (w : World) :
  let resp := fst (uploadHandler config sniff r w) in
  let w' := snd (uploadHandler config sniff r w) in
  (created (since w w') = [] /\ files w' = files w /\ succeeded resp = false
   /\ forall p, In (EvCreateFailed p) (since w w') ->
        resp = sendJSONResponse false
                 ("Error saving file: " +:+ error_Error (ErrCreate p)) "")
  \/ (exists name data p n,
        offered r = Some (name, data)
        /\ (16 <= List.length (entropy w))%nat
        /\ p = path.Join (UploadDir config) (minted w name)
        /\ n = Nat.min (List.length data) (free w + file_size w p)
        /\ (exists m, since w w'
                      = [EvReadBody m; EvRandRead 16; EvCreate p; EvWrite p n])
        /\ files w' = <[p := take n data]> (files w)
        /\ ((n < List.length data)%nat /\ succeeded resp = false
            /\ resp = sendJSONResponse false
                        ("Error saving file: " +:+ error_Error (ErrWrite p)) ""
            \/ n = List.length data /\ succeeded resp = true
               /\ resp = sendJSONResponse true "File uploaded successfully"
                           ("https://" +:+ Domain config +:+ "/download/"
                            +:+ minted w name))).
Proof.
  cbv zeta.
  destruct (upload_cases config sniff r w)
    as [(resp & E & Hs) | [(resp & n & E & Hs) | (name & data & n & Ho & _ & E)]];
    rewrite E; cbn [fst snd].
  - left. unfold since. rewrite drop_all. repeat split; auto. intros p [].
  - left. rewrite (since_extends w (log (EvReadBody n) w) [EvReadBody n] eq_refl).
    repeat split; auto. intros p [H|[]]. discriminate H.
  - pose proof (persist_outcome config name data (log (EvReadBody n) w)) as H.
    cbv zeta in H. destruct H as (_ & _ & H).
    change (minted (log (EvReadBody n) w) name) with (minted w name) in H.
    cbn [entropy unwritable free log files trace] in H.
    change (file_size (log (EvReadBody n) w)) with (file_size w) in H.
    destruct H as [(_ & Hr & Hf & Ht) | [(_ & _ & Hr & Hf & Ht)
                   | (He & _ & k & Hk & Hf & Ht & Hr)]].
    + left. rewrite <- app_assoc in Ht. rewrite (since_extends _ _ _ Ht), Hr, Hf.
      repeat split. intros p [H|[H|[]]]; discriminate H.
    + left. rewrite <- app_assoc in Ht. rewrite (since_extends _ _ _ Ht), Hr, Hf.
      repeat split. intros p [H|[H|[H|[]]]]; try discriminate H.
      injection H as <-. reflexivity.
    + right. rewrite <- app_assoc in Ht. rewrite (since_extends _ _ _ Ht), Hf.
      exists name, data, (path.Join (UploadDir config) (minted w name)), k.
      split; [assumption|]. split; [assumption|]. split; [reflexivity|].
      split; [assumption|]. split; [exists n; reflexivity|]. split; [reflexivity|].
      destruct Hr as [(Hlt & ->) | (Heq & ->)]; [left | right]; repeat split;
        assumption.
Qed.


(** C2, amended.  A successful upload creates exactly one file, which holds
    the whole payload.  A failed upload creates no file, except when the
    content write fails: then the file created under the minted identifier
    stays in the upload directory with the bytes written before the error,
    and the answer is the storage failure, without a URL.  When the
    creation itself fails the answer is the storage failure and no file is
    created.  (The message is the text of the error as the JSON document
    carries it.) *)
Theorem failed_write_keeps_the_created_file (r : Request) (w : World) :
  let resp := fst (uploadHandler config sniff r w) in
  let w' := snd (uploadHandler config sniff r w) in
  (succeeded resp = true ->
   exists name data p,
     offered r = Some (name, data)
     /\ p = path.Join (UploadDir config) (minted w name)
     /\ created (since w w') = [p]
     /\ files w' = <[p := data]> (files w))
  /\ (succeeded resp = false ->
      (created (since w w') = [] /\ files w' = files w)
      \/ (exists name data p n,
            offered r = Some (name, data)
            /\ p = path.Join (UploadDir config) (minted w name)
            /\ created (since w w') = [p]
            /\ (n < List.length data)%nat
            /\ files w' = <[p := take n data]> (files w)
            /\ message_of resp
               = json_string ("Error saving file: " +:+ error_Error (ErrWrite p))
            /\ url_of resp = ""))
  /\ (forall p, In (EvCreateFailed p) (since w w') ->
      succeeded resp = false
      /\ message_of resp
         = json_string ("Error saving file: " +:+ error_Error (ErrCreate p))
      /\ created (since w w') = [] /\ files w' = files w).
Proof.
  cbv zeta.
  destruct (upload_outcome r w)
    as [(Hc & Hf & Hs & Hm)
       | (name & data & p & n & Ho & He & Hp & Hn & (m & Hev) & Hf & Hr)].
  - rewrite Hs. split; [discriminate|]. split; [now left|].
    intros p Hin. repeat split; auto. now rewrite (Hm p Hin).
  - rewrite Hev. cbn [created]. split; [|split].
    + intros Hs. destruct Hr as [(_ & Hs' & _) | (Hfull & _)]; [congruence|].
      exists name, data, p. repeat split; try assumption.
      rewrite Hf, Hfull. now rewrite firstn_all.
    + intros Hs. destruct Hr as [(Hlt & _ & Hm) | (_ & Hs' & _)]; [|congruence].
      right. exists name, data, p, n. rewrite Hm. repeat split; assumption.
    + intros q [H|[H|[H|[H|[]]]]]; discriminate H.
Qed.


(** The name a handler passes on has the extension of the name the client
    sent, unless that one has none. *)
Lemma offered_sent (r : Request) (name : string) (data : list byte) :
  offered r = Some (name, data) ->
  exists original,
    sent_name r = Some original
    /\ (filepath.Ext original = "" \/ filepath.Ext name = filepath.Ext original).
Proof.
  unfold offered, sent_name.
  destruct (strings.HasPrefix _ _).
  - destruct (Body r) as [raw|boundary parts]; [discriminate|].
    destruct (find _ _) as [part|]; [|discriminate]. intros [= <- <-].
    exists (FileName part). split; [reflexivity|].
    unfold http.Filename. destruct (String.eqb_spec (FileName part) "") as [E|_].
    + left. now rewrite E.
    + destruct (Ext_Base (FileName part)); auto.
  - destruct (_ =? "application/x-www-form-urlencoded"); [|discriminate]. cbv zeta.
    destruct (base64.StdEncoding.DecodeString _); [|discriminate]. intros [= <- <-].
    eexists. split; [reflexivity|].
    destruct (String.eqb_spec
                (first_value (fst (url.ParseQuery (wire (Body r)))
                              ++ fst (url.ParseQuery (RawQuery r)))%list "filename") "")
      as [E|_]; [left; now rewrite E | right; reflexivity].
Qed.

(** C6.  After a successful upload the file offered is stored under the
    minted identifier: 24 random characters and the extension of the name
    the handler was given, so that the identifier ends with the extension
    of the file name the client sent.  A download of that identifier in the
    resulting world answers 200 with exactly the uploaded bytes and their
    length as Content-Length.  The URL in the answer is the domain part,
    [/download/] and the identifier as the JSON document carries them:
    byte for byte whenever domain and extension are valid UTF-8. *)
Theorem upload_then_download_roundtrip (r : Request) (w : World) :
  let resp := fst (uploadHandler config sniff r w) in
  let w' := snd (uploadHandler config sniff r w) in
  succeeded resp = true ->
  exists original name data,
    sent_name r = Some original
    /\ offered r = Some (name, data)
    /\ let rnd := base64.URLEncoding.EncodeToString (take 16 (entropy w)) in
       let id := minted w name in
       id = rnd +:+ filepath.Ext name
       /\ String.length rnd = 24%nat
       /\ strings.HasSuffix id (filepath.Ext original) = true
       /\ files w' !! path.Join (UploadDir config) id = Some data
       /\ url_of resp
          = json_string ("https://" +:+ Domain config) +:+ "/download/" +:+ rnd
            +:+ json_string (filepath.Ext name)
       /\ (json_string ("https://" +:+ Domain config) = "https://" +:+ Domain config ->
           json_string (filepath.Ext name) = filepath.Ext name ->
           url_of resp = "https://" +:+ Domain config +:+ "/download/" +:+ id)
       /\ forall rq,
            Method rq = http.MethodGet ->
            URLPath rq = "/download/" +:+ id ->
            let got := fst (downloadHandler config rq w') in
            http.StatusCode got = http.StatusOK
            /\ http.Payload_ got = http.Bytes data
            /\ first_value (http.Headers got) "Content-Length"
               = pretty (Z.of_nat (List.length data)).
Proof.
  cbv zeta. intros Hs.
  destruct (upload_outcome r w)
    as [(_ & _ & Hs' & _)
       | (name & data & p & n & Ho & He & Hp & Hn & _ & Hf & Hr)]; [congruence|].
  destruct Hr as [(_ & Hs' & _) | (Hfull & _ & Hr)]; [congruence|].
  destruct (offered_sent r name data Ho) as (original & Hsent & Hext).
  assert (Hurl : url_of (fst (uploadHandler config sniff r w))
                 = json_string ("https://" +:+ Domain config) +:+ "/download/"
                   +:+ base64.URLEncoding.EncodeToString (take 16 (entropy w))
                   +:+ json_string (filepath.Ext name)).
  { rewrite Hr, url_of_success by apply url_nonempty.
    apply url_shape, EncodeToString_ascii. }
  assert (Hstored : files (snd (uploadHandler config sniff r w))
                      !! path.Join (UploadDir config) (minted w name) = Some data).
  { rewrite <- Hp, Hf, lookup_insert_eq, Hfull. now rewrite firstn_all. }
  exists original, name, data. split; [exact Hsent|]. split; [exact Ho|].
  split; [reflexivity|]. split; [exact (minted_length w name He)|].
  split.
  { unfold minted. destruct Hext as [-> | <-];
      [apply HasSuffix_empty | apply HasSuffix_app]. }
  split; [exact Hstored|]. split; [exact Hurl|]. split.
  { intros Hd Hx. rewrite Hurl, Hd, Hx. unfold minted.
    now rewrite !append_assoc. }
  intros rq Hm Hu.
  rewrite (download_run config rq (minted w name) _ Hm Hu (minted_nonempty w name He)).
  cbv zeta. rewrite Hstored. repeat split.
Qed.

(** C9, amended.  A successful upload of a file whose name ends in [.png] is
    answered with success and the URL [https://<domain>/download/<id>.png]
    where [<id>] is 24 characters long, all of the URL-safe alphabet or
    padding. *)
Theorem png_upload_url (r : Request) (w : World) (name stem : string)
  (data : list byte) :
  let resp := fst (uploadHandler config sniff r w) in
  succeeded resp = true ->
  offered r = Some (name, data) ->
  name = stem +:+ ".png" ->
  exists rnd,
    String.length rnd = 24%nat
    /\ Forall url_safe (list_ascii_of_string rnd)
    /\ resp = sendJSONResponse true "File uploaded successfully"
                ("https://" +:+ Domain config +:+ "/download/" +:+ rnd +:+ ".png").
Proof.
  cbv zeta. intros Hs Ho Hname.
  destruct (upload_outcome r w)
    as [(_ & _ & Hs' & _)
       | (name' & data' & p & n & Ho' & He & Hp & Hn & _ & Hf & Hr)]; [congruence|].
  destruct Hr as [(_ & Hs' & _) | (_ & _ & Hr)]; [congruence|].
  rewrite Ho in Ho'. injection Ho' as <- <-.
  exists (base64.URLEncoding.EncodeToString (take 16 (entropy w))).
  split; [exact (minted_length w name He)|].
  split; [apply EncodeToString_url_safe|].
  rewrite Hr. unfold minted. now rewrite Hname, Ext_png.
Qed.

(** C8.  [generateRandomFilename] creates no file.  When the random source
    has 16 bytes it draws exactly those, and returns their URL-safe base64
    encoding (24 characters of the alphabet or padding) followed by
    [filepath.Ext] of the original name; otherwise it returns the error,
    and an upload in such a world fails without creating a file.  The
    extension is empty when the last element of the name has no dot, and is
    the text from the last dot on otherwise. *)
Theorem generateRandomFilename_mints (name : string) (w : World) (r : Request) :
  let res := fst (generateRandomFilename name w) in
  let w' := snd (generateRandomFilename name w) in
  let up := uploadHandler config sniff r w in
  files w' = files w
  /\ (if (16 <=? List.length (entropy w))%nat then
        exists rnd,
          rnd = base64.URLEncoding.EncodeToString (take 16 (entropy w))
          /\ List.length (take 16 (entropy w)) = 16%nat
          /\ entropy w' = drop 16 (entropy w)
          /\ since w w' = [EvRandRead 16]
          /\ String.length rnd = 24%nat
          /\ Forall url_safe (list_ascii_of_string rnd)
          /\ res = inl (rnd +:+ filepath.Ext name)
      else
        res = inr ErrEntropy
        /\ entropy w' = entropy w
        /\ succeeded (fst up) = false
        /\ created (since w (snd up)) = []
        /\ files (snd up) = files w)
  /\ ((filepath.Ext name = ""
       /\ exists dir base, name = dir +:+ base
            /\ Forall plain (list_ascii_of_string base)
            /\ (dir = "" \/ exists d, dir = d +:+ "/"))
      \/ (exists stem e, name = stem +:+ "." +:+ e
            /\ Forall plain (list_ascii_of_string e)
            /\ filepath.Ext name = "." +:+ e)).
Proof.
  cbv zeta. unfold generateRandomFilename, bind, rand_Read, ret.
  destruct (Nat.leb_spec 16 (List.length (entropy w))) as [He|He]; cbn [fst snd].
  - split; [reflexivity|]. split; [|apply Ext_cases].
    eexists. split; [reflexivity|].
    split; [rewrite length_take; lia|]. split; [reflexivity|].
    split; [apply since_extends; reflexivity|].
    split; [exact (minted_length w name He)|].
    split; [apply EncodeToString_url_safe | reflexivity].
  - split; [reflexivity|]. split; [|apply Ext_cases].
    split; [reflexivity|]. split; [reflexivity|].
    destruct (upload_outcome r w)
      as [(Hc & Hf & Hs & _) | (? & ? & ? & ? & _ & He' & _)]; [|lia].
    repeat split; assumption.
Qed.

End Persistence.

(* ===================================================================== *)
(** ** Admission: size limit and content type                            *)
(* ===================================================================== *)

Lemma string_of_list_ascii_length (l : list ascii) :
  String.length (string_of_list_ascii l) = List.length l.
Proof. induction l as [|c l IH]; cbn; [reflexivity | now rewrite IH]. Qed.

Lemma string_of_list_byte_length (l : list byte) :
  String.length (string_of_list_byte l) = List.length l.
Proof.
  unfold string_of_list_byte. rewrite string_of_list_ascii_length.
  apply length_map.
Qed.

Lemma append_empty_r (s : string) : s +:+ "" = s.
Proof.
  induction s as [|c s IH]; [reflexivity|].
  change (String c (s +:+ "") = String c s). now f_equal.
Qed.

Lemma concat_length_ge (ss : list string) (s : string) :
  In s ss -> (String.length s <= String.length (String.concat "" ss))%nat.
Proof.
  induction ss as [|x ss IH]; intros Hin; [contradiction|].
  assert (E : String.concat "" (x :: ss) = x +:+ String.concat "" ss).
  { destruct ss; cbn; [symmetry; apply append_empty_r | reflexivity]. }
  rewrite E, append_length.
  destruct Hin as [->|Hin]; [lia|]. specialize (IH Hin). lia.
Qed.

(** The framing of a multipart body takes room: every part is strictly
    shorter than the body that carries it. *)
Lemma wire_longer_than_part (boundary : string) (parts : list Part) (p : Part) :
  In p parts ->
  (List.length (Content p)
   < String.length (wire (MultipartBody boundary parts)))%nat.
Proof.
  intros Hin. cbn [wire]. rewrite !append_length.
  assert (H1 : (String.length (wire_part boundary p)
                <= String.length (String.concat "" (List.map (wire_part boundary) parts)))%nat).
  { apply concat_length_ge. now apply in_map. }
  assert (H2 : (List.length (Content p) < String.length (wire_part boundary p))%nat).
  { unfold wire_part. rewrite !append_length, string_of_list_byte_length. cbn. lia. }
  lia.
Qed.

Lemma message_of_send (success : bool) (message url : string) :
  message_of (sendJSONResponse success message url) = json_string message.
Proof. reflexivity. Qed.

Lemma url_of_failure (success : bool) (message : string) :
  url_of (sendJSONResponse success message "") = "".
Proof. reflexivity. Qed.

Lemma succeeded_send (success : bool) (message url : string) :
  succeeded (sendJSONResponse success message url) = success.
Proof. destruct success; reflexivity. Qed.

Lemma resolve4 (a b c d : string) :
  (let ct := a in
   let ct := if ct =? "" then b else ct in
   let ct := if ct =? "" then c else ct in
   if ct =? "" then d else ct)
  = first_nonempty [a; b; c; d].
Proof.
  cbv zeta. unfold first_nonempty.
  destruct (a =? "") eqn:Ea; cbn iota; rewrite ?Ea; [|reflexivity].
  destruct (b =? "") eqn:Eb; cbn iota; rewrite ?Eb; [|reflexivity].
  reflexivity.
Qed.

Lemma resolve3 (a b d : string) :
  (let ct := a in
   let ct := if ct =? "" then b else ct in
   if ct =? "" then d else ct)
  = first_nonempty [a; b; d].
Proof.
  cbv zeta. unfold first_nonempty.
  destruct (a =? "") eqn:Ea; cbn iota; rewrite ?Ea; reflexivity.
Qed.

Section Admission.

Context (config : Config) (sniff : list byte -> string).

(** [persist] never answers that the type is not allowed. *)
Lemma persist_message (name : string) (data : list byte) (w : World) :
  message_of (fst (persist config name data w)) <> "File type not allowed".
Proof.
  pose proof (persist_outcome config name data w) as H. cbv zeta in H.
  destruct H as (_ & _ & [(_ & -> & _) | [(_ & _ & -> & _)
                  | (_ & _ & n & _ & _ & _ & [(_ & ->) | (_ & ->)])]]);
    rewrite message_of_send; discriminate.
Qed.

(** When the environment is ready, [persist] succeeds. *)
Lemma persist_ready (name : string) (data : list byte) (w : World) :
  ready config w name data ->
  succeeded (fst (persist config name data w)) = true.
Proof.
  intros (He & Hw & Hroom).
  pose proof (persist_outcome config name data w) as H. cbv zeta in H.
  destruct H as (_ & _ & [(He' & _) | [(_ & Hin & _)
                  | (_ & _ & n & Hn & _ & _ & [(Hlt & _) | (_ & ->)])]]);
    try lia; try contradiction.
  now rewrite succeeded_send.
Qed.

Lemma multipart_parse (r : Request) (w : World) (form : http.Form) :
  fst (http.ParseMultipartForm (MaxFileSize config) (MaxFileSize config) r w)
  = Some form ->
  exists boundary parts,
    Body r = MultipartBody boundary parts
    /\ (Z.of_nat (String.length (wire (Body r))) <= MaxFileSize config)%Z
    /\ snd (url.ParseQuery (RawQuery r)) = false
    /\ form = {| http.Value :=
                   (fst (url.ParseQuery (RawQuery r))
                    ++ List.map http.part_value (List.filter http.is_value parts))%list;
                 http.File := List.filter http.is_file parts |}
    /\ snd (http.ParseMultipartForm (MaxFileSize config) (MaxFileSize config) r w)
       = log (EvReadBody (String.length (wire (Body r)))) w
    /\ (List.length parts <= http.maxParts)%nat.
Proof.
  unfold http.ParseMultipartForm.
  destruct (url.ParseQuery (RawQuery r)) as [qv qe].
  destruct (Body r) as [raw|boundary parts] eqn:Hb; [discriminate|].
  destruct (Z.gtb_spec (Z.of_nat (String.length (wire (MultipartBody boundary parts))))
              (MaxFileSize config)) as [Hgt|Hle]; [discriminate|].
  destruct (Nat.ltb_spec http.maxParts (List.length parts)) as [Hmany|Hfew];
    [discriminate|].
  destruct qe; [discriminate|]. cbn [fst snd]. intros [= <-].
  exists boundary, parts. repeat split; try assumption.
  rewrite Z.min_l by lia. now rewrite Nat2Z.id.
Qed.

Lemma file_part_in (parts : list Part) (header : Part) :
  List.find (fun p => String.eqb (FormName p) "file")
    (List.filter http.is_file parts) = Some header ->
  In header parts.
Proof.
  intros H. apply find_some in H. destruct H as [H _].
  apply filter_In in H. tauto.
Qed.

(** C7.  The type that [isAllowedFileType] checks is the first non-empty
    value of: for multipart, the declared type of the part, the X-File-Type
    header, the [filetype] form field and the sniffed type; for url-encoded,
    the [type] form field, the X-File-Type header and the sniffed type.
    The upload is answered [File type not allowed] exactly when the
    validator rejects that value. *)
Theorem validator_checks_first_nonempty_type (r : Request) (w : World) :
  (forall form header,
      fst (http.ParseMultipartForm (MaxFileSize config) (MaxFileSize config) r w)
      = Some form ->
      http.FormFile form "file" = Some header ->
      (isAllowedFileType config (resolved_multipart sniff r form header) = false
       <-> message_of (fst (handleMultipartUpload config sniff r w))
           = "File type not allowed"))
  /\ (forall form data,
        fst (http.ParseForm r w) = Some form ->
        http.FormValue form "data" <> "" ->
        base64.StdEncoding.DecodeString (http.FormValue form "data") = Some data ->
        (Z.of_nat (List.length data) <= MaxFileSize config)%Z ->
        (isAllowedFileType config (resolved_urlencoded sniff r form data) = false
         <-> message_of (fst (handleFormUrlEncodedUpload config sniff r w))
             = "File type not allowed")).
Proof.
  split.
  - intros form header Hparse Hfile.
    destruct (multipart_parse r w form Hparse)
      as (boundary & parts & Hb & Hlen & _ & Hform & _).
    assert (Hsize : (Z.of_nat (List.length (Content header)) <= MaxFileSize config)%Z).
    { assert (Hin : In header parts).
      { apply file_part_in. rewrite Hform in Hfile. exact Hfile. }
      pose proof (wire_longer_than_part boundary parts header Hin) as Hw.
      rewrite Hb in Hlen. lia. }
    unfold handleMultipartUpload, bind.
    destruct (http.ParseMultipartForm _ _ r w) as [parsed w1].
    cbn [fst] in Hparse. subst parsed. rewrite Hfile.
    destruct (Z.gtb_spec (Z.of_nat (List.length (Content header))) (MaxFileSize config));
      [lia|].
    cbv zeta.
    pose proof (resolve4 (http.Get (PartHeader header) "Content-Type")
                  (http.Get (Header r) "X-File-Type")
                  (http.FormValue form "filetype") (sniff (Content header))) as E.
    cbv zeta in E. fold (resolved_multipart sniff r form header) in E. rewrite E.
    destruct (isAllowedFileType config (resolved_multipart sniff r form header));
      cbn [negb].
    + split; [discriminate|]. intros Hmsg. exfalso.
      exact (persist_message (http.Filename header) (Content header) w1 Hmsg).
    + split; reflexivity.
  - intros form data Hparse Hdata Hdec Hsize.
    unfold handleFormUrlEncodedUpload, bind.
    destruct (http.ParseForm r w) as [parsed w1].
    cbn [fst] in Hparse. subst parsed. cbv zeta.
    destruct (String.eqb_spec (http.FormValue form "data") ""); [contradiction|].
    rewrite Hdec.
    destruct (Z.gtb_spec (Z.of_nat (List.length data)) (MaxFileSize config)); [lia|].
    pose proof (resolve3 (http.FormValue form "type")
                  (http.Get (Header r) "X-File-Type") (sniff data)) as E.
    cbv zeta in E. fold (resolved_urlencoded sniff r form data) in E. rewrite E.
    destruct (isAllowedFileType config (resolved_urlencoded sniff r form data));
      cbn [negb].
    + split; [discriminate|]. intros Hmsg. exfalso.
      exact (persist_message _ data w1 Hmsg).
    + split; reflexivity.
Qed.


Lemma urlencoded_parse (r : Request) (w : World) (form : http.Form) :
  fst (http.ParseForm r w) = Some form ->
  (Z.of_nat (String.length (wire (Body r))) <= http.maxFormSize)%Z
  /\ snd (http.ParseForm r w)
     = log (EvReadBody (String.length (wire (Body r)))) w.
Proof.
  unfold http.ParseForm.
  destruct (url.ParseQuery (RawQuery r)) as [qv qe].
  destruct (Z.gtb_spec (Z.of_nat (String.length (wire (Body r)))) http.maxFormSize)
    as [Hgt|Hle]; [discriminate|].
  destruct (url.ParseQuery (wire (Body r))) as [bv be].
  destruct (be || qe); [discriminate|]. cbn [fst snd]. intros _.
  split; [assumption|].
  rewrite Z.min_l by lia. now rewrite Nat2Z.id.
Qed.

Lemma ParseMultipartForm_reads (limit maxMemory : Z) (r : Request) (w : World) :
  snd (http.ParseMultipartForm limit maxMemory r w)
  = log (EvReadBody (Z.to_nat (Z.min (Z.of_nat (String.length (wire (Body r))))
                                     (limit + 1)))) w.
Proof.
  unfold http.ParseMultipartForm.
  destruct (url.ParseQuery (RawQuery r)) as [qv qe].
  destruct (Body r) as [raw|boundary parts]; [reflexivity|].
  destruct (_ >? _)%Z; [reflexivity|].
  destruct (_ <? _)%nat; [reflexivity|].
  destruct qe; reflexivity.
Qed.

Lemma ParseForm_reads (r : Request) (w : World) :
  snd (http.ParseForm r w)
  = log (EvReadBody (Z.to_nat (Z.min (Z.of_nat (String.length (wire (Body r))))
                                     (http.maxFormSize + 1)))) w.
Proof.
  unfold http.ParseForm.
  destruct (url.ParseQuery (RawQuery r)) as [qv qe].
  destruct (_ >? _)%Z; [reflexivity|].
  destruct (url.ParseQuery (wire (Body r))) as [bv be].
  destruct (be || qe); reflexivity.
Qed.

Lemma persist_trace (name : string) (data : list byte) (w : World) :
  exists evs, trace (snd (persist config name data w)) = (trace w ++ evs)%list.
Proof.
  pose proof (persist_outcome config name data w) as H. cbv zeta in H.
  destruct H as (_ & _ & [(_ & _ & _ & Ht) | [(_ & _ & _ & _ & Ht)
                  | (_ & _ & n & _ & _ & Ht & _)]]); eauto.
Qed.

(** Both upload handlers begin by reading the body, each up to its own
    bound. *)
Lemma multipart_begins_with_the_read (r : Request) (w : World) :
  exists evs,
    since w (snd (handleMultipartUpload config sniff r w))
    = EvReadBody (Z.to_nat (Z.min (Z.of_nat (String.length (wire (Body r))))
                                  (MaxFileSize config + 1))) :: evs.
Proof.
  unfold handleMultipartUpload, bind.
  pose proof (ParseMultipartForm_reads (MaxFileSize config) (MaxFileSize config) r w)
    as Hw.
  destruct (http.ParseMultipartForm _ _ r w) as [parsed w1]. cbn [snd] in Hw.
  set (n := Z.to_nat _) in Hw.
  assert (Hret : forall resp, exists evs,
             since w (snd (ret resp w1 : http.Written * World)) = EvReadBody n :: evs).
  { intros resp. exists []. apply since_extends. now rewrite Hw. }
  destruct parsed as [form|]; [|apply Hret].
  destruct (http.FormFile form "file") as [header|]; [|apply Hret].
  destruct (_ >? _)%Z; [apply Hret|]. cbv zeta.
  destruct (negb _); [apply Hret|].
  destruct (persist_trace (http.Filename header) (Content header) w1) as [evs Ht].
  exists evs. apply since_extends.
  change (trace (snd (persist config (http.Filename header) (Content header) w1))
          = (trace w ++ EvReadBody n :: evs)%list).
  rewrite Ht, Hw. cbn [trace log]. now rewrite <- app_assoc.
Qed.

Lemma urlencoded_begins_with_the_read (r : Request) (w : World) :
  exists evs,
    since w (snd (handleFormUrlEncodedUpload config sniff r w))
    = EvReadBody (Z.to_nat (Z.min (Z.of_nat (String.length (wire (Body r))))
                                  (http.maxFormSize + 1))) :: evs.
Proof.
  unfold handleFormUrlEncodedUpload, bind.
  pose proof (ParseForm_reads r w) as Hw.
  destruct (http.ParseForm r w) as [parsed w1]. cbn [snd] in Hw.
  set (n := Z.to_nat _) in Hw.
  assert (Hret : forall resp, exists evs,
             since w (snd (ret resp w1 : http.Written * World)) = EvReadBody n :: evs).
  { intros resp. exists []. apply since_extends. now rewrite Hw. }
  destruct parsed as [form|]; [|apply Hret]. cbv zeta.
  destruct (http.FormValue form "data" =? ""); [apply Hret|].
  destruct (base64.StdEncoding.DecodeString _) as [fileData|]; [|apply Hret].
  destruct (_ >? _)%Z; [apply Hret|].
  destruct (negb _); [apply Hret|].
  match goal with
  | |- context [generateRandomFilename ?name] =>
      destruct (persist_trace name fileData w1) as [evs Ht];
      exists evs; apply since_extends;
      change (trace (snd (persist config name fileData w1))
              = (trace w ++ EvReadBody n :: evs)%list)
  end.
  rewrite Ht, Hw. cbn [trace log]. now rewrite <- app_assoc.
Qed.

(** C4, amended.  For an authenticated POST.  A payload longer than
    [max_file_size], by one byte or more, is answered [File too large] in
    both shapes and nothing else happens: in the multipart shape whenever a
    part of the body is that long, in the url-encoded shape once the form
    has parsed and the data has decoded.  In the url-encoded shape a
    payload of at most [max_file_size] bytes is accepted (type allowed,
    environment ready).  The limit is not enforced in the same way: the
    multipart body is read through a reader capped at [max_file_size],
    which draws at most [max_file_size + 1] bytes of it, while the
    url-encoded body is read whole, up to 10 MB whatever [max_file_size]
    is, and decoded before the length of the payload is compared with the
    limit. *)
Theorem size_limit_by_transport (r : Request) (w : World) :
  Method r = http.MethodPost ->
  http.Get (Header r) "X-API-Key" = APIKey config ->
  (0 < MaxFileSize config)%Z ->
  let resp := fst (uploadHandler config sniff r w) in
  let w' := snd (uploadHandler config sniff r w) in
  let ct := http.Get (Header r) "Content-Type" in
  let body_len := Z.of_nat (String.length (wire (Body r))) in
  (strings.HasPrefix ct "multipart/form-data" = true ->
   (exists n evs,
       since w w' = EvReadBody n :: evs
       /\ (Z.of_nat n <= Z.min body_len (MaxFileSize config + 1))%Z)
   /\ (forall boundary parts part,
         Body r = MultipartBody boundary parts -> In part parts ->
         (MaxFileSize config < Z.of_nat (List.length (Content part)))%Z ->
         resp = sendJSONResponse false "File too large" ""
         /\ exists n, w' = log (EvReadBody n) w
                      /\ (Z.of_nat n <= MaxFileSize config + 1)%Z))
  /\ (strings.HasPrefix ct "multipart/form-data" = false ->
      ct = "application/x-www-form-urlencoded" ->
      (exists n evs,
          since w w' = EvReadBody n :: evs
          /\ Z.of_nat n = Z.min body_len (http.maxFormSize + 1))
      /\ forall form data,
           fst (http.ParseForm r w) = Some form ->
           http.FormValue form "data" <> "" ->
           base64.StdEncoding.DecodeString (http.FormValue form "data") = Some data ->
           (body_len <= http.maxFormSize)%Z
           /\ ((MaxFileSize config < Z.of_nat (List.length data))%Z ->
               resp = sendJSONResponse false "File too large" ""
               /\ w' = log (EvReadBody (String.length (wire (Body r)))) w)
           /\ ((Z.of_nat (List.length data) <= MaxFileSize config)%Z ->
               isAllowedFileType config (resolved_urlencoded sniff r form data) = true ->
               ready config w
                 (if http.FormValue form "filename" =? "" then "file.dat"
                  else http.FormValue form "filename") data ->
               succeeded resp = true)).
Proof.
  intros Hpost Hkey Hpos. cbv zeta. unfold uploadHandler.
  rewrite Hpost, Hkey, !String.eqb_refl. cbn [negb]. cbv zeta.
  split.
  - intros Hct. rewrite Hct. split.
    + destruct (multipart_begins_with_the_read r w) as [evs Hev].
      eexists _, evs. split; [exact Hev|]. lia.
    + intros boundary parts part Hb Hin Hbig.
      pose proof (wire_longer_than_part boundary parts part Hin) as Hwire.
      unfold handleMultipartUpload, bind, http.ParseMultipartForm.
      destruct (url.ParseQuery (RawQuery r)) as [qv qe]. rewrite Hb.
      rewrite Z.min_r by lia.
      destruct (Z.gtb_spec (Z.of_nat (String.length (wire (MultipartBody boundary parts))))
                  (MaxFileSize config)); [|lia].
      split; [reflexivity|]. eexists. split; [reflexivity|]. lia.
  - intros Hct Hue. rewrite Hct, Hue, String.eqb_refl. split.
    { destruct (urlencoded_begins_with_the_read r w) as [evs Hev].
      eexists _, evs. split; [exact Hev|].
      assert (0 <= http.maxFormSize + 1)%Z by (vm_compute; discriminate). lia. }
    intros form data Hparse Hdata Hdec.
    destruct (urlencoded_parse r w form Hparse) as (Hlen & Hw1).
    split; [exact Hlen|].
    unfold handleFormUrlEncodedUpload, bind.
    destruct (http.ParseForm r w) as [parsed w1].
    cbn [fst snd] in Hparse, Hw1. subst parsed w1. cbv zeta.
    destruct (String.eqb_spec (http.FormValue form "data") ""); [contradiction|].
    rewrite Hdec.
    destruct (Z.gtb_spec (Z.of_nat (List.length data)) (MaxFileSize config)) as [Hgt|Hle].
    + split; [intros _; split; reflexivity | intros; lia].
    + split; [intros; lia|]. intros _ Hallowed Hready.
      pose proof (resolve3 (http.FormValue form "type")
                    (http.Get (Header r) "X-File-Type") (sniff data)) as E.
      cbv zeta in E. fold (resolved_urlencoded sniff r form data) in E.
      rewrite E, Hallowed. cbn [negb].
      apply (persist_ready _ data). exact Hready.
Qed.

End Admission.

(* ===================================================================== *)
(** ** The type validator                                                *)
(* ===================================================================== *)

Section Validator.

Context (config : Config).

Lemma exact_loop_iff (lower : string) (allowed : list string) :
  exact_loop lower allowed = true
  <-> exists entry, In entry allowed /\ lower = strings.ToLower entry.
Proof.
  induction allowed as [|a allowed IH]; cbn [exact_loop].
  - split; [discriminate | intros (e & [] & _)].
  - cbv zeta. destruct (String.eqb_spec lower (strings.ToLower a)) as [E|E].
    + split; [|reflexivity]. intros _. exists a. split; [now left | exact E].
    + rewrite IH. split.
      * intros (e & Hin & He). exists e. split; [now right | exact He].
      * intros (e & [<-|Hin] & He); [contradiction|]. eauto.
Qed.

Lemma wildcard_loop_iff (lower : string) (allowed : list string) :
  wildcard_loop lower allowed = true
  <-> exists entry, In entry allowed
        /\ strings.HasSuffix (strings.ToLower entry) "/*" = true
        /\ strings.HasPrefix lower
             (strings.TrimSuffix (strings.ToLower entry) "/*") = true.
Proof.
  induction allowed as [|a allowed IH]; cbn [wildcard_loop].
  - split; [discriminate | intros (e & [] & _)].
  - cbv zeta.
    destruct (strings.HasSuffix (strings.ToLower a) "/*") eqn:Hs.
    + destruct (strings.HasPrefix lower
                  (strings.TrimSuffix (strings.ToLower a) "/*")) eqn:Hp.
      * split; [|reflexivity]. intros _. exists a. repeat split; auto. now left.
      * rewrite IH. split.
        -- intros (e & Hin & He). exists e. split; [now right | exact He].
        -- intros (e & [<-|Hin] & Hs' & Hp'); [congruence|]. eauto.
    + rewrite IH. split.
      * intros (e & Hin & He). exists e. split; [now right | exact He].
      * intros (e & [<-|Hin] & Hs' & Hp'); [congruence|]. eauto.
Qed.

(** What [isAllowedFileType] accepts: the wildcard prefix is the entry
    without its last two characters, slash and star. *)
Lemma isAllowedFileType_iff (contentType : string) :
  isAllowedFileType config contentType = true
  <-> (exists entry, In entry (AllowedTypes config)
         /\ strings.ToLower contentType = strings.ToLower entry)
      \/ (exists entry, In entry (AllowedTypes config)
            /\ strings.HasSuffix (strings.ToLower entry) "/*" = true
            /\ strings.HasPrefix (strings.ToLower contentType)
                 (strings.TrimSuffix (strings.ToLower entry) "/*") = true).
Proof.
  unfold isAllowedFileType. cbv zeta.
  rewrite <- exact_loop_iff, <- wildcard_loop_iff.
  destruct (exact_loop _ _); [tauto|].
  destruct (wildcard_loop _ _); [tauto|].
  split; [discriminate | intros [H|H]; discriminate H].
Qed.

(** The verdict does not depend on the case of the candidate. *)
Lemma isAllowedFileType_case (a b : string) :
  strings.ToLower a = strings.ToLower b ->
  isAllowedFileType config a = isAllowedFileType config b.
Proof. intros E. unfold isAllowedFileType. now rewrite E. Qed.

End Validator.

(* ===================================================================== *)
(** ** The statements on the concrete server                             *)
(* ===================================================================== *)

(** C3.  With the built-in allow-list, which holds the wildcard [image/*],
    [isAllowedFileType] accepts the media type [imagex/png]: the prefix it
    compares with is [image], the slash is trimmed away with the star.  The
    validator of the design, whose wildcard prefix keeps the slash, rejects
    that type.  An upload whose part declares it is accepted. *)
Theorem wildcard_prefix_drops_the_slash :
  In "image/*" (AllowedTypes Fixture.config)
  /\ isAllowedFileType Fixture.config "imagex/png" = true
  /\ spec_allowed (AllowedTypes Fixture.config) "imagex/png" = false
  /\ succeeded (fst (uploadHandler Fixture.config Fixture.sniff
                       (Fixture.typed_upload "imagex/png") Fixture.world))
     = true.
Proof.
  split; [cbn; tauto|]. repeat split; vm_compute; reflexivity.
Qed.

Lemma download_schedules_removal_after_streaming_witness :
  let rq := GET ("/download/" +:+ Fixture.id) in
  let w1 := snd (downloadHandler Fixture.config rq Fixture.stored) in
  let w2 := run Fixture.config Fixture.sniff [Wait time_Second] w1 in
  files Fixture.stored !! path.Join (UploadDir Fixture.config) Fixture.id
  = Some (Fixture.payload 100)
  /\ fst (downloadHandler Fixture.config rq w2)
     = http.Error "File not found" http.StatusNotFound.
Proof.
  cbv zeta. split; [vm_compute; reflexivity|].
  pose proof (download_schedules_removal_after_streaming
                Fixture.config Fixture.sniff
                (GET ("/download/" +:+ Fixture.id)) Fixture.id
                (Fixture.payload 100) Fixture.stored [Wait time_Second]
                eq_refl eq_refl) as H.
  cbv zeta in H.
  destruct H as (_ & _ & _ & _ & _ & H).
  - discriminate.
  - vm_compute. reflexivity.
  - apply H.
    + vm_compute. discriminate.
    + vm_compute. tauto.
Defined.

(** An upload that fails at the content write leaves a file that can be
    downloaded. *)
Lemma failed_write_leaves_a_file :
  let r := Fixture.multipart_upload "secret" 100 in
  let resp := fst (uploadHandler Fixture.config Fixture.sniff r Fixture.full_disk) in
  let w' := snd (uploadHandler Fixture.config Fixture.sniff r Fixture.full_disk) in
  let got := fst (downloadHandler Fixture.config
                    (GET ("/download/" +:+ Fixture.id)) w') in
  succeeded resp = false
  /\ message_of resp
     = "Error saving file: write uploads/MDEyMzQ1Njc4OWFiY2RlZg==.png: no space left on device"
  /\ files Fixture.full_disk !! Fixture.path_of_id = None
  /\ files w' !! Fixture.path_of_id = Some (Fixture.payload 4)
  /\ created (since Fixture.full_disk w') = [Fixture.path_of_id]
  /\ http.StatusCode got = http.StatusOK
  /\ http.Payload_ got = http.Bytes (Fixture.payload 4).
Proof. cbv zeta. repeat split; vm_compute; reflexivity. Qed.

Lemma failed_write_keeps_the_created_file_witness :
  let r := Fixture.multipart_upload "secret" 100 in
  let resp := fst (uploadHandler Fixture.config Fixture.sniff r Fixture.full_disk) in
  let w' := snd (uploadHandler Fixture.config Fixture.sniff r Fixture.full_disk) in
  succeeded resp = false
  /\ ((created (since Fixture.full_disk w') = [] /\ files w' = files Fixture.full_disk)
      \/ exists name data p n,
           offered r = Some (name, data)
           /\ p = path.Join (UploadDir Fixture.config) (minted Fixture.full_disk name)
           /\ created (since Fixture.full_disk w') = [p]
           /\ (n < List.length data)%nat
           /\ files w' = <[p := take n data]> (files Fixture.full_disk)
           /\ message_of resp
              = json_string ("Error saving file: " +:+ error_Error (ErrWrite p))
           /\ url_of resp = "").
Proof.
  cbv zeta.
  assert (Hs : succeeded (fst (uploadHandler Fixture.config Fixture.sniff
                                 (Fixture.multipart_upload "secret" 100)
                                 Fixture.full_disk)) = false)
    by (vm_compute; reflexivity).
  split; [exact Hs|].
  exact (proj1 (proj2 (failed_write_keeps_the_created_file
                         Fixture.config Fixture.sniff
                         (Fixture.multipart_upload "secret" 100)
                         Fixture.full_disk)) Hs).
Defined.

(** With a limit of 400 bytes.  A url-encoded upload whose payload has 402
    bytes is answered [File too large] only after its whole body of 575
    bytes has been read, while the multipart upload of the same payload is
    cut off after 401 bytes: the limit is not enforced during the read in
    both shapes.  And a payload of 399 bytes, one byte under the limit and
    of an allowed type, is answered [File too large] when it is sent as
    multipart. *)
Lemma limit_is_not_enforced_alike :
  let big := Fixture.sized_form_upload 402 in
  let cut := Fixture.multipart_upload "secret" 402 in
  let small := Fixture.multipart_upload "secret" 399 in
  offered big = Some ("big.png", Fixture.payload 402)
  /\ uploadHandler Fixture.config Fixture.sniff big Fixture.world
     = (sendJSONResponse false "File too large" "",
        log (EvReadBody 575) Fixture.world)
  /\ uploadHandler Fixture.config Fixture.sniff cut Fixture.world
     = (sendJSONResponse false "File too large" "",
        log (EvReadBody 401) Fixture.world)
  /\ offered small = Some ("photo.png", Fixture.payload 399)
  /\ Z.of_nat (List.length (Fixture.payload 399)) = (MaxFileSize Fixture.config - 1)%Z
  /\ isAllowedFileType Fixture.config "image/png" = true
  /\ ready Fixture.config Fixture.world "photo.png" (Fixture.payload 399)
  /\ fst (uploadHandler Fixture.config Fixture.sniff small Fixture.world)
     = sendJSONResponse false "File too large" "".
Proof.
  cbv zeta. unfold ready.
  repeat split; try (vm_compute; reflexivity); try (vm_compute; lia).
  vm_compute. discriminate.
Qed.

Lemma fixture_is_loaded : loaded Fixture.config.
Proof. exists Fixture.parsed. reflexivity. Qed.

Lemma size_limit_by_transport_witness :
  let r := Fixture.multipart_upload "secret" 402 in
  let f := Fixture.form_upload "secret" in
  Method r = http.MethodPost
  /\ http.Get (Header r) "X-API-Key" = APIKey Fixture.config
  /\ (0 < MaxFileSize Fixture.config)%Z
  /\ fst (uploadHandler Fixture.config Fixture.sniff r Fixture.world)
     = sendJSONResponse false "File too large" ""
  /\ succeeded (fst (uploadHandler Fixture.config Fixture.sniff f Fixture.world)) = true.
Proof.
  cbv zeta.
  assert (Hpos : (0 < MaxFileSize Fixture.config)%Z) by (vm_compute; reflexivity).
  split; [reflexivity|]. split; [reflexivity|]. split; [exact Hpos|]. split.
  - pose proof (size_limit_by_transport Fixture.config Fixture.sniff
                  (Fixture.multipart_upload "secret" 402) Fixture.world
                  eq_refl eq_refl Hpos) as H.
    cbv zeta in H. destruct H as [H _].
    destruct (H eq_refl) as (_ & H2).
    apply (H2 "frontier" [Fixture.png_part 402] (Fixture.png_part 402)).
    + reflexivity.
    + now left.
    + vm_compute. reflexivity.
  - pose proof (size_limit_by_transport Fixture.config Fixture.sniff
                  (Fixture.form_upload "secret") Fixture.world
                  eq_refl eq_refl Hpos) as H.
    cbv zeta in H. destruct H as [_ H].
    destruct (H eq_refl eq_refl) as (_ & H2).
    destruct (H2 {| http.Value := [("filename", "note.png"); ("type", "image/png");
                                   ("data", "aGVsbG8=")];
                    http.File := [] |}
                 (list_byte_of_string "hello")) as (_ & _ & H3).
    + vm_compute. reflexivity.
    + vm_compute. discriminate.
    + vm_compute. reflexivity.
    + apply H3.
      * vm_compute. discriminate.
      * vm_compute. reflexivity.
      * unfold ready. repeat split; try (vm_compute; lia). vm_compute. discriminate.
Defined.

Lemma unauthorized_request_touches_nothing_witness :
  let r := Fixture.multipart_upload "wrong" 100 in
  loaded Fixture.config
  /\ http.Get (Header r) "X-API-Key" <> APIKey Fixture.config
  /\ uploadHandler Fixture.config Fixture.sniff r Fixture.world
     = (http.Error "Unauthorized" http.StatusUnauthorized, Fixture.world).
Proof.
  cbv zeta.
  assert (Hk : http.Get (Header (Fixture.multipart_upload "wrong" 100)) "X-API-Key"
               <> APIKey Fixture.config) by (vm_compute; discriminate).
  split; [exact fixture_is_loaded|]. split; [exact Hk|].
  pose proof (unauthorized_request_touches_nothing Fixture.config Fixture.sniff
                (Fixture.multipart_upload "wrong" 100) Fixture.world
                fixture_is_loaded (or_intror Hk)) as [H _].
  destruct (uploadHandler Fixture.config Fixture.sniff
              (Fixture.multipart_upload "wrong" 100) Fixture.world) as [resp w'].
  destruct H as (-> & _ & H). now rewrite (H eq_refl).
Defined.

Lemma upload_then_download_roundtrip_witness :
  let r := Fixture.traversal_upload in
  let resp := fst (uploadHandler Fixture.config Fixture.sniff r Fixture.world) in
  let w' := snd (uploadHandler Fixture.config Fixture.sniff r Fixture.world) in
  succeeded resp = true
  /\ sent_name r = Some "../../etc/cron.d/job.png"
  /\ exists name data,
       offered r = Some (name, data)
       /\ strings.HasSuffix (minted Fixture.world name)
            (filepath.Ext "../../etc/cron.d/job.png") = true
       /\ http.Payload_
            (fst (downloadHandler Fixture.config
                    (GET ("/download/" +:+ minted Fixture.world name)) w'))
          = http.Bytes data.
Proof.
  cbv zeta.
  assert (Hs : succeeded (fst (uploadHandler Fixture.config Fixture.sniff
                                 Fixture.traversal_upload Fixture.world)) = true)
    by (vm_compute; reflexivity).
  split; [exact Hs|]. split; [reflexivity|].
  destruct (upload_then_download_roundtrip Fixture.config Fixture.sniff
              Fixture.traversal_upload Fixture.world Hs)
    as (original & name & data & Hsent & Ho & _ & _ & Hsuffix & _ & _ & _ & Hd).
  assert (Hname : sent_name Fixture.traversal_upload
                  = Some "../../etc/cron.d/job.png") by (vm_compute; reflexivity).
  assert (E : original = "../../etc/cron.d/job.png") by congruence.
  exists name, data. split; [exact Ho|]. split.
  - rewrite <- E. exact Hsuffix.
  - exact (proj1 (proj2 (Hd (GET ("/download/" +:+ minted Fixture.world name))
                            eq_refl eq_refl))).
Defined.

Lemma validator_checks_first_nonempty_type_witness :
  let r := Fixture.multipart_upload "secret" 100 in
  let form := {| http.Value := []; http.File := [Fixture.png_part 100] |} in
  fst (http.ParseMultipartForm (MaxFileSize Fixture.config)
         (MaxFileSize Fixture.config) r Fixture.world) = Some form
  /\ http.FormFile form "file" = Some (Fixture.png_part 100)
  /\ (isAllowedFileType Fixture.config
        (resolved_multipart Fixture.sniff r form (Fixture.png_part 100)) = false
      <-> message_of (fst (handleMultipartUpload Fixture.config Fixture.sniff r
                             Fixture.world))
          = "File type not allowed").
Proof.
  cbv zeta.
  assert (Hp : fst (http.ParseMultipartForm (MaxFileSize Fixture.config)
                      (MaxFileSize Fixture.config)
                      (Fixture.multipart_upload "secret" 100) Fixture.world)
               = Some {| http.Value := []; http.File := [Fixture.png_part 100] |})
    by (vm_compute; reflexivity).
  split; [exact Hp|]. split; [reflexivity|].
  exact (proj1 (validator_checks_first_nonempty_type Fixture.config Fixture.sniff
                  (Fixture.multipart_upload "secret" 100) Fixture.world)
               _ (Fixture.png_part 100) Hp eq_refl).
Defined.

(** The identifier of a png upload has 24 characters, not 32. *)
Lemma png_identifier_has_24_characters :
  let r := Fixture.multipart_upload "secret" 100 in
  let resp := fst (uploadHandler Fixture.config Fixture.sniff r Fixture.world) in
  offered r = Some ("photo.png", Fixture.payload 100)
  /\ succeeded resp = true
  /\ url_of resp
     = "https://assets.example.org/download/MDEyMzQ1Njc4OWFiY2RlZg==.png"
  /\ String.length "MDEyMzQ1Njc4OWFiY2RlZg==" = 24%nat
  /\ ~ url_with_32_char_id Fixture.config (url_of resp).
Proof.
  cbv zeta.
  assert (Hu : url_of (fst (uploadHandler Fixture.config Fixture.sniff
                              (Fixture.multipart_upload "secret" 100) Fixture.world))
               = "https://assets.example.org/download/MDEyMzQ1Njc4OWFiY2RlZg==.png")
    by (vm_compute; reflexivity).
  repeat split; try (vm_compute; reflexivity).
  rewrite Hu. intros (rnd & Hlen & Hurl).
  apply (f_equal String.length) in Hurl.
  rewrite !append_length, Hlen in Hurl. vm_compute in Hurl. discriminate Hurl.
Qed.

Lemma png_upload_url_witness :
  let r := Fixture.multipart_upload "secret" 100 in
  let resp := fst (uploadHandler Fixture.config Fixture.sniff r Fixture.world) in
  succeeded resp = true
  /\ offered r = Some ("photo" +:+ ".png", Fixture.payload 100)
  /\ exists rnd,
       String.length rnd = 24%nat
       /\ Forall url_safe (list_ascii_of_string rnd)
       /\ resp = sendJSONResponse true "File uploaded successfully"
                   ("https://" +:+ Domain Fixture.config +:+ "/download/"
                    +:+ rnd +:+ ".png").
Proof.
  cbv zeta.
  assert (Hs : succeeded (fst (uploadHandler Fixture.config Fixture.sniff
                                 (Fixture.multipart_upload "secret" 100)
                                 Fixture.world)) = true)
    by (vm_compute; reflexivity).
  assert (Ho : offered (Fixture.multipart_upload "secret" 100)
               = Some ("photo" +:+ ".png", Fixture.payload 100))
    by (vm_compute; reflexivity).
  split; [exact Hs|]. split; [exact Ho|].
  exact (png_upload_url Fixture.config Fixture.sniff
           (Fixture.multipart_upload "secret" 100) Fixture.world
           ("photo" +:+ ".png") "photo" (Fixture.payload 100) Hs Ho eq_refl).
Defined.

Lemma test_endpoint_answers_200_witness :
  let r := Fixture.test_request "wrong" in
  loaded Fixture.config
  /\ Method r = http.MethodGet
  /\ http.Get (Header r) "X-API-Key" <> APIKey Fixture.config
  /\ exists resp,
       testHandler Fixture.config r Fixture.world = (resp, Fixture.world)
       /\ http.StatusCode resp = 200%Z
       /\ http.Payload_ resp
          = http.JSON [("success", JBool false);
                       ("message", JString "Invalid API key")].
Proof.
  cbv zeta.
  assert (Hk : http.Get (Header (Fixture.test_request "wrong")) "X-API-Key"
               <> APIKey Fixture.config) by (vm_compute; discriminate).
  split; [exact fixture_is_loaded|]. split; [reflexivity|]. split; [exact Hk|].
  exact (proj1 (test_endpoint_answers_200 Fixture.config
                  (Fixture.test_request "wrong") Fixture.world
                  fixture_is_loaded eq_refl) (or_intror Hk)).
Defined.

(* ===================================================================== *)
(** ** Further properties: configuration                                 *)
(* ===================================================================== *)

(** X1.  [loadConfig] accepts a parsed configuration exactly when the size
    limit is positive and the key, the upload directory and the domain are
    not empty; the first of these checks that fails, in this order, gives
    the error.  An accepted configuration keeps those four fields, gets the
    port [:8080] when none is given and the built-in allow-list when the
    list is empty, so its port and its allow-list are never empty. *)
Theorem loadConfig_validates_and_defaults (parsed : Config) :
  match loadConfig parsed with
  | inl config =>
      (0 < MaxFileSize parsed)%Z /\ APIKey parsed <> "" /\ UploadDir parsed <> ""
      /\ Domain parsed <> ""
      /\ MaxFileSize config = MaxFileSize parsed
      /\ APIKey config = APIKey parsed
      /\ UploadDir config = UploadDir parsed
      /\ Domain config = Domain parsed
      /\ Port config = (if String.eqb (Port parsed) "" then ":8080" else Port parsed)
      /\ AllowedTypes config
         = match AllowedTypes parsed with
           | [] => defaultAllowedTypes
           | _ :: _ => AllowedTypes parsed
           end
      /\ Port config <> "" /\ AllowedTypes config <> []
  | inr err =>
      ((MaxFileSize parsed <= 0)%Z
       /\ err = ErrConfig "max_file_size must be greater than 0")
      \/ ((0 < MaxFileSize parsed)%Z /\ APIKey parsed = ""
          /\ err = ErrConfig "api_key cannot be empty")
      \/ ((0 < MaxFileSize parsed)%Z /\ APIKey parsed <> "" /\ UploadDir parsed = ""
          /\ err = ErrConfig "upload_dir cannot be empty")
      \/ ((0 < MaxFileSize parsed)%Z /\ APIKey parsed <> "" /\ UploadDir parsed <> ""
          /\ Domain parsed = "" /\ err = ErrConfig "domain cannot be empty")
  end.
Proof.
  unfold loadConfig.
  destruct (Z.leb_spec (MaxFileSize parsed) 0) as [Hm|Hm]; [left; split; [lia|reflexivity]|].
  destruct (String.eqb_spec (APIKey parsed) "") as [Hk|Hk]; [right; left; auto|].
  destruct (String.eqb_spec (UploadDir parsed) "") as [Hu|Hu];
    [right; right; left; auto|].
  destruct (String.eqb_spec (Domain parsed) "") as [Hd|Hd];
    [right; right; right; auto|].
  cbn. repeat split; try assumption.
  - destruct (AllowedTypes parsed); reflexivity.
  - destruct (String.eqb_spec (Port parsed) ""); [discriminate | assumption].
  - destruct (AllowedTypes parsed); cbn; discriminate.
Qed.

(** X2.  The defaults that [loadConfig] fills in are stable: a configuration
    that came out of [loadConfig] is accepted again and comes out
    unchanged. *)
Theorem loadConfig_is_idempotent (parsed config : Config) :
  loadConfig parsed = inl config -> loadConfig config = inl config.
Proof.
  unfold loadConfig at 1.
  destruct (Z.leb_spec (MaxFileSize parsed) 0); [discriminate|].
  destruct (String.eqb_spec (APIKey parsed) ""); [discriminate|].
  destruct (String.eqb_spec (UploadDir parsed) ""); [discriminate|].
  destruct (String.eqb_spec (Domain parsed) ""); [discriminate|].
  intros [= <-]. unfold loadConfig. cbn [MaxFileSize APIKey UploadDir Domain Port AllowedTypes].
  destruct (Z.leb_spec (MaxFileSize parsed) 0); [lia|].
  destruct (String.eqb_spec (APIKey parsed) ""); [contradiction|].
  destruct (String.eqb_spec (UploadDir parsed) ""); [contradiction|].
  destruct (String.eqb_spec (Domain parsed) ""); [contradiction|].
  f_equal. f_equal.
  - destruct (String.eqb_spec (Port parsed) "") as [E|E]; [reflexivity|].
    destruct (String.eqb_spec (Port parsed) ""); [contradiction | reflexivity].
  - destruct (AllowedTypes parsed); reflexivity.
Qed.

Lemma loadConfig_is_idempotent_witness :
  loadConfig Fixture.parsed = inl Fixture.config
  /\ loadConfig Fixture.config = inl Fixture.config.
Proof.
  split; [reflexivity|].
  exact (loadConfig_is_idempotent Fixture.parsed Fixture.config eq_refl).
Defined.

(* ===================================================================== *)
(** ** Further properties: downloads and the passing of time             *)
(* ===================================================================== *)

(** Goroutines that wake up leave the other files alone. *)
Lemma wake_up_keeps (due : list (Z * string)) (w : World) (p : string) :
  ~ In p (List.map snd due) ->
  files (List.fold_left (fun acc g => os_Remove (snd g) acc) due w) !! p
  = files w !! p.
Proof.
  revert w. induction due as [|g due IH]; intros w Hp; [reflexivity|].
  cbn [List.fold_left]. rewrite IH.
  - cbn. apply lookup_delete_ne. intros E. apply Hp. left. exact E.
  - intros Hin. apply Hp. right. exact Hin.
Qed.

Lemma advance_keeps (d : Z) (w : World) (p : string) :
  (forall due, In (due, p) (sleeping w) -> (now w + Z.max 0 d < due)%Z) ->
  files (advance d w) !! p = files w !! p.
Proof.
  intros H. unfold advance. rewrite wake_up_keeps; [reflexivity|].
  intros Hin. apply in_map_iff in Hin. destruct Hin as ([due q] & Hq & Hin).
  cbn in Hq. subst q. apply filter_In in Hin. destruct Hin as [Hin Hle].
  cbn in Hle. apply Z.leb_le in Hle. specialize (H due Hin). lia.
Qed.

Section Retention.

Context (config : Config) (sniff : list byte -> string).

(** A step that is no wait and creates nothing at [p] keeps the file at [p]. *)
Lemma request_keeps (a : Action) (w : World) (p : string) :
  (forall d, a <> Wait d) ->
  ~ In p (created (since w (step config sniff a w))) ->
  files (step config sniff a w) !! p = files w !! p.
Proof.
  intros Ha Hc. destruct a as [r|r|r|d]; cbn [step] in *.
  - destruct (upload_frame config sniff r w) as (_ & _ & evs & Ht & Hf).
    rewrite (since_extends _ _ _ Ht) in Hc. exact (Hf p Hc).
  - destruct (download_frame config r w) as (Hf & _). now rewrite Hf.
  - now rewrite test_frame.
  - exfalso. exact (Ha d eq_refl).
Qed.

(** X11.  Requests alone never remove a file.  Whatever uploads, downloads
    and test requests are served, and however many of them download the
    file, as long as the clock does not move and no upload creates the same
    path again, the clock stays where it was and a download still answers
    200 with the stored bytes. *)
Theorem file_stays_until_time_passes
  (rq : Request) (id : string) (content : list byte) (w : World)
  (acts : list Action) :
  Method rq = http.MethodGet ->
  URLPath rq = "/download/" +:+ id ->
  id <> "" ->
  files w !! path.Join (UploadDir config) id = Some content ->
  Forall is_request acts ->
  let w' := run config sniff acts w in
  ~ In (path.Join (UploadDir config) id) (created (since w w')) ->
  let got := fst (downloadHandler config rq w') in
  now w' = now w
  /\ http.StatusCode got = http.StatusOK
  /\ http.Payload_ got = http.Bytes content.
Proof.
  intros Hm Hu Hid Hf Hacts. cbv zeta.
  set (p := path.Join (UploadDir config) id) in *.
  assert (H : forall acts w, Forall is_request acts ->
            ~ In p (created (since w (run config sniff acts w))) ->
            files (run config sniff acts w) !! p = files w !! p
            /\ now (run config sniff acts w) = now w).
  { clear. induction acts as [|a acts IH]; intros w Hacts Hc; [split; reflexivity|].
    change (run config sniff (a :: acts) w)
      with (run config sniff acts (step config sniff a w)) in *.
    inversion Hacts as [|? ? Ha Hrest]; subst.
    destruct (step_trace config sniff a w) as [e1 H1].
    destruct (run_trace config sniff acts (step config sniff a w)) as [e2 H2].
    assert (H12 : trace (run config sniff acts (step config sniff a w))
                  = (trace w ++ (e1 ++ e2))%list)
      by (rewrite H2, H1; now rewrite app_assoc).
    rewrite (since_extends _ _ _ H12), created_app in Hc.
    destruct (IH (step config sniff a w) Hrest) as [IHf IHn].
    { rewrite (since_extends _ _ _ H2). intros Hin. apply Hc, in_or_app. now right. }
    rewrite IHf, IHn. split.
    - apply request_keeps.
      + intros d ->. exact Ha.
      + rewrite (since_extends _ _ _ H1). intros Hin. apply Hc, in_or_app. now left.
    - destruct a as [r|r|r|d]; cbn [step].
      + now destruct (upload_frame config sniff r w) as (Hn & _).
      + now destruct (download_frame config r w) as (_ & Hn & _).
      + now rewrite test_frame.
      + contradiction. }
  intros Hc. destruct (H acts w Hacts Hc) as [Hfiles Hnow].
  split; [exact Hnow|].
  rewrite (download_run config rq id _ Hm Hu Hid). cbv zeta. fold p.
  rewrite Hfiles, Hf. split; reflexivity.
Qed.

(** X12.  The delayed removal does not come early.  After a download of a
    stored file for which no removal was pending before the end of the
    wait, a second download less than one second later is still answered
    200 with the same bytes. *)
Theorem file_survives_the_grace_delay
  (rq : Request) (id : string) (content : list byte) (w : World) (d : Z) :
  Method rq = http.MethodGet ->
  URLPath rq = "/download/" +:+ id ->
  id <> "" ->
  files w !! path.Join (UploadDir config) id = Some content ->
  (forall due, In (due, path.Join (UploadDir config) id) (sleeping w) ->
               (now w + d < due)%Z) ->
  (0 <= d < time_Second)%Z ->
  let w1 := snd (downloadHandler config rq w) in
  let got := fst (downloadHandler config rq (advance d w1)) in
  http.StatusCode got = http.StatusOK
  /\ http.Payload_ got = http.Bytes content.
Proof.
  intros Hm Hu Hid Hf Hs Hd. cbv zeta.
  rewrite (download_run config rq id w Hm Hu Hid). cbv zeta. rewrite Hf. cbn [snd].
  set (p := path.Join (UploadDir config) id) in *.
  rewrite (download_run config rq id _ Hm Hu Hid). cbv zeta. fold p.
  rewrite advance_keeps.
  - cbn [after_download log set_sleeping files]. rewrite Hf. split; reflexivity.
  - cbn [after_download log set_sleeping sleeping now]. intros due Hin.
    apply in_app_or in Hin. destruct Hin as [Hin|[E|[]]].
    + specialize (Hs due Hin). lia.
    + injection E as <-. lia.
Qed.

End Retention.

(* ===================================================================== *)
(** ** Further properties: the answers of an upload                      *)
(* ===================================================================== *)

Section Answers.

Context (config : Config) (sniff : list byte -> string).

(** The answers of [persist]. *)
Lemma persist_answers (name : string) (data : list byte) (w : World) :
  let resp := fst (persist config name data w) in
  resp = sendJSONResponse false "Error generating filename" ""
  \/ (exists err, resp = sendJSONResponse false
                          ("Error saving file: " +:+ error_Error err) "")
  \/ resp = sendJSONResponse true "File uploaded successfully"
              ("https://" +:+ Domain config +:+ "/download/" +:+ minted w name).
Proof.
  pose proof (persist_outcome config name data w) as H. cbv zeta in *.
  destruct H as (_ & _ & [(_ & -> & _) | [(_ & _ & -> & _)
                  | (_ & _ & n & _ & _ & _ & [(_ & ->) | (_ & ->)])]]); eauto.
Qed.

(** The shapes of the answers of the upload handler. *)
Lemma upload_answers (r : Request) (w : World) :
  let resp := fst (uploadHandler config sniff r w) in
  resp = http.Error "Method not allowed" http.StatusMethodNotAllowed
  \/ resp = http.Error "Unauthorized" http.StatusUnauthorized
  \/ (exists msg, resp = sendJSONResponse false msg "")
  \/ (exists name data,
        offered r = Some (name, data)
        /\ resp = sendJSONResponse true "File uploaded successfully"
                    ("https://" +:+ Domain config +:+ "/download/"
                     +:+ minted w name)).
Proof.
  cbv zeta. unfold uploadHandler.
  destruct (negb (Method r =? http.MethodPost)); [now left|].
  destruct (negb (http.Get (Header r) "X-API-Key" =? APIKey config));
    [right; now left|].
  cbv zeta. right; right.
  assert (P : forall name data n,
             offered r = Some (name, data) ->
             let resp := fst (persist config name data (log (EvReadBody n) w)) in
             (exists msg, resp = sendJSONResponse false msg "")
             \/ (exists name data,
                   offered r = Some (name, data)
                   /\ resp = sendJSONResponse true "File uploaded successfully"
                               ("https://" +:+ Domain config +:+ "/download/"
                                +:+ minted w name))).
  { intros name data n Ho. cbv zeta.
    destruct (persist_answers name data (log (EvReadBody n) w))
      as [-> | [(err & ->) | ->]]; eauto. }
  revert P. unfold offered.
  destruct (strings.HasPrefix (http.Get (Header r) "Content-Type") "multipart/form-data").
  - unfold handleMultipartUpload, bind, http.ParseMultipartForm, ret.
    destruct (url.ParseQuery (RawQuery r)) as [qv qe].
    destruct (Body r) as [raw|boundary parts]; [left; eauto|].
    destruct (_ >? _)%Z; [left; eauto|].
    destruct (_ <? _)%nat; [left; eauto|].
    destruct qe; [left; eauto|].
    unfold http.FormFile. cbn [http.File].
    destruct (find _ _) as [header|]; [|left; eauto].
    destruct (_ >? _)%Z; [left; eauto|].
    cbv zeta. destruct (negb (isAllowedFileType config _)); [left; eauto|].
    intros P. exact (P _ _ _ eq_refl).
  - destruct (_ =? "application/x-www-form-urlencoded"); [|left; eauto].
    unfold handleFormUrlEncodedUpload, bind, http.ParseForm, ret.
    destruct (url.ParseQuery (RawQuery r)) as [qv qe].
    destruct (_ >? _)%Z; [left; eauto|].
    destruct (url.ParseQuery (wire (Body r))) as [bv be].
    destruct (be || qe); [left; eauto|].
    cbv zeta. unfold http.FormValue. cbn [http.Value fst].
    destruct (first_value (bv ++ qv) "data" =? ""); [left; eauto|].
    destruct (base64.StdEncoding.DecodeString _) as [fileData|]; [|left; eauto].
    destruct (_ >? _)%Z; [left; eauto|].
    destruct (negb (isAllowedFileType config _)); [left; eauto|].
    intros P. exact (P _ _ _ eq_refl).
Qed.

(** X4.  The upload handler reports success exactly when its answer carries
    a URL.  A success is the JSON answer with status 200, the message
    [File uploaded successfully] and the URL
    [https://<domain>/download/<identifier>] of the file that was offered,
    as the JSON document carries it.  A failure is the plain-text answer
    405 or 401, or a JSON answer with status 200, [success: false], a
    message and no URL. *)
Theorem upload_answers_a_url_exactly_on_success (r : Request) (w : World) :
  let resp := fst (uploadHandler config sniff r w) in
  (succeeded resp = true <-> url_of resp <> "")
  /\ (succeeded resp = true ->
      exists name data,
        offered r = Some (name, data)
        /\ resp = sendJSONResponse true "File uploaded successfully"
                    ("https://" +:+ Domain config +:+ "/download/"
                     +:+ minted w name)
        /\ http.StatusCode resp = http.StatusOK
        /\ message_of resp = "File uploaded successfully"
        /\ url_of resp
           = json_string ("https://" +:+ Domain config +:+ "/download/"
                          +:+ minted w name))
  /\ (succeeded resp = false ->
      resp = http.Error "Method not allowed" http.StatusMethodNotAllowed
      \/ resp = http.Error "Unauthorized" http.StatusUnauthorized
      \/ exists msg,
           resp = sendJSONResponse false msg ""
           /\ http.StatusCode resp = http.StatusOK
           /\ message_of resp = json_string msg).
Proof.
  cbv zeta.
  destruct (upload_answers r w)
    as [-> | [-> | [(msg & ->) | (name & data & Ho & ->)]]].
  - split; [split; [discriminate | intros H; now contradiction H]|].
    split; [discriminate | now left].
  - split; [split; [discriminate | intros H; now contradiction H]|].
    split; [discriminate | right; now left].
  - split; [split; [discriminate | intros H; now contradiction H]|].
    split; [discriminate|]. intros _. right; right. exists msg. repeat split.
  - split.
    { split; [|reflexivity]. intros _ E.
      rewrite url_of_success in E by apply url_nonempty.
      apply json_string_empty in E. exact (url_nonempty _ E). }
    split; [|discriminate]. intros _. exists name, data.
    split; [exact Ho|]. split; [reflexivity|]. split; [reflexivity|].
    split; [reflexivity|]. apply url_of_success, url_nonempty.
Qed.

End Answers.

Section Limits.

Context (config : Config) (sniff : list byte -> string).

Lemma persist_not_too_large (name : string) (data : list byte) (w : World) :
  message_of (fst (persist config name data w)) <> "File too large".
Proof.
  pose proof (persist_outcome config name data w) as H. cbv zeta in H.
  destruct H as (_ & _ & [(_ & -> & _) | [(_ & _ & -> & _)
                  | (_ & _ & n & _ & _ & _ & [(_ & ->) | (_ & ->)])]]);
    rewrite message_of_send; discriminate.
Qed.

(** X5.  The multipart handler answers [File too large] exactly when
    parsing the form under the body limit fails.  Once the form is parsed,
    the content of the file part is strictly shorter than the limit, so the
    later comparison of the part's size with the limit never fires. *)
Theorem multipart_too_large_only_from_the_body_limit (r : Request) (w : World) :
  let parsed :=
    fst (http.ParseMultipartForm (MaxFileSize config) (MaxFileSize config) r w) in
  (message_of (fst (handleMultipartUpload config sniff r w)) = "File too large"
   <-> parsed = None)
  /\ (forall form header,
        parsed = Some form ->
        http.FormFile form "file" = Some header ->
        (Z.of_nat (List.length (Content header)) < MaxFileSize config)%Z).
Proof.
  cbv zeta.
  assert (Hlt : forall form header,
             fst (http.ParseMultipartForm (MaxFileSize config) (MaxFileSize config) r w)
             = Some form ->
             http.FormFile form "file" = Some header ->
             (Z.of_nat (List.length (Content header)) < MaxFileSize config)%Z).
  { intros form header Hparse Hfile.
    destruct (multipart_parse config r w form Hparse)
      as (boundary & parts & Hb & Hlen & _ & Hform & _).
    assert (Hin : In header parts).
    { apply file_part_in. rewrite Hform in Hfile. exact Hfile. }
    pose proof (wire_longer_than_part boundary parts header Hin) as Hw.
    rewrite Hb in Hlen. lia. }
  split; [|exact Hlt].
  unfold handleMultipartUpload, bind.
  destruct (http.ParseMultipartForm _ _ r w) as [[form|] w1] eqn:Hp; cbn [fst] in *.
  2:{ split; reflexivity. }
  split; [|discriminate]. intros Hmsg. exfalso. revert Hmsg.
  destruct (http.FormFile form "file") as [header|] eqn:Hfile; [|discriminate].
  pose proof (Hlt form header eq_refl Hfile) as Hsize.
  destruct (Z.gtb_spec (Z.of_nat (List.length (Content header))) (MaxFileSize config));
    [lia|].
  cbv zeta. destruct (negb (isAllowedFileType config _)); [discriminate|].
  apply (persist_not_too_large (http.Filename header) (Content header) w1).
Qed.

(** X6.  A url-encoded upload that names no file is stored under the
    default name [file.dat]: when it succeeds, the URL in the answer is the
    domain part, [/download/] and an identifier made of 24 characters
    followed by [.dat]. *)
Theorem nameless_form_upload_gets_dat (r : Request) (w : World) :
  let resp := fst (uploadHandler config sniff r w) in
  let fields := (fst (url.ParseQuery (wire (Body r)))
                 ++ fst (url.ParseQuery (RawQuery r)))%list in
  strings.HasPrefix (http.Get (Header r) "Content-Type") "multipart/form-data"
  = false ->
  first_value fields "filename" = "" ->
  succeeded resp = true ->
  exists rnd,
    String.length rnd = 24%nat
    /\ url_of resp
       = json_string ("https://" +:+ Domain config) +:+ "/download/" +:+ rnd
         +:+ ".dat".
Proof.
  cbv zeta. intros Hct Hname Hs.
  destruct (upload_outcome config sniff r w)
    as [(_ & _ & Hs' & _)
       | (name & data & p & n & Ho & He & _ & _ & _ & _ & Hr)]; [congruence|].
  destruct Hr as [(_ & Hs' & _) | (_ & _ & ->)]; [congruence|].
  unfold offered in Ho. rewrite Hct in Ho.
  destruct (_ =? "application/x-www-form-urlencoded"); [|discriminate].
  cbv zeta in Ho. rewrite Hname in Ho.
  destruct (base64.StdEncoding.DecodeString _); [|discriminate].
  injection Ho as <- <-.
  exists (base64.URLEncoding.EncodeToString (take 16 (entropy w))).
  split; [exact (minted_length w "file.dat" He)|].
  rewrite url_of_success by apply url_nonempty.
  unfold minted. change (filepath.Ext "file.dat") with ".dat".
  now rewrite url_shape by apply EncodeToString_ascii.
Qed.

End Limits.

Lemma nameless_form_upload_gets_dat_witness :
  let r := Fixture.nameless_upload in
  strings.HasPrefix (http.Get (Header r) "Content-Type") "multipart/form-data" = false
  /\ succeeded (fst (uploadHandler Fixture.config Fixture.sniff r Fixture.world)) = true
  /\ exists rnd,
       String.length rnd = 24%nat
       /\ url_of (fst (uploadHandler Fixture.config Fixture.sniff r Fixture.world))
          = json_string ("https://" +:+ Domain Fixture.config) +:+ "/download/"
            +:+ rnd +:+ ".dat".
Proof.
  cbv zeta.
  assert (Hs : succeeded (fst (uploadHandler Fixture.config Fixture.sniff
                                 Fixture.nameless_upload Fixture.world)) = true)
    by (vm_compute; reflexivity).
  split; [reflexivity|]. split; [exact Hs|].
  exact (nameless_form_upload_gets_dat Fixture.config Fixture.sniff
           Fixture.nameless_upload Fixture.world eq_refl eq_refl Hs).
Defined.

(* ===================================================================== *)
(** ** Further properties: the type validator                            *)
(* ===================================================================== *)

Section AllowList.

Context (config : Config).

(** X13.  The validator accepts every type that equals an entry of the
    allow-list up to case, and every type that starts, up to case, with the
    category and the slash of a wildcard entry [category/*]. *)
Theorem validator_accepts_every_category_member (contentType : string) :
  spec_allowed (AllowedTypes config) contentType = true ->
  isAllowedFileType config contentType = true.
Proof.
  unfold spec_allowed. intros H. apply isAllowedFileType_iff.
  apply orb_true_iff in H. destruct H as [H|H]; apply existsb_exists in H;
    destruct H as (entry & Hin & H).
  - left. exists entry. split; [exact Hin|]. now apply String.eqb_eq.
  - right. exists entry. split; [exact Hin|].
    unfold spec_wildcard in H. apply andb_true_iff in H. destruct H as [Hs Hp].
    destruct (HasSuffix_inv _ _ Hs) as [stem ->].
    rewrite ToLower_app. change (strings.ToLower "/*") with "/*".
    split; [apply HasSuffix_app|].
    rewrite TrimSuffix_app.
    change "/*" with ("/" +:+ "*") in Hp. rewrite <- append_assoc in Hp.
    rewrite TrimSuffix_app, ToLower_app in Hp.
    eapply HasPrefix_app_l. exact Hp.
Qed.

(** X14.  The validator does not look at case and is monotone in the list:
    two types that differ only in case get the same verdict, a type that
    equals an entry up to case is accepted whatever the case of the entry,
    and a configuration whose allow-list contains every entry of another
    accepts every type the other accepts. *)
Theorem validator_ignores_case_and_grows_with_the_list
  (other : Config) (a b entry : string) :
  (strings.ToLower a = strings.ToLower b ->
   isAllowedFileType config a = isAllowedFileType config b)
  /\ (In entry (AllowedTypes config) ->
      strings.ToLower a = strings.ToLower entry ->
      isAllowedFileType config a = true)
  /\ ((forall e, In e (AllowedTypes config) -> In e (AllowedTypes other)) ->
      isAllowedFileType config a = true ->
      isAllowedFileType other a = true).
Proof.
  split; [apply isAllowedFileType_case|]. split.
  - intros Hin He. apply isAllowedFileType_iff. left. eauto.
  - intros Hsub H. apply isAllowedFileType_iff. apply isAllowedFileType_iff in H.
    destruct H as [(e & Hin & He) | (e & Hin & He)]; [left | right];
      exists e; (split; [now apply Hsub | exact He]).
Qed.

(** X15.  With the built-in allow-list the validator accepts, among the
    types made of ASCII bytes, exactly those that start with [image] up to
    case (the wildcard entry [image/*] absorbs the listed image types) and
    the five audio types [audio/mpeg], [audio/ogg], [audio/wav],
    [audio/webm] and [audio/aac] up to case.  (On ASCII strings
    [strings.ToLower] is the byte-wise lowering of this development.) *)
Theorem default_allow_list_accepts (contentType : string) :
  AllowedTypes config = defaultAllowedTypes ->
  is_ascii contentType = true ->
  (isAllowedFileType config contentType = true
   <-> strings.HasPrefix (strings.ToLower contentType) "image" = true
       \/ In (strings.ToLower contentType)
            ["audio/mpeg"; "audio/ogg"; "audio/wav"; "audio/webm"; "audio/aac"]).
Proof.
  intros Hd _. rewrite isAllowedFileType_iff, Hd. unfold defaultAllowedTypes. split.
  - intros [(e & Hin & He) | (e & Hin & Hs & Hp)].
    + rewrite He. cbn in Hin.
      repeat (destruct Hin as [<-|Hin];
              [first [left; reflexivity | right; cbn; auto 10]|]).
      destruct Hin.
    + cbn in Hin.
      repeat (destruct Hin as [<-|Hin];
              [first [discriminate Hs | left; exact Hp]|]).
      destruct Hin.
  - intros [Hp | Hin].
    + right. exists "image/*". split; [cbn; auto 10|].
      split; [reflexivity | exact Hp].
    + left. exists (strings.ToLower contentType).
      split; [cbn in *; tauto | symmetry; apply ToLower_idem].
Qed.

End AllowList.

Lemma default_allow_list_accepts_witness :
  AllowedTypes Fixture.config = defaultAllowedTypes
  /\ is_ascii "Image/X-Icon" = true
  /\ (isAllowedFileType Fixture.config "Image/X-Icon" = true
      <-> strings.HasPrefix (strings.ToLower "Image/X-Icon") "image" = true
          \/ In (strings.ToLower "Image/X-Icon")
               ["audio/mpeg"; "audio/ogg"; "audio/wav"; "audio/webm"; "audio/aac"]).
Proof.
  split; [reflexivity|]. split; [reflexivity|].
  exact (default_allow_list_accepts Fixture.config "Image/X-Icon" eq_refl eq_refl).
Defined.

Lemma validator_accepts_every_category_member_witness :
  spec_allowed (AllowedTypes Fixture.config) "IMAGE/tiff" = true
  /\ isAllowedFileType Fixture.config "IMAGE/tiff" = true.
Proof.
  split; [reflexivity|].
  exact (validator_accepts_every_category_member Fixture.config "IMAGE/tiff"
           eq_refl).
Defined.

(* ===================================================================== *)
(** ** Further properties: the earlier version                           *)
(* ===================================================================== *)

Section Compat.

Context (config : Config) (sniff : list byte -> string).

Lemma legacy_allowed_iff (contentType : string) :
  Legacy.isAllowedFileType config contentType = true
  <-> In contentType (AllowedTypes config).
Proof.
  unfold Legacy.isAllowedFileType.
  induction (AllowedTypes config) as [|a l IH]; cbn [Legacy.allowed_loop In].
  - split; [discriminate | tauto].
  - destruct (String.eqb_spec contentType a) as [->|Hne].
    + split; auto.
    + rewrite IH. split; [auto | intros [E|H]; [congruence | exact H]].
Qed.

(** X17.  The validator only grew.  Every type the earlier, exact and
    case-sensitive validator accepts for a configuration is accepted by the
    current one, and every entry of the earlier built-in allow-list is in
    the current one. *)
Theorem earlier_validator_is_subsumed (contentType : string) :
  (Legacy.isAllowedFileType config contentType = true ->
   isAllowedFileType config contentType = true)
  /\ (forall t, In t Legacy.defaultAllowedTypes -> In t defaultAllowedTypes).
Proof.
  split.
  - intros H. apply legacy_allowed_iff in H. apply isAllowedFileType_iff.
    left. exists contentType. split; [exact H | reflexivity].
  - intros t Hin. cbn in Hin. unfold defaultAllowedTypes.
    repeat (destruct Hin as [<-|Hin]; [cbn; auto 15|]). destruct Hin.
Qed.


End Compat.


(* ===================================================================== *)
(** ** Further properties: base64                                        *)
(* ===================================================================== *)

Lemma list_ind3 {A : Type} (P : list A -> Prop) :
  P [] -> (forall a, P [a]) -> (forall a b, P [a; b]) ->
  (forall a b c l, P l -> P (a :: b :: c :: l)) ->
  forall l, P l.
Proof.
  intros H0 H1 H2 H3.
  assert (H : forall n l, (List.length l <= n)%nat -> P l).
  { induction n as [|n IH]; intros l Hl.
    - destruct l; [exact H0 | cbn in Hl; lia].
    - destruct l as [|a [|b [|c l]]]; auto.
      apply H3, IH. cbn in Hl. lia. }
  intros l. apply (H (List.length l)). lia.
Qed.

Lemma sextet_0 (a b c : byte) :
  N.land (N.shiftr (pack a b c) 18) 63 = N.shiftr (Byte.to_N a) 2.
Proof.
  unfold pack. rewrite !N.shiftr_lor, !N.land_lor_distr_l.
  replace (N.land (N.shiftr (Byte.to_N c) 18) 63) with 0%N by (destruct c; reflexivity).
  replace (N.land (N.shiftr (N.shiftl (Byte.to_N b) 8) 18) 63) with 0%N
    by (destruct b; reflexivity).
  destruct a; reflexivity.
Qed.

Lemma sextet_1 (a b c : byte) :
  N.land (N.shiftr (pack a b c) 12) 63
  = N.lor (N.land (N.shiftl (Byte.to_N a) 4) 63) (N.shiftr (Byte.to_N b) 4).
Proof.
  unfold pack. rewrite !N.shiftr_lor, !N.land_lor_distr_l.
  replace (N.land (N.shiftr (Byte.to_N c) 12) 63) with 0%N by (destruct c; reflexivity).
  rewrite N.lor_0_r. f_equal; [destruct a | destruct b]; reflexivity.
Qed.

Lemma sextet_2 (a b c : byte) :
  N.land (N.shiftr (pack a b c) 6) 63
  = N.lor (N.land (N.shiftl (Byte.to_N b) 2) 63) (N.shiftr (Byte.to_N c) 6).
Proof.
  unfold pack. rewrite !N.shiftr_lor, !N.land_lor_distr_l.
  replace (N.land (N.shiftr (N.shiftl (Byte.to_N a) 16) 6) 63) with 0%N
    by (destruct a; reflexivity).
  rewrite N.lor_0_l. f_equal; [destruct b | destruct c]; reflexivity.
Qed.

Lemma sextet_3 (a b c : byte) :
  N.land (pack a b c) 63 = N.land (Byte.to_N c) 63.
Proof.
  unfold pack. rewrite !N.land_lor_distr_l.
  replace (N.land (N.shiftl (Byte.to_N a) 16) 63) with 0%N by (destruct a; reflexivity).
  replace (N.land (N.shiftl (Byte.to_N b) 8) 63) with 0%N by (destruct b; reflexivity).
  reflexivity.
Qed.

Lemma byte_of_to_N (a : byte) : base64.byte_of_N (Byte.to_N a) = a.
Proof. destruct a; reflexivity. Qed.

Lemma unpack_0 (a b c : byte) :
  base64.byte_of_N
    (N.lor (N.shiftl (N.land (N.shiftr (pack a b c) 18) 63) 2)
           (N.shiftr (N.land (N.shiftr (pack a b c) 12) 63) 4)) = a.
Proof.
  rewrite sextet_0, sextet_1, N.shiftr_lor.
  replace (N.shiftr (N.shiftr (Byte.to_N b) 4) 4) with 0%N by (destruct b; reflexivity).
  rewrite N.lor_0_r. destruct a; reflexivity.
Qed.

Lemma unpack_1 (a b c : byte) :
  base64.byte_of_N
    (N.lor (N.shiftl (N.land (N.shiftr (pack a b c) 12) 63) 4)
           (N.shiftr (N.land (N.shiftr (pack a b c) 6) 63) 2)) = b.
Proof.
  rewrite sextet_1, sextet_2, N.shiftr_lor, N.shiftl_lor.
  replace (N.shiftr (N.shiftr (Byte.to_N c) 6) 2) with 0%N by (destruct c; reflexivity).
  rewrite N.lor_0_r. unfold base64.byte_of_N. rewrite !N.land_lor_distr_l.
  replace (N.land (N.shiftl (N.land (N.shiftl (Byte.to_N a) 4) 63) 4) 255) with 0%N
    by (destruct a; reflexivity).
  rewrite N.lor_0_l. rewrite <- !N.land_lor_distr_l.
  fold (base64.byte_of_N
          (N.lor (N.shiftl (N.shiftr (Byte.to_N b) 4) 4)
                 (N.shiftr (N.land (N.shiftl (Byte.to_N b) 2) 63) 2))).
  destruct b; reflexivity.
Qed.

Lemma unpack_2 (a b c : byte) :
  base64.byte_of_N
    (N.lor (N.shiftl (N.land (N.shiftr (pack a b c) 6) 63) 6)
           (N.land (pack a b c) 63)) = c.
Proof.
  rewrite sextet_2, sextet_3, N.shiftl_lor.
  unfold base64.byte_of_N. rewrite !N.land_lor_distr_l.
  replace (N.land (N.shiftl (N.land (N.shiftl (Byte.to_N b) 2) 63) 6) 255) with 0%N
    by (destruct b; reflexivity).
  rewrite N.lor_0_l. rewrite <- !N.land_lor_distr_l.
  fold (base64.byte_of_N
          (N.lor (N.shiftl (N.shiftr (Byte.to_N c) 6) 6) (N.land (Byte.to_N c) 63))).
  destruct c; reflexivity.
Qed.

Lemma sound_sextet (alphabet : string) (s : N) :
  sound alphabet = true ->
  base64.decodeMap alphabet (base64.sextet alphabet s) = Some (N.land s 63)
  /\ Ascii.eqb (base64.sextet alphabet s) base64.StdPadding = false
  /\ base64.is_newline (base64.sextet alphabet s) = false.
Proof.
  intros H. unfold sound in H. rewrite forallb_forall in H.
  assert (Hk : (N.land s 63 < 64)%N).
  { change 63%N with (N.ones 6). rewrite N.land_ones. now apply N.mod_lt. }
  specialize (H (N.to_nat (N.land s 63))).
  rewrite N2Nat.id in H. unfold sound_at in H. unfold base64.sextet.
  destruct (String.get (N.to_nat (N.land s 63)) alphabet) as [c|].
  - assert (Hin : In (N.to_nat (N.land s 63)) (seq 0 64)) by (apply in_seq; lia).
    specialize (H Hin).
    apply andb_true_iff in H. destruct H as [H Hnl].
    apply andb_true_iff in H. destruct H as [H Hpad].
    destruct (base64.decodeMap alphabet c) as [i|]; [|discriminate].
    apply N.eqb_eq in H. subst i.
    repeat split; [now apply negb_true_iff | now apply negb_true_iff].
  - assert (Hin : In (N.to_nat (N.land s 63)) (seq 0 64)) by (apply in_seq; lia).
    specialize (H Hin). discriminate.
Qed.

Lemma filter_nothing {A : Type} (f : A -> bool) (l : list A) :
  Forall (fun x => f x = true) l -> List.filter f l = l.
Proof.
  induction 1 as [|x l Hx _ IH]; [reflexivity|]. cbn. now rewrite Hx, IH.
Qed.

Section RoundTrip.

Variable alphabet : string.
Hypothesis Hsound : sound alphabet = true.

Lemma encoded_has_no_newline (src : list byte) :
  Forall (fun c => negb (base64.is_newline c) = true)
    (list_ascii_of_string (base64.EncodeToString alphabet src)).
Proof.
  induction src as [|a|a b|a b c rest IH] using list_ind3;
    cbn [base64.EncodeToString list_ascii_of_string]; cbv zeta;
    repeat (apply List.Forall_cons;
            [first [ reflexivity
                   | apply negb_true_iff; apply (sound_sextet alphabet _ Hsound) ]|]);
    first [apply List.Forall_nil | exact IH].
Qed.

Lemma decode_encode_quanta (src : list byte) :
  base64.decode_quanta alphabet
    (list_ascii_of_string (base64.EncodeToString alphabet src)) = Some src.
Proof.
  induction src as [|a|a b|a b c rest IH] using list_ind3.
  - reflexivity.
  - cbn [base64.EncodeToString list_ascii_of_string base64.decode_quanta]. cbv zeta.
    replace (N.shiftl (Byte.to_N a) 16) with (pack a "000" "000")
      by (unfold pack; cbn; now rewrite !N.lor_0_r).
    destruct (sound_sextet alphabet (N.shiftr (pack a "000" "000") 18) Hsound) as (-> & _).
    destruct (sound_sextet alphabet (N.shiftr (pack a "000" "000") 12) Hsound) as (-> & _).
    rewrite !Ascii.eqb_refl. now rewrite unpack_0.
  - cbn [base64.EncodeToString list_ascii_of_string base64.decode_quanta]. cbv zeta.
    replace (N.lor (N.shiftl (Byte.to_N a) 16) (N.shiftl (Byte.to_N b) 8))
      with (pack a b "000") by (unfold pack; cbn; now rewrite N.lor_0_r).
    destruct (sound_sextet alphabet (N.shiftr (pack a b "000") 18) Hsound) as (-> & _).
    destruct (sound_sextet alphabet (N.shiftr (pack a b "000") 12) Hsound) as (-> & _).
    destruct (sound_sextet alphabet (N.shiftr (pack a b "000") 6) Hsound) as (-> & -> & _).
    rewrite Ascii.eqb_refl. now rewrite unpack_0, unpack_1.
  - cbn [base64.EncodeToString list_ascii_of_string base64.decode_quanta]. cbv zeta.
    fold (pack a b c).
    destruct (sound_sextet alphabet (N.shiftr (pack a b c) 18) Hsound) as (-> & _).
    destruct (sound_sextet alphabet (N.shiftr (pack a b c) 12) Hsound) as (-> & _).
    destruct (sound_sextet alphabet (N.shiftr (pack a b c) 6) Hsound) as (-> & -> & _).
    destruct (sound_sextet alphabet (pack a b c) Hsound) as (-> & -> & _).
    rewrite IH. now rewrite unpack_0, unpack_1, unpack_2.
Qed.

Lemma DecodeString_EncodeToString (src : list byte) :
  base64.DecodeString alphabet (base64.EncodeToString alphabet src) = Some src.
Proof.
  unfold base64.DecodeString.
  rewrite filter_nothing by apply encoded_has_no_newline.
  apply decode_encode_quanta.
Qed.

End RoundTrip.

Lemma encodeStd_sound : sound base64.encodeStd = true.
Proof. vm_compute. reflexivity. Qed.

Lemma encodeURL_sound : sound base64.encodeURL = true.
Proof. vm_compute. reflexivity. Qed.

(** Decoding inverts encoding in the standard alphabet. *)
Lemma base64_roundtrip (src : list byte) :
  base64.StdEncoding.DecodeString (base64.StdEncoding.EncodeToString src) = Some src.
Proof. apply DecodeString_EncodeToString, encodeStd_sound. Qed.

Lemma URLEncoding_injective (a b : list byte) :
  base64.URLEncoding.EncodeToString a = base64.URLEncoding.EncodeToString b -> a = b.
Proof.
  intros H. apply (f_equal (base64.DecodeString base64.encodeURL)) in H.
  unfold base64.URLEncoding.EncodeToString in H.
  rewrite !DecodeString_EncodeToString in H by apply encodeURL_sound.
  congruence.
Qed.

(* ===================================================================== *)
(** ** Further properties: storage paths                                 *)
(* ===================================================================== *)


Lemma rev_app_spec (s acc : string) :
  String.rev_app s acc = String.rev s +:+ acc.
Proof.
  unfold String.rev. revert acc. induction s as [|c s IH]; intros acc; [reflexivity|].
  cbn [String.rev_app]. rewrite (IH (String c acc)), (IH (String c "")).
  now rewrite append_assoc.
Qed.

Lemma elements_plain (t cur : string) :
  strings.ContainsByte t "/" = false ->
  path.elements t cur = [String.rev cur +:+ t].
Proof.
  revert cur. induction t as [|c t IH]; intros cur H; cbn [path.elements].
  - now rewrite append_empty_r.
  - cbn [strings.ContainsByte] in H. apply orb_false_iff in H. destruct H as [Hc Ht].
    rewrite Hc, (IH _ Ht). unfold String.rev at 1. cbn [String.rev_app].
    rewrite rev_app_spec, append_assoc. reflexivity.
Qed.

Lemma elements_app (s t cur : string) :
  path.elements (s +:+ String "/" t) cur
  = (path.elements s cur ++ path.elements t "")%list.
Proof.
  revert cur. induction s as [|c s IH]; intros cur.
  - reflexivity.
  - rewrite append_cons. cbn [path.elements].
    destruct (Ascii.eqb c "/"); rewrite IH; reflexivity.
Qed.

Lemma clean_elements_last (rooted : bool) (l out : list string) (e : string) :
  e <> "" -> e <> "." -> e <> ".." ->
  path.clean_elements rooted (l ++ [e]) out
  = (path.clean_elements rooted l out ++ [e])%list.
Proof.
  intros H0 H1 H2. revert out. induction l as [|x l IH]; intros out.
  - cbn [app path.clean_elements].
    destruct (String.eqb_spec e ""); [contradiction|].
    destruct (String.eqb_spec e "."); [contradiction|].
    destruct (String.eqb_spec e ".."); [contradiction|]. reflexivity.
  - cbn [app path.clean_elements].
    destruct (_ || _); [apply IH|].
    destruct (x =? ".."); [|apply IH].
    destruct out as [|top below]; [destruct rooted; apply IH|].
    destruct (top =? ".."); apply IH.
Qed.

Lemma concat_last (sep : string) (l : list string) (e : string) :
  String.concat sep (l ++ [e])
  = match l with
    | [] => e
    | _ => String.concat sep l +:+ sep +:+ e
    end.
Proof.
  induction l as [|x l IH]; [reflexivity|].
  destruct l as [|y l]; [reflexivity|].
  change (String.concat sep ((x :: y :: l) ++ [e]))
    with (x +:+ sep +:+ String.concat sep ((y :: l) ++ [e])).
  rewrite IH.
  change (String.concat sep (x :: y :: l))
    with (x +:+ sep +:+ String.concat sep (y :: l)).
  now rewrite !append_assoc.
Qed.

Lemma Join_ordinary (dir name : string) :
  dir <> "" -> ordinary name ->
  path.Join dir name = storage_prefix dir +:+ name.
Proof.
  intros Hd (Hs & H0 & H1 & H2). unfold path.Join, storage_prefix.
  destruct (String.eqb_spec dir ""); [contradiction|].
  destruct (String.eqb_spec name ""); [contradiction|].
  unfold path.Clean. cbv zeta.
  assert (Hr : strings.HasPrefix (dir +:+ "/" +:+ name) "/" = strings.HasPrefix dir "/").
  { destruct dir as [|c dir]; [contradiction|]. reflexivity. }
  rewrite Hr.
  change (dir +:+ "/" +:+ name) with (dir +:+ String "/" name).
  rewrite elements_app, (elements_plain name "" Hs).
  change (String.rev "" +:+ name) with name.
  rewrite clean_elements_last by assumption.
  rewrite concat_last.
  set (kept := path.clean_elements (strings.HasPrefix dir "/") (path.elements dir "") []).
  set (root := if strings.HasPrefix dir "/" then "/" else "").
  destruct kept as [|k ks]; cbv iota.
  - rewrite append_empty_r.
    destruct (String.eqb_spec (root +:+ name) "") as [Hempty|]; [|reflexivity].
    exfalso. revert Hempty. now apply append_nonempty.
  - rewrite <- !append_assoc.
    destruct (String.eqb_spec (((root +:+ String.concat "/" (k :: ks)) +:+ "/")
                               +:+ name) "") as [Hempty|]; [|reflexivity].
    exfalso. revert Hempty. now apply append_nonempty.
Qed.

Lemma ContainsByte_app (s t : string) (c : ascii) :
  strings.ContainsByte (s +:+ t) c
  = strings.ContainsByte s c || strings.ContainsByte t c.
Proof.
  induction s as [|d s IH]; [reflexivity|].
  rewrite append_cons. cbn [strings.ContainsByte]. now rewrite IH, orb_assoc.
Qed.

Lemma ContainsByte_none (s : string) (c : ascii) :
  Forall (fun d => d <> c) (list_ascii_of_string s) ->
  strings.ContainsByte s c = false.
Proof.
  induction s as [|d s IH]; intros H; [reflexivity|].
  cbn [list_ascii_of_string] in H. inversion H as [|? ? Hd Hs]; subst.
  cbn [strings.ContainsByte]. rewrite (IH Hs).
  apply Ascii.eqb_neq in Hd. now rewrite Hd.
Qed.

Lemma url_safe_no_separator (c : ascii) : url_safe c -> c <> "/"%char.
Proof.
  intros [Hin | ->]; [|discriminate].
  intros ->. cbn in Hin.
  repeat (destruct Hin as [Hin|Hin]; [discriminate Hin|]). exact Hin.
Qed.

Lemma Ext_no_separator (name : string) :
  strings.ContainsByte (filepath.Ext name) "/" = false.
Proof.
  destruct (Ext_cases name) as [(-> & _) | (stem & e & _ & He & ->)]; [reflexivity|].
  change ("." +:+ e) with (String "." e). cbn [strings.ContainsByte].
  rewrite ContainsByte_none; [reflexivity|].
  eapply List.Forall_impl; [|exact He]. intros c [_ Hc]. exact Hc.
Qed.

Lemma minted_ordinary (w : World) (name : string) :
  (16 <= List.length (entropy w))%nat -> ordinary (minted w name).
Proof.
  intros He. unfold ordinary.
  assert (Hlen : (24 <= String.length (minted w name))%nat).
  { unfold minted. rewrite append_length, (minted_length w name He). lia. }
  split; [|repeat split; intros E; rewrite E in Hlen; cbn in Hlen; lia].
  unfold minted. rewrite ContainsByte_app, Ext_no_separator, orb_false_r.
  apply ContainsByte_none.
  eapply List.Forall_impl; [|apply EncodeToString_url_safe].
  intros c. apply url_safe_no_separator.
Qed.

Lemma append_inj_length (a b x y : string) :
  String.length a = String.length b -> a +:+ x = b +:+ y -> a = b /\ x = y.
Proof.
  revert b. induction a as [|c a IH]; intros [|d b] Hl H; try discriminate Hl.
  - split; [reflexivity | exact H].
  - rewrite !append_cons in H. injection H as -> H. injection Hl as Hl.
    destruct (IH b Hl H) as [-> ->]. split; reflexivity.
Qed.

Lemma minted_inj (w1 w2 : World) (n1 n2 : string) :
  (16 <= List.length (entropy w1))%nat ->
  (16 <= List.length (entropy w2))%nat ->
  minted w1 n1 = minted w2 n2 ->
  take 16 (entropy w1) = take 16 (entropy w2)
  /\ filepath.Ext n1 = filepath.Ext n2.
Proof.
  intros H1 H2 E. unfold minted in E.
  apply append_inj_length in E.
  - destruct E as [E ->]. split; [|reflexivity]. now apply URLEncoding_injective.
  - now rewrite (minted_length w1 n1 H1), (minted_length w2 n2 H2).
Qed.

Section Paths.

Context (config : Config) (sniff : list byte -> string).

Lemma persist_entropy (name : string) (data : list byte) (w : World) :
  entropy (snd (persist config name data w))
  = if (16 <=? List.length (entropy w))%nat then drop 16 (entropy w)
    else entropy w.
Proof.
  rewrite persist_run.
  destruct (16 <=? List.length (entropy w))%nat; [|reflexivity].
  cbv zeta. destruct (decide _); [reflexivity|].
  destruct (_ <? _)%nat; reflexivity.
Qed.

(** X8.  Whatever file name the client sends, a file the upload handler
    creates lies directly in the upload directory: its path is the cleaned
    directory, one separator, and the minted identifier, which contains no
    separator; and the file exists when the handler returns. *)
Theorem upload_is_stored_directly_in_the_upload_directory
  (r : Request) (w : World) :
  UploadDir config <> "" ->
  let w' := snd (uploadHandler config sniff r w) in
  forall p, In p (created (since w w')) ->
    exists name data,
      offered r = Some (name, data)
      /\ strings.ContainsByte (minted w name) "/" = false
      /\ p = storage_prefix (UploadDir config) +:+ minted w name
      /\ exists written, files w' !! p = Some written.
Proof.
  intros Hdir. cbv zeta. intros p Hp.
  destruct (upload_outcome config sniff r w)
    as [(Hc & _) | (name & data & q & n & Ho & He & Hq & _ & (m & Hev) & Hf & _)].
  - rewrite Hc in Hp. destruct Hp.
  - rewrite Hev in Hp. cbn in Hp. destruct Hp as [<-|[]].
    exists name, data. split; [exact Ho|].
    pose proof (minted_ordinary w name He) as Hord.
    split; [exact (proj1 Hord)|].
    split; [rewrite Hq; now apply Join_ordinary|].
    rewrite Hf, lookup_insert_eq. eauto.
Qed.

Lemma upload_entropy (r : Request) (w : World) :
  succeeded (fst (uploadHandler config sniff r w)) = true ->
  entropy (snd (uploadHandler config sniff r w)) = drop 16 (entropy w).
Proof.
  intros Hs.
  destruct (upload_cases config sniff r w)
    as [(resp & E & Hf) | [(resp & n & E & Hf) | (name & data & n & _ & _ & E)]];
    rewrite E in *; cbn [fst snd] in *; try congruence.
  rewrite persist_entropy. cbn [entropy log].
  destruct (Nat.leb_spec 16 (List.length (entropy w))) as [|Hlt]; [reflexivity|].
  exfalso.
  pose proof (persist_outcome config name data (log (EvReadBody n) w)) as H.
  cbv zeta in H. cbn [entropy log] in H.
  destruct H as (_ & _ & [(_ & Hr & _) | [(Hge & _) | (Hge & _)]]); try lia.
  rewrite Hr in Hs. discriminate Hs.
Qed.

(** X10.  Two successful uploads in a row whose 16-byte random blocks
    differ get different URLs, and the second leaves the file of the first
    in place with the bytes the first client sent. *)
Theorem second_upload_keeps_the_first (r1 r2 : Request) (w : World) :
  UploadDir config <> "" ->
  let first := uploadHandler config sniff r1 w in
  let second := uploadHandler config sniff r2 (snd first) in
  succeeded (fst first) = true ->
  succeeded (fst second) = true ->
  take 16 (entropy w) <> take 16 (drop 16 (entropy w)) ->
  url_of (fst first) <> url_of (fst second)
  /\ exists name data p,
       offered r1 = Some (name, data)
       /\ p = path.Join (UploadDir config) (minted w name)
       /\ files (snd first) !! p = Some data
       /\ files (snd second) !! p = Some data.
Proof.
  intros Hdir. cbv zeta. intros Hs1 Hs2 Hblocks.
  pose proof (upload_entropy r1 w Hs1) as Hent.
  destruct (upload_outcome config sniff r1 w)
    as [(_ & _ & Hf & _)
       | (name1 & data1 & p1 & n1 & Ho1 & He1 & Hp1 & _ & _ & Hf1 & Hr1)];
    [congruence|].
  destruct Hr1 as [(_ & Hf & _) | (Hn1 & _ & Hr1)]; [congruence|].
  set (w1 := snd (uploadHandler config sniff r1 w)) in *.
  destruct (upload_outcome config sniff r2 w1)
    as [(_ & _ & Hf & _)
       | (name2 & data2 & p2 & n2 & Ho2 & He2 & Hp2 & _ & _ & Hf2 & Hr2)];
    [congruence|].
  destruct Hr2 as [(_ & Hf & _) | (_ & _ & Hr2)]; [congruence|].
  assert (Hid : minted w name1 <> minted w1 name2).
  { intros E. destruct (minted_inj w w1 name1 name2 He1 He2 E) as [Et _].
    rewrite Hent in Et. contradiction. }
  split.
  - rewrite Hr1, Hr2, !url_of_success by apply url_nonempty.
    unfold minted. rewrite !url_shape by apply EncodeToString_ascii.
    intros E. apply Hblocks. rewrite <- Hent.
    apply String.app_inj in E. apply (String.app_inj "/download/") in E.
    apply append_inj_length in E;
      [|now rewrite (minted_length w name1 He1), (minted_length w1 name2 He2)].
    apply URLEncoding_injective. exact (proj1 E).
  - exists name1, data1, p1. split; [exact Ho1|]. split; [exact Hp1|].
    assert (H1 : files w1 !! p1 = Some data1).
    { rewrite Hf1, lookup_insert_eq, Hn1. now rewrite firstn_all. }
    split; [exact H1|].
    rewrite Hf2, lookup_insert_ne; [exact H1|].
    rewrite Hp1, Hp2.
    rewrite !Join_ordinary by (try assumption; now apply minted_ordinary).
    intros E. apply Hid. symmetry. exact (String.app_inj _ _ _ E).
Qed.

End Paths.


Section FormRoundTrip.

Context (config : Config) (sniff : list byte -> string).

(** X7.  A successful url-encoded upload whose [data] field is the standard
    base64 encoding of a payload creates one file, and that file holds the
    payload byte for byte. *)
Theorem form_upload_stores_the_decoded_payload
  (r : Request) (w : World) (payload : list byte) :
  let fields := (fst (url.ParseQuery (wire (Body r)))
                 ++ fst (url.ParseQuery (RawQuery r)))%list in
  let w' := snd (uploadHandler config sniff r w) in
  strings.HasPrefix (http.Get (Header r) "Content-Type") "multipart/form-data"
  = false ->
  first_value fields "data" = base64.StdEncoding.EncodeToString payload ->
  succeeded (fst (uploadHandler config sniff r w)) = true ->
  exists p, created (since w w') = [p] /\ files w' !! p = Some payload.
Proof.
  cbv zeta. intros Hct Hdata Hs.
  destruct (upload_outcome config sniff r w)
    as [(_ & _ & Hs' & _)
       | (name & data & p & n & Ho & He & _ & _ & (m & Hev) & Hf & Hr)]; [congruence|].
  destruct Hr as [(_ & Hs' & _) | (Hn & _)]; [congruence|].
  unfold offered in Ho. rewrite Hct in Ho.
  destruct (_ =? "application/x-www-form-urlencoded"); [|discriminate].
  cbv zeta in Ho. rewrite Hdata, base64_roundtrip in Ho.
  injection Ho as _ <-.
  exists p. rewrite Hev, Hf, lookup_insert_eq, Hn, firstn_all. split; reflexivity.
Qed.

End FormRoundTrip.

Lemma form_upload_stores_the_decoded_payload_witness :
  let r := Fixture.form_upload "secret" in
  let w' := snd (uploadHandler Fixture.config Fixture.sniff r Fixture.world) in
  first_value (fst (url.ParseQuery (wire (Body r)))
               ++ fst (url.ParseQuery (RawQuery r)))%list "data"
  = base64.StdEncoding.EncodeToString (list_byte_of_string "hello")
  /\ exists p, created (since Fixture.world w') = [p]
       /\ files w' !! p = Some (list_byte_of_string "hello").
Proof.
  cbv zeta. split; [reflexivity|].
  apply (form_upload_stores_the_decoded_payload Fixture.config Fixture.sniff
           (Fixture.form_upload "secret") Fixture.world
           (list_byte_of_string "hello")).
  - reflexivity.
  - reflexivity.
  - vm_compute. reflexivity.
Defined.

Lemma second_upload_keeps_the_first_witness :
  let r := Fixture.multipart_upload "secret" 100 in
  let first := uploadHandler Fixture.config Fixture.sniff r Fixture.varied in
  let second := uploadHandler Fixture.config Fixture.sniff r (snd first) in
  take 16 (entropy Fixture.varied) <> take 16 (drop 16 (entropy Fixture.varied))
  /\ succeeded (fst first) = true /\ succeeded (fst second) = true
  /\ url_of (fst first) <> url_of (fst second).
Proof.
  cbv zeta.
  assert (Hb : take 16 (entropy Fixture.varied)
               <> take 16 (drop 16 (entropy Fixture.varied)))
    by (vm_compute; discriminate).
  assert (H1 : succeeded (fst (uploadHandler Fixture.config Fixture.sniff
                 (Fixture.multipart_upload "secret" 100) Fixture.varied)) = true)
    by (vm_compute; reflexivity).
  assert (H2 : succeeded (fst (uploadHandler Fixture.config Fixture.sniff
                 (Fixture.multipart_upload "secret" 100)
                 (snd (uploadHandler Fixture.config Fixture.sniff
                         (Fixture.multipart_upload "secret" 100) Fixture.varied))))
               = true)
    by (vm_compute; reflexivity).
  split; [exact Hb|]. split; [exact H1|]. split; [exact H2|].
  assert (Hd : UploadDir Fixture.config <> "") by discriminate.
  exact (proj1 (second_upload_keeps_the_first Fixture.config Fixture.sniff
                  (Fixture.multipart_upload "secret" 100)
                  (Fixture.multipart_upload "secret" 100)
                  Fixture.varied Hd H1 H2 Hb)).
Defined.

Lemma upload_is_stored_directly_in_the_upload_directory_witness :
  let r := Fixture.traversal_upload in
  let w' := snd (uploadHandler Fixture.config Fixture.sniff r Fixture.world) in
  sent_name r = Some "../../etc/cron.d/job.png"
  /\ offered r = Some ("job.png", Fixture.payload 100)
  /\ In Fixture.path_of_id (created (since Fixture.world w'))
  /\ exists name data,
       offered r = Some (name, data)
       /\ strings.ContainsByte (minted Fixture.world name) "/" = false
       /\ Fixture.path_of_id
          = storage_prefix (UploadDir Fixture.config) +:+ minted Fixture.world name
       /\ exists written, files w' !! Fixture.path_of_id = Some written.
Proof.
  cbv zeta.
  assert (Hin : In Fixture.path_of_id
                  (created (since Fixture.world
                     (snd (uploadHandler Fixture.config Fixture.sniff
                             Fixture.traversal_upload Fixture.world)))))
    by (vm_compute; auto).
  split; [reflexivity|]. split; [reflexivity|]. split; [exact Hin|].
  assert (Hd : UploadDir Fixture.config <> "") by discriminate.
  exact (upload_is_stored_directly_in_the_upload_directory
           Fixture.config Fixture.sniff Fixture.traversal_upload Fixture.world
           Hd Fixture.path_of_id Hin).
Defined.

Lemma file_stays_until_time_passes_witness :
  let rq := GET ("/download/" +:+ Fixture.id) in
  let acts := [Download rq; Test (Fixture.test_request "secret"); Download rq] in
  let w' := run Fixture.config Fixture.sniff acts Fixture.stored in
  files Fixture.stored !! path.Join (UploadDir Fixture.config) Fixture.id
  = Some (Fixture.payload 100)
  /\ Forall is_request acts
  /\ http.Payload_ (fst (downloadHandler Fixture.config rq w'))
     = http.Bytes (Fixture.payload 100).
Proof.
  cbv zeta.
  assert (Hf : files Fixture.stored !! path.Join (UploadDir Fixture.config) Fixture.id
               = Some (Fixture.payload 100)) by (vm_compute; reflexivity).
  assert (Ha : Forall is_request
                 [Download (GET ("/download/" +:+ Fixture.id));
                  Test (Fixture.test_request "secret");
                  Download (GET ("/download/" +:+ Fixture.id))])
    by (repeat constructor).
  split; [exact Hf|]. split; [exact Ha|].
  refine (proj2 (proj2 (file_stays_until_time_passes Fixture.config Fixture.sniff
            (GET ("/download/" +:+ Fixture.id)) Fixture.id (Fixture.payload 100)
            Fixture.stored _ eq_refl eq_refl _ Hf Ha _))).
  - discriminate.
  - vm_compute. tauto.
Defined.

Lemma file_survives_the_grace_delay_witness :
  let rq := GET ("/download/" +:+ Fixture.id) in
  let w1 := snd (downloadHandler Fixture.config rq Fixture.stored) in
  (0 <= 999999999 < time_Second)%Z
  /\ http.Payload_ (fst (downloadHandler Fixture.config rq (advance 999999999 w1)))
     = http.Bytes (Fixture.payload 100).
Proof.
  cbv zeta.
  assert (Hd : (0 <= 999999999 < time_Second)%Z) by (unfold time_Second; lia).
  split; [exact Hd|].
  refine (proj2 (file_survives_the_grace_delay Fixture.config
            (GET ("/download/" +:+ Fixture.id)) Fixture.id (Fixture.payload 100)
            Fixture.stored 999999999 eq_refl eq_refl _ _ _ Hd)).
  - discriminate.
  - vm_compute. reflexivity.
  - vm_compute. intros due [].
Defined.

(* ===================================================================== *)
(** ** Further properties: identifiers, admission and the test endpoint   *)
(* ===================================================================== *)

(** X9.  Identifiers determine their random block: when
    [generateRandomFilename] returns the same identifier for two file names
    in two states, the 16 random bytes it read were the same and the two
    names have the same extension. *)
Theorem equal_identifiers_need_equal_random_blocks
  (name1 name2 id : string) (w1 w2 : World) :
  fst (generateRandomFilename name1 w1) = inl id ->
  fst (generateRandomFilename name2 w2) = inl id ->
  take 16 (entropy w1) = take 16 (entropy w2)
  /\ filepath.Ext name1 = filepath.Ext name2.
Proof.
  unfold generateRandomFilename, bind, rand_Read, ret.
  destruct (Nat.leb_spec 16 (List.length (entropy w1))) as [H1|]; [|discriminate].
  destruct (Nat.leb_spec 16 (List.length (entropy w2))) as [H2|]; [|discriminate].
  cbn [fst]. intros [= E1] [= E2].
  apply (minted_inj w1 w2 name1 name2 H1 H2). unfold minted. congruence.
Qed.

Lemma equal_identifiers_need_equal_random_blocks_witness :
  fst (generateRandomFilename "a.png" Fixture.world) = inl Fixture.id
  /\ fst (generateRandomFilename "b.png" Fixture.varied) = inl Fixture.id
  /\ take 16 (entropy Fixture.world) = take 16 (entropy Fixture.varied).
Proof.
  split; [reflexivity|]. split; [reflexivity|].
  exact (proj1 (equal_identifiers_need_equal_random_blocks
                  "a.png" "b.png" Fixture.id Fixture.world Fixture.varied
                  eq_refl eq_refl)).
Defined.

Section Gatekeeping.

Context (config : Config) (sniff : list byte -> string).

(** X3.  The upload handler reads the body, draws random bytes or touches
    a file only after all three gates: whenever it leaves the world changed,
    the request was a POST, carried the configured key, and had a multipart
    or url-encoded content type. *)
Theorem upload_touches_the_world_only_when_admitted (r : Request) (w : World) :
  snd (uploadHandler config sniff r w) <> w ->
  Method r = http.MethodPost
  /\ http.Get (Header r) "X-API-Key" = APIKey config
  /\ (strings.HasPrefix (http.Get (Header r) "Content-Type") "multipart/form-data"
      = true
      \/ http.Get (Header r) "Content-Type" = "application/x-www-form-urlencoded").
Proof.
  unfold uploadHandler.
  destruct (String.eqb_spec (Method r) http.MethodPost) as [Hm|Hm]; cbn [negb];
    [|intros H; now contradiction H].
  destruct (String.eqb_spec (http.Get (Header r) "X-API-Key") (APIKey config))
    as [Hk|Hk]; cbn [negb]; [|intros H; now contradiction H].
  cbv zeta.
  destruct (strings.HasPrefix (http.Get (Header r) "Content-Type") "multipart/form-data");
    [intros _; repeat split; auto|].
  destruct (String.eqb_spec (http.Get (Header r) "Content-Type")
              "application/x-www-form-urlencoded") as [Hc|Hc];
    [intros _; repeat split; auto | intros H; now contradiction H].
Qed.

(** X16.  The test endpoint extends its earlier version.  Both leave the
    world unchanged and agree on the status, the verdict and the message;
    a refusal is the same answer in both, and for a valid key the current
    answer is the earlier one with the member [max_file_size] added. *)
Theorem test_endpoint_extends_the_earlier_one (r : Request) (w : World) :
  (0 < MaxFileSize config)%Z ->
  let current := fst (testHandler config r w) in
  let earlier := fst (Legacy.testHandler config r w) in
  snd (testHandler config r w) = w
  /\ snd (Legacy.testHandler config r w) = w
  /\ http.StatusCode current = http.StatusCode earlier
  /\ succeeded current = succeeded earlier
  /\ message_of current = message_of earlier
  /\ (succeeded current = false -> current = earlier)
  /\ (succeeded current = true ->
      http.Payload_ current
      = http.JSON [("success", JBool true); ("message", JString "API key is valid");
                   ("max_file_size", JNumber (MaxFileSize config))]
      /\ http.Payload_ earlier
         = http.JSON [("success", JBool true);
                      ("message", JString "API key is valid")]).
Proof.
  intros Hpos. cbv zeta. unfold testHandler, Legacy.testHandler.
  destruct (negb (Method r =? http.MethodGet)).
  { cbn. repeat split; discriminate. }
  cbv zeta. destruct (negb (http.Get (Header r) "X-API-Key" =? APIKey config)).
  { cbn [ret fst snd]. repeat split; try reflexivity;
      match goal with
      | Hyes : succeeded _ = true |- _ =>
          rewrite succeeded_send in Hyes; discriminate Hyes
      end. }
  assert (Hmsg : json_string "API key is valid" = "API key is valid")
    by (vm_compute; reflexivity).
  cbn [ret fst snd]. unfold sendJSONResponse, json_Response.
  cbn [URL RespMaxFileSize Success Message]. rewrite Hmsg.
  destruct (Z.eqb_spec (MaxFileSize config) 0); [lia|].
  cbn. repeat split; discriminate.
Qed.

End Gatekeeping.

Lemma upload_touches_the_world_only_when_admitted_witness :
  let r := Fixture.multipart_upload "secret" 100 in
  snd (uploadHandler Fixture.config Fixture.sniff r Fixture.world) <> Fixture.world
  /\ Method r = http.MethodPost
  /\ http.Get (Header r) "X-API-Key" = APIKey Fixture.config.
Proof.
  cbv zeta.
  assert (H : snd (uploadHandler Fixture.config Fixture.sniff
                     (Fixture.multipart_upload "secret" 100) Fixture.world)
              <> Fixture.world).
  { intros E. apply (f_equal trace) in E. vm_compute in E. discriminate E. }
  split; [exact H|].
  destruct (upload_touches_the_world_only_when_admitted Fixture.config Fixture.sniff
              (Fixture.multipart_upload "secret" 100) Fixture.world H)
    as (Hm & Hk & _).
  split; [exact Hm | exact Hk].
Defined.

Lemma test_endpoint_extends_the_earlier_one_witness :
  let r := Fixture.test_request "secret" in
  (0 < MaxFileSize Fixture.config)%Z
  /\ succeeded (fst (testHandler Fixture.config r Fixture.world))
     = succeeded (fst (Legacy.testHandler Fixture.config r Fixture.world)).
Proof.
  cbv zeta.
  assert (Hpos : (0 < MaxFileSize Fixture.config)%Z) by (cbn; lia).
  split; [exact Hpos|].
  destruct (test_endpoint_extends_the_earlier_one Fixture.config
              (Fixture.test_request "secret") Fixture.world Hpos)
    as (_ & _ & _ & H & _).
  exact H.
Defined.
